(* ===================================================================== *)
(* Voice-interaction pipeline (speech-to-text, language model,           *)
(* text-to-speech): a shallow embedding of                               *)
(*   src/src/gemma_client.py   (GemmaClient)                             *)
(*   src/src/stt_whisper.py    (WhisperSTT)                              *)
(*   src/src/tts_elevenlabs.py (ElevenLabsTTS)                           *)
(*   src/src/main.py           (VoiceAssistant)                          *)
(* and the properties of the specification checked against it.           *)
(*                                                                       *)
(* Python objects that are mutated in place (the conversation lists)     *)
(* live in an explicit heap, so that aliasing between a caller's list    *)
(* and the client's own list is visible.  Exceptions, the console, the   *)
(* file system and the calls to the external engines are threaded        *)
(* through a state-and-exception monad.  The external engines            *)
(* themselves (sounddevice, Whisper, the Gemini API, ElevenLabs) are      *)
(* arguments of the embedded functions.  Console lines are kept as       *)
(* plain ASCII text: the Korean messages are given in English, and       *)
(* pictographs and interpolated numbers are left out.  A recording       *)
(* duration is a binary64 float, and the frame count computed from it    *)
(* is computed in float arithmetic.                                      *)
(* ===================================================================== *)

From Stdlib Require Import PrimFloat SpecFloat FloatOps.
From Stdlib Require Import ZArith QArith String Ascii List Lia.
From stdpp Require Import base list strings gmap.

Local Open Scope Z_scope.
Local Open Scope string_scope.
Local Open Scope list_scope.

(* --------------------------------------------------------------------- *)
(* Python values shared by the four modules                              *)
(* --------------------------------------------------------------------- *)

(** A raised exception: its class name and [str(e)]. *)
Record exn := Exn { exn_class : string; exn_msg : string }.

(** What a call does: it returns a value or raises. *)
Inductive outcome (A : Type) : Type :=
| Returned (a : A)
| Raised (e : exn).
Arguments Returned {A} a.
Arguments Raised {A} e.

Definition bytes := list Byte.byte.

(** A float sample of a recording, idealised as a rational. *)
Definition sample := Q.
Definition AudioBuffer := list sample.

(** [{"role": r, "parts": [{"text": t1}, ...]}] *)
Record message := Message { role : string; parts : list string }.

(** The [contents] argument of [client.models.generate_content]:
    the bare prompt or a list of messages. *)
Inductive content_input :=
| ContentText (prompt : string)
| ContentMessages (messages : list message).

(** The part of a Gemini response that [generate_response] reads.
    A part is [Some t] when it has a [text] attribute that is not None.
    [content_parts] is [None] when reading [.content.parts] of the
    candidate raises (the content is None). *)
Record candidate := Candidate { content_parts : option (list (option string)) }.
Record response := Response { candidates : option (list candidate) }.

(** One-shot iterator of audio chunks returned by the ElevenLabs client;
    it may raise while it is being consumed. *)
Inductive chunks :=
| Done
| Chunk (c : bytes) (rest : chunks)
| Broken (e : exn).

(** What [text_to_speech] hands back: joined bytes (streamed mode) or the
    iterator returned by [convert] (buffered mode). *)
Inductive audio :=
| AudioBytes (b : bytes)
| AudioIter (s : chunks).

Inductive audio_source :=
| FromPath (path : string)
| FromData (data : AudioBuffer).

Record device_info := Device { name : string; max_input_channels : Z }.

(* --------------------------------------------------------------------- *)
(* The world: heap of list objects, files, console and engine calls      *)
(* --------------------------------------------------------------------- *)

(** References to list objects. *)
Abbreviation loc := nat (only parsing).

Inductive event :=
| Console (line : string)
| QueryDevices
| SdRec (frames : Z) (device : nat)
| WhisperTranscribe (src : audio_source)
| GenerateContent (model : string) (contents : content_input)
| TtsConvert (text voice model : string)
| TtsStream (text voice model : string)
| Play (payload : bytes)
| StreamPlay (payload : bytes).

(** [conversation_history] is the attribute [self.conversation_history] of
    the session's GemmaClient object: a reference to a list object. *)
Record world := World {
  heap : list (list message);
  conversation_history : loc;
  files : gmap string bytes;
  log : list event
}.

Definition set_heap (h : list (list message)) (w : world) : world :=
  {| heap := h; conversation_history := conversation_history w;
     files := files w; log := log w |}.
Definition set_conversation_history (l : loc) (w : world) : world :=
  {| heap := heap w; conversation_history := l;
     files := files w; log := log w |}.
Definition set_files (f : gmap string bytes) (w : world) : world :=
  {| heap := heap w; conversation_history := conversation_history w;
     files := f; log := log w |}.
Definition set_log (l : list event) (w : world) : world :=
  {| heap := heap w; conversation_history := conversation_history w;
     files := files w; log := l |}.

(** The list object a reference points to.  Python has no dangling
    references; here a reference outside the heap reads as the empty list. *)
Definition deref_in (w : world) (l : loc) : list message := heap w !!! l.

(** The conversation history the client currently holds. *)
Definition history (w : world) : list message :=
  deref_in w (conversation_history w).

(* --------------------------------------------------------------------- *)
(* State-and-exception monad                                             *)
(* --------------------------------------------------------------------- *)

Definition M (A : Type) : Type := world -> outcome A * world.

Definition ret {A} (a : A) : M A := fun w => (Returned a, w).

Definition bind {A B} (m : M A) (k : A -> M B) : M B :=
  fun w => match m w with
           | (Returned a, w') => k a w'
           | (Raised e, w') => (Raised e, w')
           end.

Definition raise {A} (e : exn) : M A := fun w => (Raised e, w).

(** [try: body  except Exception as e: handler e]; an [exn] stands for an
    instance of [Exception]. *)
Definition try_except {A} (body : M A) (handler : exn -> M A) : M A :=
  fun w => match body w with
           | (Raised e, w') => handler e w'
           | r => r
           end.

Definition lift {A} (o : outcome A) : M A := fun w => (o, w).

Notation "'let!' x ':=' m 'in' k" := (bind m (fun x => k))
  (at level 10, x name, m at level 100, k at level 200).
Notation "m '>>' k" := (bind m (fun _ => k))
  (at level 90, right associativity).

Definition emit (ev : event) : M unit :=
  fun w => (Returned tt, set_log (log w ++ [ev]) w).

Definition print (line : string) : M unit := emit (Console line).

(** A new list object with the elements [v], as made by a list display,
    [l.copy()] or a slice. *)
Definition alloc (v : list message) : M loc :=
  fun w => (Returned (length (heap w)), set_heap (heap w ++ [v]) w).

Definition deref (l : loc) : M (list message) :=
  fun w => (Returned (deref_in w l), w).

(** [l.append(x)], in place. *)
Definition list_append (l : loc) (x : message) : M unit :=
  fun w => (Returned tt, set_heap (<[l := deref_in w l ++ [x]]> (heap w)) w).

(* --------------------------------------------------------------------- *)
(* Python built-ins                                                      *)
(* --------------------------------------------------------------------- *)

(** [str.isspace] on the code points below 256. *)
Definition is_space (c : ascii) : bool :=
  let n := nat_of_ascii c in
  ((9 <=? n)%nat && (n <=? 13)%nat) || ((28 <=? n)%nat && (n <=? 32)%nat)
  || (n =? 133)%nat || (n =? 160)%nat.

Fixpoint lstrip_chars (s : list ascii) : list ascii :=
  match s with
  | c :: s' => if is_space c then lstrip_chars s' else s
  | [] => []
  end.

(** [s.strip()] *)
Definition strip (s : string) : string :=
  string_of_list_ascii
    (rev (lstrip_chars (rev (lstrip_chars (list_ascii_of_string s))))).

(** Truthiness of a str: non-empty. *)
Definition truthy (s : string) : bool :=
  match s with EmptyString => false | String _ _ => true end.

(** [a or b] on an optional str and a str. *)
Definition or_default (a : option string) (b : string) : string :=
  match a with
  | Some t => if truthy t then t else b
  | None => b
  end.

(** [l[start:]] with Python's treatment of a negative start. *)
Definition slice_from {A} (start : Z) (l : list A) : list A :=
  let n := Z.of_nat (length l) in
  let s := if (start <? 0)%Z then Z.max 0 (n + start) else Z.min start n in
  drop (Z.to_nat s) l.

(** [int(x)], truncation towards zero, on a product taken exactly: used
    for [0.1 * self.sample_rate], whose float value at 16000 is 1600.0 as
    well. *)
Definition py_int (x : Q) : Z := Z.quot (Qnum x) (Z.pos (Qden x)).

(** The conversion of the int operand of [float * int]: the nearest
    binary64 value, ties to even; an int too large for a float raises. *)
Definition float_of_int (n : Z) : outcome float :=
  match binary_normalize prec emax n 0 false with
  | S754_infinity _ =>
      Raised {| exn_class := "OverflowError";
                exn_msg := "int too large to convert to float" |}
  | x => Returned (SF2Prim x)
  end.

(** [int(x)] on a float: truncation towards zero; infinity and NaN
    raise. *)
Definition int_of_float (x : float) : outcome Z :=
  match Prim2SF x with
  | S754_zero _ => Returned 0
  | S754_infinity _ =>
      Raised {| exn_class := "OverflowError";
                exn_msg := "cannot convert float infinity to integer" |}
  | S754_nan =>
      Raised {| exn_class := "ValueError";
                exn_msg := "cannot convert float NaN to integer" |}
  | S754_finite sign m e =>
      let magnitude := Z.shiftl (Z.pos m) e in
      Returned (if sign then - magnitude else magnitude)
  end.

(* --------------------------------------------------------------------- *)
(* src/gemma_client.py                                                   *)
(* --------------------------------------------------------------------- *)

Module GemmaClient.

(** [self.client.models.generate_content(model=..., contents=...)] *)
Definition engine := string -> content_input -> outcome response.

Definition user_message (text : string) : message :=
  {| role := "user"; parts := [text] |}.
Definition model_message (text : string) : message :=
  {| role := "model"; parts := [text] |}.

Definition call_generate_content (eng : engine) (model : string)
    (contents : content_input) : M response :=
  emit (GenerateContent model contents) >> lift (eng model contents).

(** Truthiness of the [context] argument: not None and not empty. *)
Definition context_truthy (context : option loc) : M bool :=
  match context with
  | None => ret false
  | Some c => let! xs := deref c in
              ret (match xs with [] => false | _ => true end)
  end.

Definition nonempty {A} (l : list A) : bool :=
  match l with [] => false | _ => true end.

(** Lines 87-104. *)
Definition _update_conversation_history (user_input assistant_response : string)
    (max_history : Z) : M unit :=
  fun w =>
    (let! _ := list_append (conversation_history w) (user_message user_input) in
     let! _ := list_append (conversation_history w)
                 (model_message assistant_response) in
     let! h := deref (conversation_history w) in
     if (Z.of_nat (length h) >? max_history * 2)%Z then
       let! l' := alloc (slice_from (- max_history * 2) h) in
       fun w' => (Returned tt, set_conversation_history l' w')
     else ret tt) w.

(** Lines 52-59: the content sent to the model. *)
Definition prepare_content (prompt : string) (context : option loc)
    : M content_input :=
  fun w =>
    (let! use_context := context_truthy context in
     let! own := deref (conversation_history w) in
     if use_context || nonempty own then
       let! messages :=
         match context with
         | Some c => if use_context then ret c else alloc own
         | None => alloc own
         end in
       let! _ := list_append messages (user_message prompt) in
       let! ms := deref messages in
       ret (ContentMessages ms)
     else ret (ContentText prompt)) w.

(** Lines 69-73: the text of the first candidate's parts; reading the
    parts of a candidate without content raises. *)
Definition response_text (r : response) : outcome string :=
  match candidates r with
  | Some (first :: _) =>
      match content_parts first with
      | Some ps =>
          Returned (fold_left
                      (fun acc p => match p with
                                    | Some t => if truthy t then acc +:+ t else acc
                                    | None => acc
                                    end) ps "")
      | None => Raised {| exn_class := "AttributeError";
                          exn_msg := "'NoneType' object has no attribute 'parts'" |}
      end
  | _ => Returned ""
  end.

(** Lines 50-85.  [max_tokens] and the keyword arguments are not used by
    the body. *)
Definition generate_response (eng : engine) (model_name : string)
    (prompt : string) (context : option loc) : M string :=
  try_except
    (let! content_input := prepare_content prompt context in
     let! resp := call_generate_content eng model_name content_input in
     let! content_text := lift (response_text resp) in
     if truthy content_text then
       let! external := context_truthy context in
       let! _ := (if negb external
                  then _update_conversation_history prompt content_text 10
                  else ret tt) in
       ret (strip content_text)
     else ret "Sorry, I couldn't generate a response. Please try again.")
    (fun e =>
       print ("Error generating response: " +:+ exn_msg e) >>
       ret ("An error occurred: " +:+ exn_msg e)).

(** Line 36 of [__init__]: [self.conversation_history = []]. *)
Definition init : M unit :=
  let! l := alloc [] in
  fun w => (Returned tt, set_conversation_history l w).

(** Lines 106-108. *)
Definition clear_conversation_history : M unit :=
  let! l := alloc [] in
  fun w => (Returned tt, set_conversation_history l w).

End GemmaClient.

(* --------------------------------------------------------------------- *)
(* src/stt_whisper.py                                                    *)
(* --------------------------------------------------------------------- *)

Module WhisperSTT.

(** The attributes set by [__init__]. *)
Record self := Self {
  sample_rate : Z;
  channels : Z;
  device_id : option nat
}.

(** Lines 20-23 of [__init__]. *)
Definition attributes (device : option nat) : self :=
  {| sample_rate := 16000; channels := 1; device_id := device |}.

(** The external calls of the module: [sd.query_devices()],
    [sd.rec(frames, samplerate, channels, device)] followed by
    [sd.wait()], [os.path.exists] and [model.transcribe(...)["text"]]. *)
Record engines := Engines {
  sd_query_devices : outcome (list device_info);
  sd_rec : Z -> Z -> Z -> nat -> outcome (list (list sample));
  path_exists : string -> bool;
  model_transcribe : audio_source -> outcome string
}.

Definition call_query_devices (eng : engines) : M (list device_info) :=
  emit QueryDevices >> lift (sd_query_devices eng).

Definition call_rec (eng : engines) (s : self) (frames : Z) (device : nat)
    : M (list (list sample)) :=
  emit (SdRec frames device) >>
  lift (sd_rec eng frames (sample_rate s) (channels s) device).

Definition call_transcribe (eng : engines) (src : audio_source) : M string :=
  emit (WhisperTranscribe src) >> lift (model_transcribe eng src).

(** Lines 41-58: the loop over [enumerate(devices)], from index [i]. *)
Fixpoint probe_devices (eng : engines) (s : self) (i : nat)
    (devices : list device_info) : M (option nat) :=
  match devices with
  | [] => ret None
  | device :: rest =>
      if (max_input_channels device >? 0)%Z then
        try_except
          (let! _ := call_rec eng s
                       (py_int (Qmult (1 # 10) (inject_Z (sample_rate s)))) i in
           print ("Working device found: " +:+ name device) >>
           ret (Some i))
          (fun _ => probe_devices eng s (S i) rest)
      else probe_devices eng s (S i) rest
  end.

(** Lines 29-69. *)
Definition _find_working_device (eng : engines) (s : self) : M (option nat) :=
  try_except
    (let! devices := call_query_devices eng in
     print "Detecting audio input devices..." >>
     let! found := probe_devices eng s 0 devices in
     match found with
     | Some i => ret (Some i)
     | None =>
         print "No working audio input device found." >>
         print "How to fix:" >>
         print "   1. Allow app access under Windows Settings > Privacy > Microphone" >>
         print "   2. Check that a microphone is connected" >>
         print "   3. Check whether another app is using the microphone" >>
         ret None
     end)
    (fun e => print ("Error during device detection: " +:+ exn_msg e) >>
              ret None).

(** [int(duration * self.sample_rate)] (line 89), in binary64
    arithmetic. *)
Definition frame_count (s : self) (duration : float) : outcome Z :=
  match float_of_int (sample_rate s) with
  | Returned rate => int_of_float (PrimFloat.mul duration rate)
  | Raised e => Raised e
  end.

(** Lines 71-102.  [None] is Python's None.  The frame count is computed
    inside the [try], before the recording call. *)
Definition record_audio (eng : engines) (s : self) (duration : float)
    : M (option AudioBuffer) :=
  match device_id s with
  | None => raise {| exn_class := "RuntimeError";
                     exn_msg := "No working audio input device. Check the Windows microphone permission." |}
  | Some d =>
      print "Recording... (Press Ctrl+C to stop early)" >>
      print "   Device ID in use" >>
      try_except
        (let! frames := lift (frame_count s duration) in
         let! audio_data := call_rec eng s frames d in
         print "Recording completed" >>
         ret (Some (concat audio_data)))
        (fun e => print ("Error during recording: " +:+ exn_msg e) >>
                  ret None)
  end.

(** Lines 104-129. *)
Definition transcribe_audio (eng : engines) (audio_data : option AudioBuffer)
    (audio_path : option string) : M string :=
  try_except
    (let from_file := match audio_path with
                      | Some p => truthy p && path_exists eng p
                      | None => false
                      end in
     let! text :=
       match audio_path, audio_data with
       | Some p, _ =>
           if from_file then call_transcribe eng (FromPath p)
           else match audio_data with
                | Some d => call_transcribe eng (FromData d)
                | None => raise {| exn_class := "ValueError";
                                   exn_msg := "Either audio_data or audio_path must be provided" |}
                end
       | None, Some d => call_transcribe eng (FromData d)
       | None, None => raise {| exn_class := "ValueError";
                                exn_msg := "Either audio_data or audio_path must be provided" |}
       end in
     ret (strip text))
    (fun e => print ("Error during transcription: " +:+ exn_msg e) >> ret "").

(** Lines 19-27 of [__init__].  [load_error] is what
    [whisper.load_model(model_size)] raises, if it raises. *)
Definition __init__ (eng : engines) (load_error : option exn)
    (device : option nat) : M self :=
  match load_error with
  | Some e => raise e
  | None =>
      match device with
      | Some d => ret (attributes (Some d))
      | None =>
          let! found := _find_working_device eng (attributes None) in
          ret (attributes found)
      end
  end.

(** What [save_audio] and the interactive loop use of the platform:
    the formatted current time, [os.makedirs(dir, exist_ok=True)],
    [os.path.join], the [wave] module and numpy's conversion of one sample
    by [(x * 32767).astype(np.int16).tobytes()].  Of the [wave] module:
    what [wave.open(path, 'wb')] raises, if it raises (no file is made
    then); what a call between the opening and the closing of the file
    raises, if one does, with the bytes the file is left holding once the
    [with] block has closed it (the header and the frames written before
    the failure); and the bytes of a complete WAV file with given
    channels, sample width, frame rate and frames. *)
Record storage := Storage {
  now : string;
  makedirs_error : string -> option exn;
  path_join : string -> string -> string;
  wave_open_error : string -> option exn;
  wave_write_error : string -> option (exn * bytes);
  wave_bytes : Z -> Z -> Z -> bytes -> bytes;
  int16_bytes : sample -> Byte.byte * Byte.byte
}.

(** [(audio_data * 32767).astype(np.int16).tobytes()] *)
Definition pcm_frames (st : storage) (audio_data : AudioBuffer) : bytes :=
  flat_map (fun x => let '(lo, hi) := int16_bytes st x in [lo; hi]) audio_data.

(** The file at [path] is created, or replaced, with [content]. *)
Definition write_file (path : string) (content : bytes) : M unit :=
  fun w => (Returned tt, set_files (<[path := content]> (files w)) w).

(** Lines 142-161.  Opening the file creates or truncates it, so a
    failure after the opening leaves a file behind. *)
Definition save_audio (st : storage) (s : self) (audio_data : AudioBuffer)
    (filename : option string) : M string :=
  let filename := match filename with
                  | Some f => f
                  | None => "recording_" +:+ now st +:+ ".wav"
                  end in
  let! _ := match makedirs_error st "recordings" with
            | Some e => raise e
            | None => ret tt
            end in
  let filepath := path_join st "recordings" filename in
  try_except
    (let! _ := match wave_open_error st filepath with
               | Some e => raise e
               | None => ret tt
               end in
     match wave_write_error st filepath with
     | Some (e, partial) => write_file filepath partial >> raise e
     | None =>
         write_file filepath
           (wave_bytes st (channels s) 2 (sample_rate s)
              (pcm_frames st audio_data)) >>
         ret filepath
     end)
    (fun e => print ("Error saving audio: " +:+ exn_msg e) >> ret "").

End WhisperSTT.

(* --------------------------------------------------------------------- *)
(* src/tts_elevenlabs.py                                                 *)
(* --------------------------------------------------------------------- *)

Module ElevenLabsTTS.

Record self := Self { voice_id : string; model : string }.

(** The external calls of the module:
    [client.text_to_speech.convert(text, voice_id, model_id, output_format)],
    [client.text_to_speech.stream(text, voice_id, model_id)],
    [elevenlabs.play], [elevenlabs.stream] on the assembled payload, and
    [os.makedirs] followed by [open(path, 'wb')]. *)
Record engines := Engines {
  convert : string -> string -> string -> outcome chunks;
  stream : string -> string -> string -> outcome chunks;
  play : bytes -> option exn;
  stream_play : bytes -> option exn;
  open_error : string -> option exn
}.

Definition call_convert (eng : engines) (text voice mdl : string) : M chunks :=
  emit (TtsConvert text voice mdl) >> lift (convert eng text voice mdl).

Definition call_stream (eng : engines) (text voice mdl : string) : M chunks :=
  emit (TtsStream text voice mdl) >> lift (stream eng text voice mdl).

(** [b''.join(it)]: consuming an iterator of chunks. *)
Fixpoint join (s : chunks) : outcome bytes :=
  match s with
  | Done => Returned []
  | Chunk c rest =>
      match join rest with
      | Returned b => Returned (c ++ b)
      | Raised e => Raised e
      end
  | Broken e => Raised e
  end.

(** [bytes] are played as they are; an iterator is consumed first. *)
Definition payload (a : audio) : outcome bytes :=
  match a with
  | AudioBytes b => Returned b
  | AudioIter s => join s
  end.

Definition raise_if (e : option exn) : M unit :=
  match e with Some x => raise x | None => ret tt end.

Definition call_play (eng : engines) (a : audio) : M unit :=
  let! b := lift (payload a) in
  emit (Play b) >> raise_if (play eng b).

Definition call_stream_play (eng : engines) (s : chunks) : M unit :=
  let! b := lift (join s) in
  emit (StreamPlay b) >> raise_if (stream_play eng b).

Definition open_wb (eng : engines) (path : string) : M unit :=
  raise_if (open_error eng path) >>
  fun w => (Returned tt, set_files (<[path := []]> (files w)) w).

Definition file_write (path : string) (c : bytes) : M unit :=
  fun w => (Returned tt,
            set_files (<[path := default [] (files w !! path) ++ c]> (files w)) w).

(** [for chunk in it: f.write(chunk)] *)
Fixpoint write_chunks (path : string) (s : chunks) : M unit :=
  match s with
  | Done => ret tt
  | Chunk c rest => file_write path c >> write_chunks path rest
  | Broken e => raise e
  end.

(** Truthiness of what [text_to_speech] returned: None and [b''] are
    false, an iterator object is true. *)
Definition audio_truthy (a : option audio) : bool :=
  match a with
  | None => false
  | Some (AudioBytes []) => false
  | Some _ => true
  end.

(** Lines 101-153.  In buffered mode the iterator returned by [convert]
    is handed back; the loop that saves it has consumed it. *)
Definition text_to_speech (eng : engines) (s : self) (text : string)
    (voice_id_arg model_arg save_path : option string) (stream_audio : bool)
    : M (option audio) :=
  if negb (truthy (strip text)) then
    print "No text provided for TTS" >> ret None
  else
    try_except
      (let current_voice := or_default voice_id_arg (voice_id s) in
       let current_model := or_default model_arg (model s) in
       print ("Generating speech with voice " +:+ current_voice
              +:+ " and model " +:+ current_model +:+ "...") >>
       if stream_audio then
         let! audio_stream := call_stream eng text current_voice current_model in
         match save_path with
         | Some p =>
             if truthy p then
               open_wb eng p >> write_chunks p audio_stream >>
               print ("Audio saved to " +:+ p) >> ret None
             else
               let! audio_bytes := lift (join audio_stream) in
               ret (Some (AudioBytes audio_bytes))
         | None =>
             let! audio_bytes := lift (join audio_stream) in
             ret (Some (AudioBytes audio_bytes))
         end
       else
         let! audio := call_convert eng text current_voice current_model in
         match save_path with
         | Some p =>
             if truthy p then
               open_wb eng p >> write_chunks p audio >>
               print ("Audio saved to " +:+ p) >>
               ret (Some (AudioIter Done))
             else ret (Some (AudioIter audio))
         | None => ret (Some (AudioIter audio))
         end)
      (fun e => print ("Error in text-to-speech conversion: " +:+ exn_msg e) >>
                ret None).

(** Lines 155-171. *)
Definition play_audio (eng : engines) (audio_data : option audio) : M unit :=
  match audio_data with
  | Some a =>
      if audio_truthy audio_data then
        try_except (call_play eng a)
          (fun e => print ("Error playing audio: " +:+ exn_msg e) >> ret tt)
      else print "No audio data to play" >> ret tt
  | None => print "No audio data to play" >> ret tt
  end.

(** Lines 173-195. *)
Definition speak (eng : engines) (s : self) (text : string)
    (voice_id_arg model_arg : option string) (stream_audio : bool) : M unit :=
  if stream_audio then
    let! audio_stream := call_stream eng text
                           (or_default voice_id_arg (voice_id s))
                           (or_default model_arg (model s)) in
    call_stream_play eng audio_stream
  else
    let! audio := text_to_speech eng s text voice_id_arg model_arg None false in
    if audio_truthy audio then play_audio eng audio else ret tt.

End ElevenLabsTTS.

(* --------------------------------------------------------------------- *)
(* src/main.py                                                           *)
(* --------------------------------------------------------------------- *)

Module VoiceAssistant.

(** The components built by [_initialize_components], with the external
    engines each of them talks to. *)
Record self := Self {
  stt : WhisperSTT.self;
  stt_engines : WhisperSTT.engines;
  llm_model : string;
  llm_engine : GemmaClient.engine;
  tts : ElevenLabsTTS.self;
  tts_engines : ElevenLabsTTS.engines
}.

(** Lines 85-118. *)
Definition process_voice_input (s : self) (audio_data : option AudioBuffer)
    (audio_path : option string) : M (option string) :=
  try_except
    (print "Transcribing speech..." >>
     let! text := WhisperSTT.transcribe_audio (stt_engines s) audio_data audio_path in
     if negb (truthy text) then
       print "No speech detected or error in transcription." >> ret None
     else
       print ("You said: " +:+ text) >>
       print "Generating response..." >>
       let! response := GemmaClient.generate_response (llm_engine s) (llm_model s)
                          text None in
       if negb (truthy response) then
         print "No response generated." >> ret None
       else
         print ("Assistant: " +:+ response) >>
         print "Speaking..." >>
         ElevenLabsTTS.speak (tts_engines s) (tts s) response None None false >>
         ret (Some response))
    (fun e => print ("Error in voice processing: " +:+ exn_msg e) >> ret None).

(** Lines 130-151: one pass through the loop of [start_interactive_mode]
    in which no KeyboardInterrupt arrives.  [recording_duration] and
    [save_recordings] are the entries of [self.config] the loop reads. *)
Definition interactive_turn (st : WhisperSTT.storage) (s : self)
    (recording_duration : float) (save_recordings : bool) : M unit :=
  try_except
    (print "Recording..." >>
     let! audio_data := WhisperSTT.record_audio (stt_engines s) (stt s)
                          recording_duration in
     match audio_data with
     | Some a =>
         let! _ :=
           (if save_recordings then
              let! _ := match WhisperSTT.makedirs_error st "recordings" with
                        | Some e => raise e
                        | None => ret tt
                        end in
              WhisperSTT.save_audio st (stt s) a
                (Some ("recording_" +:+ WhisperSTT.now st +:+ ".wav")) >>
              ret tt
            else ret tt) in
         process_voice_input s (Some a) None >> ret tt
     | None => ret tt
     end)
    (fun e => print ("Error in interactive mode: " +:+ exn_msg e) >> ret tt).

(** The passes of a run of the loop, each with the state of the platform
    and of the engines at its time. *)
Fixpoint interactive_turns
    (turns : list (WhisperSTT.storage * self * float * bool)) : M unit :=
  match turns with
  | [] => ret tt
  | (st, s, recording_duration, save_recordings) :: rest =>
      interactive_turn st s recording_duration save_recordings >>
      interactive_turns rest
  end.

End VoiceAssistant.

(* --------------------------------------------------------------------- *)
(* Reference definitions used to state the properties                    *)
(* --------------------------------------------------------------------- *)

(** The recordings requested from sounddevice, as (frames, device). *)
Definition recordings (l : list event) : list (Z * nat) :=
  omap (fun ev => match ev with SdRec f d => Some (f, d) | _ => None end) l.

(** The contents sent to the language model. *)
Definition llm_calls (l : list event) : list content_input :=
  omap (fun ev => match ev with GenerateContent _ c => Some c | _ => None end) l.

(** The synthesis requests made, as (text, voice, model). *)
Definition convert_calls (l : list event) : list (string * string * string) :=
  omap (fun ev => match ev with TtsConvert t v m => Some (t, v, m) | _ => None end) l.
Definition stream_calls (l : list event) : list (string * string * string) :=
  omap (fun ev => match ev with TtsStream t v m => Some (t, v, m) | _ => None end) l.

(** The lines printed. *)
Definition printed (l : list event) : list string :=
  omap (fun ev => match ev with Console s => Some s | _ => None end) l.

Module DeviceSpec.
Import WhisperSTT.

(** The device at this index reports at least one input channel. *)
Definition has_input (devices : list device_info) (i : nat) : bool :=
  match devices !! i with
  | Some d => (0 <? max_input_channels d)%Z
  | None => false
  end.

(** Indices of the candidates, in the order of the enumeration. *)
Definition input_candidates (devices : list device_info) : list nat :=
  List.filter (has_input devices) (seq 0 (length devices)).

(** A 0.1 second recording at 16 kHz. *)
Definition trial_frames : Z := 1600.

Definition trial_succeeds (eng : engines) (s : self) (i : nat) : bool :=
  match sd_rec eng trial_frames (sample_rate s) (channels s) i with
  | Returned _ => true
  | Raised _ => false
  end.

(** The elements of a list up to and including the first good one. *)
Fixpoint through_first {A} (ok : A -> bool) (l : list A) : list A :=
  match l with
  | [] => []
  | x :: rest => if ok x then [x] else x :: through_first ok rest
  end.

Definition first_working (eng : engines) (s : self)
    (devices : list device_info) : option nat :=
  head (List.filter (trial_succeeds eng s) (input_candidates devices)).

Definition trials (eng : engines) (s : self)
    (devices : list device_info) : list nat :=
  through_first (trial_succeeds eng s) (input_candidates devices).

End DeviceSpec.

Module GemmaSpec.
Import GemmaClient.

(** A completed exchange: the user's prompt and the model's reply. *)
Definition exchange : Type := string * string.

Definition pair_messages (e : exchange) : list message :=
  [user_message e.1; model_message e.2].

(** The history entries of a sequence of exchanges, oldest first. *)
Definition entries (es : list exchange) : list message :=
  concat (map pair_messages es).

(** The newest [n] exchanges. *)
Definition last_pairs (n : nat) (es : list exchange) : list exchange :=
  drop (length es - n) es.

(** A history made of (user, model) pairs and nothing else. *)
Fixpoint complete_pairs (h : list message) : bool :=
  match h with
  | [] => true
  | u :: a :: rest =>
      String.eqb (role u) "user" && String.eqb (role a) "model"
      && complete_pairs rest
  | _ => false
  end.

(** What is sent to the model when the history is [h] and no context is
    given. *)
Definition contents_for (h : list message) (prompt : string) : content_input :=
  match h with
  | [] => ContentText prompt
  | _ => ContentMessages (h ++ [user_message prompt])
  end.

(** The text a successful generation yields, if the call succeeds. *)
Definition generated_text (eng : engine) (model_name : string)
    (contents : content_input) : option string :=
  match eng model_name contents with
  | Returned r =>
      match response_text r with
      | Returned t => if truthy t then Some t else None
      | Raised _ => None
      end
  | Raised _ => None
  end.

(** The text returned when the call to the model raised [e]. *)
Definition failure_reply (e : exn) : string :=
  "An error occurred: " +:+ exn_msg e.

(** The value [generate_response] returns for these contents. *)
Definition reply_for (eng : engine) (model_name : string)
    (contents : content_input) : string :=
  match eng model_name contents with
  | Returned r =>
      match response_text r with
      | Returned t =>
          if truthy t then strip t
          else "Sorry, I couldn't generate a response. Please try again."
      | Raised e => failure_reply e
      end
  | Raised e => failure_reply e
  end.

(** The history reference points into the heap. *)
Definition valid (w : world) : Prop :=
  (conversation_history w < length (heap w))%nat.

(** The argument [context] is None or an empty list. *)
Definition context_falsy (w : world) (context : option loc) : Prop :=
  match context with
  | None => True
  | Some c => deref_in w c = []
  end.

(** The same, for a reference to an existing list object. *)
Definition no_context (w : world) (context : option loc) : Prop :=
  match context with
  | None => True
  | Some c => (c < length (heap w))%nat /\ deref_in w c = []
  end.

(** What a call of [generate_response] sends to the model. *)
Definition sent_contents (w : world) (prompt : string)
    (context : option loc) : content_input :=
  match context with
  | Some c =>
      match deref_in w c with
      | [] => contents_for (history w) prompt
      | ms => ContentMessages (ms ++ [user_message prompt])
      end
  | None => contents_for (history w) prompt
  end.

(** Lines 103-104 as an expression on the list. *)
Definition trimmed (max_history : Z) (h : list message) : list message :=
  if (Z.of_nat (length h) >? max_history * 2)%Z
  then slice_from (- max_history * 2) h
  else h.

End GemmaSpec.

Module TranscriptionSpec.
Import WhisperSTT.

(** The text a call of the speech model contributes: stripped, or empty
    when the call raises. *)
Definition heard (o : outcome string) : string :=
  match o with
  | Returned t => strip t
  | Raised _ => ""
  end.

(** The transcript [transcribe_audio] returns for these arguments. *)
Definition transcript (eng : engines) (audio_data : option AudioBuffer)
    (audio_path : option string) : string :=
  let from_file := match audio_path with
                   | Some p => truthy p && path_exists eng p
                   | None => false
                   end in
  match audio_path, audio_data with
  | Some p, Some d =>
      if from_file then heard (model_transcribe eng (FromPath p))
      else heard (model_transcribe eng (FromData d))
  | Some p, None =>
      if from_file then heard (model_transcribe eng (FromPath p)) else ""
  | None, Some d => heard (model_transcribe eng (FromData d))
  | None, None => ""
  end.

End TranscriptionSpec.

Module SessionSpec.
Import GemmaClient GemmaSpec.

(** What a session does with the client: a turn of the assistant
    ([process_voice_input]), a direct call of [generate_response] without
    a context or with a list of the caller's own, and
    [clear_conversation_history]. *)
Inductive op :=
| Turn (s : VoiceAssistant.self) (audio_data : option AudioBuffer)
    (audio_path : option string)
| Generate (model_name prompt : string) (context : option (list message))
    (eng : engine)
| Clear.

Definition run_op (o : op) : M unit :=
  match o with
  | Turn s audio_data audio_path =>
      VoiceAssistant.process_voice_input s audio_data audio_path >> ret tt
  | Generate model_name prompt None eng =>
      generate_response eng model_name prompt None >> ret tt
  | Generate model_name prompt (Some ctx) eng =>
      let! c := alloc ctx in
      generate_response eng model_name prompt (Some c) >> ret tt
  | Clear => clear_conversation_history
  end.

Fixpoint run_session (ops : list op) : M unit :=
  match ops with
  | [] => ret tt
  | o :: rest => run_op o >> run_session rest
  end.

(** The exchanges after a call without context, given those before. *)
Definition after_prompt (eng : engine) (model_name prompt : string)
    (before : list exchange) : list exchange :=
  match generated_text eng model_name
          (contents_for (entries (last_pairs 10 before)) prompt) with
  | Some t => before ++ [(prompt, t)]
  | None => before
  end.

(** The exchanges completed by one operation. *)
Definition after_op (o : op) (before : list exchange) : list exchange :=
  match o with
  | Turn s audio_data audio_path =>
      let text := TranscriptionSpec.transcript (VoiceAssistant.stt_engines s)
                    audio_data audio_path in
      if truthy text
      then after_prompt (VoiceAssistant.llm_engine s) (VoiceAssistant.llm_model s)
             text before
      else before
  | Generate model_name prompt (Some (_ :: _)) _ => before
  | Generate model_name prompt _ eng => after_prompt eng model_name prompt before
  | Clear => []
  end.

(** The exchanges completed since the history was last emptied, given
    those completed before the operations. *)
Fixpoint session_exchanges (ops : list op) (before : list exchange)
    : list exchange :=
  match ops with
  | [] => before
  | o :: rest => session_exchanges rest (after_op o before)
  end.

(** What holds of the world once the exchanges [es] are completed. *)
Definition session_inv (w : world) (es : list exchange) : Prop :=
  valid w /\ history w = entries (last_pairs 10 es).

End SessionSpec.

Module Effects.

(** The computation always returns a value: nothing is raised. *)
Definition never_raises {A} (m : M A) : Prop :=
  forall w, exists a w', m w = (Returned a, w').

(** The computation leaves the heap of lists and the client's history
    reference alone and makes no call to the language model. *)
Definition llm_untouched {A} (m : M A) : Prop :=
  forall w,
    heap (m w).2 = heap w /\
    conversation_history (m w).2 = conversation_history w /\
    llm_calls (log (m w).2) = llm_calls (log w).

End Effects.

Module SynthesisSpec.

(** The path [text_to_speech] saves to: [save_path] when it is truthy. *)
Definition save_target (save_path : option string) : option string :=
  match save_path with
  | Some p => if truthy p then Some p else None
  | None => None
  end.

End SynthesisSpec.

(* --------------------------------------------------------------------- *)
(* Further reference definitions                                         *)
(* --------------------------------------------------------------------- *)

(** The payloads handed to [elevenlabs.play] and to [elevenlabs.stream]. *)
Definition played (l : list event) : list bytes :=
  omap (fun ev => match ev with Play b => Some b | _ => None end) l.
Definition stream_played (l : list event) : list bytes :=
  omap (fun ev => match ev with StreamPlay b => Some b | _ => None end) l.

(** What the speech model was asked to transcribe. *)
Definition transcriptions (l : list event) : list audio_source :=
  omap (fun ev => match ev with WhisperTranscribe a => Some a | _ => None end) l.

(** Whether the devices were enumerated. *)
Definition enumerations (l : list event) : nat :=
  length (omap (fun ev => match ev with QueryDevices => Some tt | _ => None end) l).

Module DeliverySpec.

(** The bytes an iterator yields before it ends or raises. *)
Fixpoint delivered (s : chunks) : bytes :=
  match s with
  | Done => []
  | Chunk c rest => c ++ delivered rest
  | Broken _ => []
  end.

(** The engine call [text_to_speech] makes in each mode. *)
Definition engine_call (eng : ElevenLabsTTS.engines) (stream_audio : bool)
    : string -> string -> string -> outcome chunks :=
  if stream_audio then ElevenLabsTTS.stream eng else ElevenLabsTTS.convert eng.

End DeliverySpec.

Module ResponseSpec.

(** The texts of the parts of a candidate that have one, in order. *)
Definition part_texts (ps : list (option string)) : list string :=
  omap (fun p => p) ps.

(** The texts put one after the other. *)
Definition joined (ts : list string) : string :=
  fold_right String.append "" ts.

End ResponseSpec.

Module CaptureSpec.
Import WhisperSTT.

(** What [transcribe_audio] hands to the speech model: the file when the
    path is non-empty and exists, else the buffer when there is one. *)
Definition chosen_source (eng : engines) (audio_data : option AudioBuffer)
    (audio_path : option string) : option audio_source :=
  match audio_path with
  | Some p =>
      if truthy p && path_exists eng p then Some (FromPath p)
      else FromData <$> audio_data
  | None => FromData <$> audio_data
  end.

(** The device automatic detection settles on. *)
Definition detected (eng : engines) : option nat :=
  match sd_query_devices eng with
  | Returned devices => DeviceSpec.first_working eng (attributes None) devices
  | Raised _ => None
  end.

(** The name and the path of the file a recording is saved to. *)
Definition recording_name (st : storage) (filename : option string) : string :=
  match filename with
  | Some f => f
  | None => "recording_" +:+ now st +:+ ".wav"
  end.
Definition recording_path (st : storage) (filename : option string) : string :=
  path_join st "recordings" (recording_name st filename).

End CaptureSpec.

Module Frame.

(** The computation leaves this aspect of the world as it was, whether it
    returns or raises. *)
Definition keeps {X A} (f : world -> X) (m : M A) : Prop :=
  forall w, f (m w).2 = f w.

(** The aspects used below. *)
Definition lists (w : world) : list (list message) * nat :=
  (heap w, conversation_history w).
Definition heard (w : world) : list audio_source := transcriptions (log w).
Definition asked (w : world) : list content_input := llm_calls (log w).
Definition spoken (w : world) : list (string * string * string) :=
  convert_calls (log w).

End Frame.

(* --------------------------------------------------------------------- *)
(* Concrete engines and worlds                                           *)
(* --------------------------------------------------------------------- *)

Module Examples.

Definition network_error : exn :=
  {| exn_class := "ConnectionError"; exn_msg := "network down" |}.

(** A language model that is unreachable, and one that answers. *)
Definition failing_llm : GemmaClient.engine := fun _ _ => Raised network_error.
Definition answering_llm : GemmaClient.engine :=
  fun _ _ => Returned {| candidates :=
                           Some [ {| content_parts := Some [Some "Hi there"] |} ] |}.

(** A new client: an empty history list. *)
Definition new_world : world :=
  {| heap := [[]]; conversation_history := 0%nat; files := ∅; log := [] |}.

(** A client after one exchange (list 0), next to a list of the
    caller's (list 1). *)
Definition talked_world : world :=
  {| heap := [[GemmaClient.user_message "Hello";
               GemmaClient.model_message "Hi there"];
              [GemmaClient.user_message "earlier"]];
     conversation_history := 0%nat; files := ∅; log := [] |}.

(** A new client next to an empty list of the caller's (list 1). *)
Definition empty_context_world : world :=
  {| heap := [[]; []]; conversation_history := 0%nat; files := ∅; log := [] |}.

Definition two_devices : list device_info :=
  [ {| name := "Speakers"; max_input_channels := 0 |};
    {| name := "Microphone"; max_input_channels := 2 |} ].

(** A microphone that records and a speech model that hears "hello". *)
Definition working_stt : WhisperSTT.engines :=
  {| WhisperSTT.sd_query_devices := Returned two_devices;
     WhisperSTT.sd_rec := fun _ _ _ _ => Returned [];
     WhisperSTT.path_exists := fun _ => false;
     WhisperSTT.model_transcribe := fun _ => Returned " hello " |}.

(** The same with a speech model that hears nothing. *)
Definition silent_stt : WhisperSTT.engines :=
  {| WhisperSTT.sd_query_devices := Returned two_devices;
     WhisperSTT.sd_rec := fun _ _ _ _ => Returned [];
     WhisperSTT.path_exists := fun _ => false;
     WhisperSTT.model_transcribe := fun _ => Returned "   " |}.

(** A microphone whose recording call raises. *)
Definition device_error : exn :=
  {| exn_class := "PortAudioError"; exn_msg := "device unavailable" |}.
Definition broken_stt : WhisperSTT.engines :=
  {| WhisperSTT.sd_query_devices := Returned two_devices;
     WhisperSTT.sd_rec := fun _ _ _ _ => Raised device_error;
     WhisperSTT.path_exists := fun _ => false;
     WhisperSTT.model_transcribe := fun _ => Returned "" |}.

Definition default_voice : ElevenLabsTTS.self :=
  {| ElevenLabsTTS.voice_id := "uyVNoMrnUku1dZyVEXwD";
     ElevenLabsTTS.model := "eleven_flash_v2_5" |}.

Definition two_chunks : chunks :=
  Chunk [Byte.x49; Byte.x44] (Chunk [Byte.x33] Done).

(** A synthesis engine that works, and one that is unreachable. *)
Definition working_tts : ElevenLabsTTS.engines :=
  {| ElevenLabsTTS.convert := fun _ _ _ => Returned two_chunks;
     ElevenLabsTTS.stream := fun _ _ _ => Returned two_chunks;
     ElevenLabsTTS.play := fun _ => None;
     ElevenLabsTTS.stream_play := fun _ => None;
     ElevenLabsTTS.open_error := fun _ => None |}.
Definition offline_tts : ElevenLabsTTS.engines :=
  {| ElevenLabsTTS.convert := fun _ _ _ => Raised network_error;
     ElevenLabsTTS.stream := fun _ _ _ => Raised network_error;
     ElevenLabsTTS.play := fun _ => None;
     ElevenLabsTTS.stream_play := fun _ => None;
     ElevenLabsTTS.open_error := fun _ => None |}.

Definition assistant (stt_eng : WhisperSTT.engines)
    (llm_eng : GemmaClient.engine) : VoiceAssistant.self :=
  {| VoiceAssistant.stt := WhisperSTT.attributes (Some 1%nat);
     VoiceAssistant.stt_engines := stt_eng;
     VoiceAssistant.llm_model := "gemma-3-27b-it";
     VoiceAssistant.llm_engine := llm_eng;
     VoiceAssistant.tts := default_voice;
     VoiceAssistant.tts_engines := working_tts |}.

End Examples.

(** Further engines, platforms and assistants. *)
Module Scenarios.

Definition hi_there : response :=
  {| candidates := Some [ {| content_parts := Some [Some "Hi there"] |} ] |}.

(** A language model whose text is two spaces. *)
Definition blank_response : response :=
  {| candidates := Some [ {| content_parts := Some [Some "  "] |} ] |}.
Definition blank_llm : GemmaClient.engine := fun _ _ => Returned blank_response.

(** A language model that answers without candidates. *)
Definition mute_llm : GemmaClient.engine :=
  fun _ _ => Returned {| candidates := Some [] |}.

(** An iterator that yields one chunk and then raises, and a synthesis
    engine that returns it. *)
Definition breaking_chunks : chunks :=
  Chunk [Byte.x49; Byte.x44] (Broken Examples.network_error).
Definition breaking_tts : ElevenLabsTTS.engines :=
  {| ElevenLabsTTS.convert := fun _ _ _ => Returned breaking_chunks;
     ElevenLabsTTS.stream := fun _ _ _ => Returned breaking_chunks;
     ElevenLabsTTS.play := fun _ => None;
     ElevenLabsTTS.stream_play := fun _ => None;
     ElevenLabsTTS.open_error := fun _ => None |}.

(** A microphone that records two blocks of samples. *)
Definition two_blocks : list (list sample) := [[0 # 1; 1 # 2]; [-1 # 2]]%Q.
Definition recording_stt : WhisperSTT.engines :=
  {| WhisperSTT.sd_query_devices := Returned Examples.two_devices;
     WhisperSTT.sd_rec := fun _ _ _ _ => Returned two_blocks;
     WhisperSTT.path_exists := fun p => String.eqb p "question.wav";
     WhisperSTT.model_transcribe := fun _ => Returned " hello " |}.

(** A platform on which files can be written, with a WAV header of four
    bytes and samples written as zero, and one on which the directory
    cannot be made. *)
Definition disk : WhisperSTT.storage :=
  {| WhisperSTT.now := "20250101_120000";
     WhisperSTT.makedirs_error := fun _ => None;
     WhisperSTT.path_join := fun a b => a +:+ "/" +:+ b;
     WhisperSTT.wave_open_error := fun _ => None;
     WhisperSTT.wave_write_error := fun _ => None;
     WhisperSTT.wave_bytes := fun _ _ _ frames =>
       [Byte.x52; Byte.x49; Byte.x46; Byte.x46] ++ frames;
     WhisperSTT.int16_bytes := fun _ => (Byte.x00, Byte.x00) |}.
Definition permission_error : exn :=
  {| exn_class := "PermissionError"; exn_msg := "permission denied" |}.
Definition read_only_disk : WhisperSTT.storage :=
  {| WhisperSTT.now := "20250101_120000";
     WhisperSTT.makedirs_error := fun _ => Some permission_error;
     WhisperSTT.path_join := fun a b => a +:+ "/" +:+ b;
     WhisperSTT.wave_open_error := fun _ => None;
     WhisperSTT.wave_write_error := fun _ => None;
     WhisperSTT.wave_bytes := fun _ _ _ frames =>
       [Byte.x52; Byte.x49; Byte.x46; Byte.x46] ++ frames;
     WhisperSTT.int16_bytes := fun _ => (Byte.x00, Byte.x00) |}.

(** A platform on which the file can be opened but its frames cannot be
    written: the header is all that is left in it. *)
Definition disk_full : exn :=
  {| exn_class := "OSError"; exn_msg := "No space left on device" |}.
Definition full_disk : WhisperSTT.storage :=
  {| WhisperSTT.now := "20250101_120000";
     WhisperSTT.makedirs_error := fun _ => None;
     WhisperSTT.path_join := fun a b => a +:+ "/" +:+ b;
     WhisperSTT.wave_open_error := fun _ => None;
     WhisperSTT.wave_write_error := fun _ =>
       Some (disk_full, [Byte.x52; Byte.x49; Byte.x46; Byte.x46]);
     WhisperSTT.wave_bytes := fun _ _ _ frames =>
       [Byte.x52; Byte.x49; Byte.x46; Byte.x46] ++ frames;
     WhisperSTT.int16_bytes := fun _ => (Byte.x00, Byte.x00) |}.

(** The float of the literal [2.01], and five seconds. *)
Definition duration_2_01 : float := 0x1.0147ae147ae14p+1%float.
Definition duration_5 : float := 5%float.

(** An assistant whose recorder found no device. *)
Definition deaf_assistant : VoiceAssistant.self :=
  {| VoiceAssistant.stt := WhisperSTT.attributes None;
     VoiceAssistant.stt_engines := Examples.working_stt;
     VoiceAssistant.llm_model := "gemma-3-27b-it";
     VoiceAssistant.llm_engine := Examples.answering_llm;
     VoiceAssistant.tts := Examples.default_voice;
     VoiceAssistant.tts_engines := Examples.working_tts |}.

End Scenarios.

(* --------------------------------------------------------------------- *)
(* Stepping through the monad                                            *)
(* --------------------------------------------------------------------- *)

Ltac step :=
  unfold bind, ret, raise, lift, try_except, emit, print,
    set_log, set_heap, set_files, set_conversation_history; cbn.

Lemma recordings_app l1 l2 : recordings (l1 ++ l2) = recordings l1 ++ recordings l2.
Proof. unfold recordings. apply omap_app. Qed.

Lemma llm_calls_app l1 l2 : llm_calls (l1 ++ l2) = llm_calls l1 ++ llm_calls l2.
Proof. unfold llm_calls. apply omap_app. Qed.

Lemma convert_calls_app l1 l2 :
  convert_calls (l1 ++ l2) = convert_calls l1 ++ convert_calls l2.
Proof. unfold convert_calls. apply omap_app. Qed.

Lemma stream_calls_app l1 l2 :
  stream_calls (l1 ++ l2) = stream_calls l1 ++ stream_calls l2.
Proof. unfold stream_calls. apply omap_app. Qed.

Lemma printed_app l1 l2 : printed (l1 ++ l2) = printed l1 ++ printed l2.
Proof. unfold printed. apply omap_app. Qed.

(* --------------------------------------------------------------------- *)
(* Audio device resolver                                                 *)
(* --------------------------------------------------------------------- *)

Section DeviceResolver.
Import WhisperSTT DeviceSpec.
Variable eng : engines.
Variable dev : option nat.
Abbreviation s := (attributes dev).

Lemma trial_frames_computed :
  py_int (Qmult (1 # 10) (inject_Z (sample_rate s))) = trial_frames.
Proof. reflexivity. Qed.

Lemma has_input_middle pre d rest :
  has_input (pre ++ d :: rest) (length pre) = (0 <? max_input_channels d)%Z.
Proof. unfold has_input. by rewrite list_lookup_middle. Qed.

(** The loop from index [length pre] on the remaining devices. *)
Lemma probe_devices_spec rest : forall pre w,
  let cands := List.filter (has_input (pre ++ rest))
                 (seq (length pre) (length rest)) in
  exists w',
    probe_devices eng s (length pre) rest w
      = (Returned (head (List.filter (trial_succeeds eng s) cands)), w') /\
    recordings (log w') = recordings (log w)
      ++ map (fun i => (trial_frames, i))
           (through_first (trial_succeeds eng s) cands).
Proof.
  induction rest as [|d rest IH]; intros pre w; cbn -[py_int].
  - exists w. split; [reflexivity|]. by rewrite app_nil_r.
  - rewrite has_input_middle.
    assert (Hshift : pre ++ d :: rest = (pre ++ [d]) ++ rest)
      by (by rewrite <- app_assoc).
    assert (Hlen : S (length pre) = length (pre ++ [d]))
      by (rewrite length_app; cbn; lia).
    replace (max_input_channels d >? 0)%Z with (0 <? max_input_channels d)%Z
      by (rewrite Z.gtb_ltb; reflexivity).
    destruct (0 <? max_input_channels d)%Z eqn:Hch.
    + change (py_int _) with trial_frames.
      cbn [List.filter through_first].
      assert (Hok : trial_succeeds eng s (length pre)
                    = match sd_rec eng trial_frames 16000 1 (length pre) with
                      | Returned _ => true
                      | Raised _ => false
                      end) by reflexivity.
      unfold call_rec, try_except, bind, emit, lift, print, ret. cbn.
      destruct (sd_rec eng trial_frames 16000 1 (length pre)) eqn:Hrec;
        rewrite Hok; cbn.
      * eexists. split; [reflexivity|]. cbn.
        rewrite !recordings_app. cbn. by rewrite app_nil_r.
      * rewrite Hshift, Hlen.
        destruct (IH (pre ++ [d]) (set_log (log w ++ [SdRec trial_frames (length pre)]) w))
          as (w' & Hrun & Hlog).
        exists w'. split; [exact Hrun|].
        rewrite Hlog. cbn. rewrite recordings_app. cbn.
        by rewrite <- app_assoc.
    + rewrite Hshift, Hlen. apply IH.
Qed.

End DeviceResolver.

(** C8.  [_find_working_device] goes through the enumerated devices in
    order, requests a 1600-frame (0.1 s at 16 kHz) trial recording from
    exactly the devices that report an input channel, up to and including
    the first one whose trial does not raise, and returns that one; with no
    device enumerated it returns None and requests no recording. *)
Theorem find_working_device_first_candidate
    (eng : WhisperSTT.engines) (dev : option nat)
    (devices : list device_info) (w : world) :
  WhisperSTT.sd_query_devices eng = Returned devices ->
  let s := WhisperSTT.attributes dev in
  exists w',
    WhisperSTT._find_working_device eng s w
      = (Returned (DeviceSpec.first_working eng s devices), w') /\
    recordings (log w') = recordings (log w)
      ++ map (fun i => (DeviceSpec.trial_frames, i)) (DeviceSpec.trials eng s devices) /\
    (forall i, In i (DeviceSpec.trials eng s devices) ->
               DeviceSpec.has_input devices i = true) /\
    (devices = [] ->
       DeviceSpec.first_working eng s devices = None /\
       recordings (log w') = recordings (log w)).
Proof.
  intros Hq s.
  unfold WhisperSTT._find_working_device, WhisperSTT.call_query_devices.
  step. rewrite Hq. cbn.
  match goal with
  | |- context [WhisperSTT.probe_devices _ _ 0 devices ?w0] =>
      destruct (probe_devices_spec eng dev devices [] w0) as (w1 & Hrun & Hlog)
  end.
  cbn [length app] in Hrun, Hlog. fold s in Hrun, Hlog. rewrite Hrun.
  fold (DeviceSpec.input_candidates devices) in *.
  fold (DeviceSpec.first_working eng s devices).
  fold (DeviceSpec.trials eng s devices) in Hlog.
  unfold set_log in Hlog. cbn [log] in Hlog.
  rewrite !recordings_app in Hlog. cbn in Hlog. rewrite !app_nil_r in Hlog.
  assert (Hcand : forall i, In i (DeviceSpec.trials eng s devices) ->
                            DeviceSpec.has_input devices i = true).
  { unfold DeviceSpec.trials. intros i Hi.
    assert (Hin : In i (DeviceSpec.input_candidates devices)).
    { revert Hi. generalize (DeviceSpec.input_candidates devices).
      induction l as [|x l IHl]; cbn; [tauto|].
      destruct (DeviceSpec.trial_succeeds eng s x); cbn; intuition. }
    unfold DeviceSpec.input_candidates in Hin.
    apply List.filter_In in Hin. tauto. }
  destruct (DeviceSpec.first_working eng s devices) eqn:Hfw; cbn.
  - eexists. split; [reflexivity|]. cbn. split; [exact Hlog|].
    split; [exact Hcand|]. intros ->. discriminate.
  - eexists. split; [reflexivity|]. cbn.
    rewrite !recordings_app. cbn. rewrite !app_nil_r.
    split; [exact Hlog|]. split; [exact Hcand|].
    intros ->. split; [reflexivity|].
    rewrite Hlog. cbn. by rewrite app_nil_r.
Qed.

(* --------------------------------------------------------------------- *)
(* The heap of list objects                                              *)
(* --------------------------------------------------------------------- *)

Section Heap.
Implicit Types (h : list (list message)) (v : list message) (l : loc).

Lemma heap_new h v : (h ++ [v]) !!! length h = v.
Proof. by rewrite list_lookup_total_middle. Qed.

Lemma heap_old h v l : (l < length h)%nat -> (h ++ [v]) !!! l = h !!! l.
Proof. intros. by rewrite lookup_total_app_l. Qed.

Lemma heap_same h l v : (l < length h)%nat -> <[l := v]> h !!! l = v.
Proof. intros. by rewrite list_lookup_total_insert_eq. Qed.

Lemma heap_other h l l' v : l <> l' -> <[l := v]> h !!! l' = h !!! l'.
Proof. intros. by rewrite list_lookup_total_insert_ne. Qed.

Lemma heap_nonempty_valid h l : h !!! l <> [] -> (l < length h)%nat.
Proof.
  intros Hne. destruct (decide (l < length h)%nat) as [|Hge]; [done|].
  exfalso. apply Hne. rewrite list_lookup_total_alt.
  rewrite lookup_ge_None_2; [done | lia].
Qed.
End Heap.

(* --------------------------------------------------------------------- *)
(* Conversational response engine                                        *)
(* --------------------------------------------------------------------- *)

Section ResponseEngine.
Import GemmaClient GemmaSpec.

Lemma no_context_falsy w context :
  no_context w context -> context_falsy w context.
Proof. destruct context; cbn; tauto. Qed.

Lemma context_truthy_falsy w context :
  context_falsy w context -> context_truthy context w = (Returned false, w).
Proof.
  destruct context as [c|]; cbn; [|done].
  intros Hc. unfold bind, deref. by rewrite Hc.
Qed.

Lemma context_truthy_no_context w context :
  no_context w context -> context_truthy context w = (Returned false, w).
Proof. intros Hc. by apply context_truthy_falsy, no_context_falsy. Qed.

Lemma context_truthy_external w c :
  deref_in w c <> [] -> context_truthy (Some c) w = (Returned true, w).
Proof.
  intros Hc. cbn. unfold bind, deref. by destruct (deref_in w c).
Qed.

(** Without a context the message list is built on a copy: no list
    object that existed before is touched. *)
Lemma prepare_content_own prompt context w :
  valid w -> context_falsy w context ->
  exists w1,
    prepare_content prompt context w
      = (Returned (contents_for (history w) prompt), w1) /\
    conversation_history w1 = conversation_history w /\
    (forall l, (l < length (heap w))%nat -> deref_in w1 l = deref_in w l) /\
    (length (heap w) <= length (heap w1))%nat /\
    log w1 = log w /\ files w1 = files w.
Proof.
  intros Hv Hc. unfold prepare_content, bind at 1.
  rewrite (context_truthy_falsy _ _ Hc).
  unfold bind at 1, deref at 1. fold (history w). cbn [orb].
  destruct (history w) as [|m h] eqn:Hh; cbn [nonempty contents_for].
  - exists w. unfold ret. repeat split; done.
  - assert (Hcopy : match context with
                    | Some c => if false then ret c else alloc (m :: h)
                    | None => alloc (m :: h)
                    end = alloc (m :: h)) by (by destruct context).
    rewrite Hcopy. step.
    eexists. split.
    + unfold deref_in. cbn. rewrite heap_same, heap_new; [done|].
      rewrite length_app. cbn. lia.
    + cbn. unfold deref_in. cbn. repeat split; try done.
      * intros l Hl. rewrite heap_other by lia. by rewrite heap_old.
      * rewrite length_insert, length_app. lia.
Qed.

Lemma update_conversation_history_spec user_input assistant_response
    max_history w :
  valid w ->
  exists w',
    _update_conversation_history user_input assistant_response max_history w
      = (Returned tt, w') /\
    valid w' /\
    history w' = trimmed max_history
                   (history w ++ [user_message user_input;
                                  model_message assistant_response]) /\
    (forall l, (l < length (heap w))%nat -> l <> conversation_history w ->
               deref_in w' l = deref_in w l) /\
    (length (heap w) <= length (heap w'))%nat /\
    log w' = log w /\ files w' = files w.
Proof.
  intros Hv. unfold valid in Hv.
  unfold _update_conversation_history, trimmed, history. step.
  unfold deref_in. cbn.
  rewrite !heap_same by (rewrite ?length_insert; lia).
  rewrite <- app_assoc. cbn [app].
  set (h := heap w !!! conversation_history w ++ _).
  destruct (Z.of_nat (length h) >? max_history * 2)%Z; cbn.
  - eexists. split; [reflexivity|]. unfold valid. cbn.
    rewrite length_app, !length_insert. cbn.
    rewrite list_lookup_total_middle by (by rewrite !length_insert).
    repeat split; try done; try lia.
    intros l Hl Hne.
    rewrite lookup_total_app_l by (rewrite !length_insert; lia).
    by rewrite !heap_other.
  - eexists. split; [reflexivity|]. unfold valid. cbn.
    rewrite !length_insert.
    rewrite heap_same by (rewrite ?length_insert; lia).
    repeat split; try done; try lia.
    intros l Hl Hne. by rewrite !heap_other.
Qed.

(** A call without context: the reply, the history and the engine call. *)
Lemma generate_response_own eng model_name prompt context w :
  valid w -> no_context w context ->
  let contents := contents_for (history w) prompt in
  exists w',
    generate_response eng model_name prompt context w
      = (Returned (reply_for eng model_name contents), w') /\
    valid w' /\
    history w' = match generated_text eng model_name contents with
                 | Some t => trimmed 10 (history w ++ [user_message prompt;
                                                      model_message t])
                 | None => history w
                 end /\
    llm_calls (log w') = llm_calls (log w) ++ [contents] /\
    convert_calls (log w') = convert_calls (log w) /\
    files w' = files w.
Proof.
  intros Hv Hc contents.
  destruct (prepare_content_own prompt context w Hv (no_context_falsy _ _ Hc))
    as (w1 & Hprep & Hhist1 & Hframe1 & Hlen1 & Hlog1 & Hfiles1).
  fold contents in Hprep.
  assert (Hh1 : history w1 = history w).
  { unfold history. rewrite Hhist1. by apply Hframe1. }
  assert (Hh1' : heap w1 !!! conversation_history w1
                 = heap w !!! conversation_history w) by exact Hh1.
  unfold valid in Hv.
  unfold generate_response, try_except, bind at 1. rewrite Hprep.
  unfold call_generate_content, reply_for, generated_text.
  unfold bind at 1, bind at 1, emit, lift. cbn.
  destruct (eng model_name contents) as [r|e]; cbn.
  2:{ step. eexists. split; [reflexivity|]. unfold valid, history, deref_in.
      cbn. rewrite Hlog1, Hfiles1, Hh1'.
      rewrite !llm_calls_app, !convert_calls_app. cbn. rewrite !app_nil_r.
      repeat split; try done. lia. }
  unfold bind at 1. cbn.
  destruct (response_text r) as [t|e]; cbn.
  2:{ step. eexists. split; [reflexivity|]. unfold valid, history, deref_in.
      cbn. rewrite Hlog1, Hfiles1, Hh1'.
      rewrite !llm_calls_app, !convert_calls_app. cbn. rewrite !app_nil_r.
      repeat split; try done. lia. }
  destruct (truthy t); cbn.
  2:{ step. eexists. split; [reflexivity|]. unfold valid, history, deref_in.
      cbn. rewrite Hlog1, Hfiles1, Hh1'.
      rewrite !llm_calls_app, !convert_calls_app. cbn. rewrite !app_nil_r.
      repeat split; try done. lia. }
  set (w2 := set_log (log w1 ++ [GenerateContent model_name contents]) w1).
  assert (Hc2 : no_context w2 context).
  { destruct context as [c|]; [|done]. destruct Hc as [Hlt Hc].
    split; [cbn; lia|]. change (deref_in w2 c) with (deref_in w1 c).
    rewrite Hframe1 by done. exact Hc. }
  assert (Hv2 : valid w2) by (unfold valid in *; cbn; lia).
  rewrite (context_truthy_no_context _ _ Hc2). cbn [negb].
  destruct (update_conversation_history_spec prompt t 10 w2 Hv2)
    as (w3 & Hupd & Hv3 & Hh3 & _ & _ & Hlog3 & Hfiles3).
  unfold bind at 1. rewrite Hupd. unfold ret.
  exists w3. split; [reflexivity|]. split; [exact Hv3|].
  rewrite Hh3, Hlog3, Hfiles3. cbn.
  rewrite Hlog1, Hfiles1, llm_calls_app, convert_calls_app. cbn.
  rewrite !app_nil_r.
  repeat split; try done.
  unfold history, deref_in. cbn. by rewrite Hh1'.
Qed.

(** A call with a non-empty context list other than the client's own
    history list: the prompt is appended to the caller's list and the
    history is left alone. *)
Lemma generate_response_external eng model_name prompt c w :
  valid w -> deref_in w c <> [] -> c <> conversation_history w ->
  let contents := ContentMessages (deref_in w c ++ [user_message prompt]) in
  exists w',
    generate_response eng model_name prompt (Some c) w
      = (Returned (reply_for eng model_name contents), w') /\
    valid w' /\ history w' = history w /\
    conversation_history w' = conversation_history w /\
    deref_in w' c = deref_in w c ++ [user_message prompt] /\
    llm_calls (log w') = llm_calls (log w) ++ [contents] /\
    files w' = files w.
Proof.
  intros Hv Hc Hne contents.
  pose proof (heap_nonempty_valid _ _ Hc) as Hlt.
  unfold generate_response, try_except, prepare_content, bind at 1, bind at 1.
  rewrite (context_truthy_external _ _ Hc).
  unfold bind at 1, deref at 1. cbn [orb]. step.
  unfold reply_for, contents, history, valid, deref_in in *. cbn.
  rewrite !heap_same by done.
  set (msgs := heap w !!! c ++ [user_message prompt]).
  assert (Hmsgs : match msgs with [] => false | _ :: _ => true end = true).
  { unfold msgs. by destruct (heap w !!! c). }
  destruct (eng model_name (ContentMessages msgs)) as [r|e]; cbn.
  2:{ eexists. split; [reflexivity|]. cbn.
      rewrite length_insert, heap_other, heap_same by done.
      rewrite !llm_calls_app. cbn. rewrite app_nil_r. repeat split; done. }
  destruct (response_text r) as [t|e]; cbn.
  2:{ eexists. split; [reflexivity|]. cbn.
      rewrite length_insert, heap_other, heap_same by done.
      rewrite !llm_calls_app. cbn. rewrite app_nil_r. repeat split; done. }
  destruct (truthy t); cbn.
  2:{ eexists. split; [reflexivity|]. cbn.
      rewrite length_insert, heap_other, heap_same by done.
      rewrite !llm_calls_app. cbn. repeat split; done. }
  rewrite !heap_same by done. fold msgs. rewrite Hmsgs. cbn.
  eexists. split; [reflexivity|]. cbn.
  rewrite length_insert, heap_other, heap_same by done.
  rewrite !llm_calls_app. cbn. repeat split; done.
Qed.

Lemma entries_app es1 es2 : entries (es1 ++ es2) = entries es1 ++ entries es2.
Proof. unfold entries. by rewrite map_app, concat_app. Qed.

Lemma length_entries es : length (entries es) = (2 * length es)%nat.
Proof.
  induction es as [|e es IH]; [done|].
  change (entries (e :: es)) with (pair_messages e ++ entries es).
  rewrite length_app, IH. cbn. lia.
Qed.

Lemma complete_pairs_entries es : complete_pairs (entries es) = true.
Proof.
  induction es as [|e es IH]; [done|].
  change (entries (e :: es))
    with (user_message e.1 :: model_message e.2 :: entries es).
  cbn. exact IH.
Qed.

Lemma entries_drop_one es : drop 2 (entries es) = entries (drop 1 es).
Proof. by destruct es as [|e es]. Qed.

Lemma length_last_pairs n es : length (last_pairs n es) = (length es `min` n)%nat.
Proof. unfold last_pairs. rewrite length_drop. lia. Qed.

(** Appending a pair and trimming to ten pairs keeps the newest ten
    exchanges. *)
Lemma trimmed_last_pairs es prompt t :
  trimmed 10 (entries (last_pairs 10 es)
              ++ [user_message prompt; model_message t])
  = entries (last_pairs 10 (es ++ [(prompt, t)])).
Proof.
  change [user_message prompt; model_message t] with (entries [(prompt, t)]).
  rewrite <- entries_app. unfold trimmed, slice_from.
  rewrite length_entries, length_app, length_last_pairs. cbn [length].
  change (- (10) * 2 <? 0)%Z with true. cbn match.
  destruct (Z.gtb_spec (Z.of_nat (2 * (length es `min` 10 + 1))) (10 * 2))
    as [Hgt|Hle].
  - replace (Z.to_nat _) with 2%nat by lia.
    rewrite entries_drop_one. f_equal.
    unfold last_pairs. rewrite length_app. cbn [length].
    rewrite <- drop_app_le by lia. rewrite drop_drop. f_equal. lia.
  - unfold last_pairs. rewrite length_app. cbn [length].
    replace (length es - 10)%nat with 0%nat by lia.
    replace (length es + 1 - 10)%nat with 0%nat by lia.
    by rewrite !drop_0.
Qed.

End ResponseEngine.

(** C2, as amended.  When the call to the model raises,
    [generate_response] (called without context, or with a context list
    that is not the client's own history list) returns the text "An error occurred: " followed by the
    reason instead of raising, and the history is the one from before the
    call. *)
Theorem generate_response_failure_keeps_history
    (eng : GemmaClient.engine) (model_name prompt : string)
    (context : option loc) (w : world) (e : exn) :
  GemmaSpec.valid w ->
  context <> Some (conversation_history w) ->
  eng model_name (GemmaSpec.sent_contents w prompt context) = Raised e ->
  exists w',
    GemmaClient.generate_response eng model_name prompt context w
      = (Returned (GemmaSpec.failure_reply e), w') /\
    conversation_history w' = conversation_history w /\
    history w' = history w.
Proof.
  intros Hv Hne Heng.
  destruct context as [c|].
  - destruct (deref_in w c) as [|m ms] eqn:Hc.
    + (* an empty context list *)
      assert (Hf : GemmaSpec.context_falsy w (Some c)) by exact Hc.
      destruct (prepare_content_own prompt (Some c) w Hv Hf)
        as (w1 & Hprep & Hhist1 & Hframe1 & _).
      unfold GemmaSpec.sent_contents in Heng. rewrite Hc in Heng.
      unfold GemmaClient.generate_response, try_except, bind at 1.
      rewrite Hprep. unfold GemmaClient.call_generate_content. step.
      rewrite Heng. cbn. eexists. split; [reflexivity|]. cbn.
      split; [done|]. unfold history, deref_in. cbn.
      rewrite Hhist1. by apply Hframe1.
    + (* a non-empty list of the caller's *)
      assert (Hc' : deref_in w c <> []) by (by rewrite Hc).
      assert (Hne' : c <> conversation_history w) by congruence.
      destruct (generate_response_external eng model_name prompt c w Hv Hc' Hne')
        as (w' & Hrun & _ & Hh & Hloc & _).
      unfold GemmaSpec.sent_contents in Heng. rewrite Hc in Heng.
      rewrite Hrun. unfold GemmaSpec.reply_for. rewrite Hc, Heng.
      exists w'. by repeat split.
  - destruct (prepare_content_own prompt None w Hv I)
      as (w1 & Hprep & Hhist1 & Hframe1 & _).
    cbn in Heng.
    unfold GemmaClient.generate_response, try_except, bind at 1.
    rewrite Hprep. unfold GemmaClient.call_generate_content. step.
    rewrite Heng. cbn. eexists. split; [reflexivity|]. cbn.
    split; [done|]. unfold history, deref_in. cbn.
    rewrite Hhist1. by apply Hframe1.
Qed.

(** C9, as the code has it.  A non-empty context list gets the new user
    entry appended in place; an absent or empty context makes
    [prepare_content] work on a copy of the stored history, which leaves
    the stored history and every other existing list as they were. *)
Theorem context_appended_in_place_history_copied
    (eng : GemmaClient.engine) (model_name prompt : string)
    (c : loc) (context : option loc) (w : world) :
  deref_in w c <> [] ->
  GemmaSpec.valid w ->
  GemmaSpec.context_falsy w context ->
  (exists r w',
     GemmaClient.generate_response eng model_name prompt (Some c) w
       = (Returned r, w') /\
     deref_in w' c = deref_in w c ++ [GemmaClient.user_message prompt]) /\
  (exists w1,
     GemmaClient.prepare_content prompt context w
       = (Returned (GemmaSpec.contents_for (history w) prompt), w1) /\
     conversation_history w1 = conversation_history w /\
     history w1 = history w /\
     forall l, (l < length (heap w))%nat -> deref_in w1 l = deref_in w l).
Proof.
  intros Hc Hv Hf. split.
  - pose proof (heap_nonempty_valid _ _ Hc) as Hlt.
    unfold GemmaClient.generate_response, try_except,
      GemmaClient.prepare_content, bind at 1, bind at 1.
    rewrite (context_truthy_external _ _ Hc).
    unfold bind at 1, deref at 1. cbn [orb]. step.
    unfold deref_in in *. cbn. rewrite !heap_same by done.
    set (msgs := heap w !!! c ++ [GemmaClient.user_message prompt]).
    assert (Hmsgs : match msgs with [] => false | _ :: _ => true end = true).
    { unfold msgs. by destruct (heap w !!! c). }
    destruct (eng model_name (ContentMessages msgs)) as [r|e]; cbn.
    2:{ eexists _, _. split; [reflexivity|]. cbn. by rewrite heap_same. }
    destruct (GemmaClient.response_text r) as [t|e]; cbn.
    2:{ eexists _, _. split; [reflexivity|]. cbn. by rewrite heap_same. }
    destruct (truthy t); cbn.
    2:{ eexists _, _. split; [reflexivity|]. cbn. by rewrite heap_same. }
    rewrite !heap_same by done. fold msgs. rewrite Hmsgs. cbn.
    eexists _, _. split; [reflexivity|]. cbn. by rewrite heap_same.
  - destruct (prepare_content_own prompt context w Hv Hf)
      as (w1 & Hprep & Hhist1 & Hframe1 & _).
    exists w1. repeat split; try done.
    unfold history. rewrite Hhist1. by apply Hframe1.
Qed.

(* --------------------------------------------------------------------- *)
(* Capture and transcription                                             *)
(* --------------------------------------------------------------------- *)

(** C5, as the code has it.  Without a device [record_audio] raises a
    RuntimeError.  With one, the frame count is int(duration x sample
    rate) in float arithmetic: when that conversion raises (an infinite
    or NaN duration) no recording is requested, and when the recording
    call raises, one was; in both cases a diagnostic is printed and None
    is returned instead of raising.  Otherwise it returns the recorded
    samples, flattened. *)
Theorem record_audio_outcomes
    (eng : WhisperSTT.engines) (s : WhisperSTT.self) (duration : float)
    (w : world) :
  match WhisperSTT.device_id s with
  | None =>
      exists e,
        WhisperSTT.record_audio eng s duration w = (Raised e, w) /\
        exn_class e = "RuntimeError"
  | Some d =>
      match WhisperSTT.frame_count s duration with
      | Raised e =>
          exists w',
            WhisperSTT.record_audio eng s duration w = (Returned None, w') /\
            recordings (log w') = recordings (log w) /\
            last (printed (log w')) = Some ("Error during recording: " +:+ exn_msg e)
      | Returned frames =>
          exists w',
            recordings (log w') = recordings (log w) ++ [(frames, d)] /\
            match WhisperSTT.sd_rec eng frames (WhisperSTT.sample_rate s)
                    (WhisperSTT.channels s) d with
            | Raised e =>
                WhisperSTT.record_audio eng s duration w = (Returned None, w') /\
                last (printed (log w'))
                  = Some ("Error during recording: " +:+ exn_msg e)
            | Returned data =>
                WhisperSTT.record_audio eng s duration w
                  = (Returned (Some (concat data)), w')
            end
      end
  end.
Proof.
  unfold WhisperSTT.record_audio.
  destruct (WhisperSTT.device_id s) as [d|].
  - unfold WhisperSTT.call_rec.
    destruct (WhisperSTT.frame_count s duration) as [frames|e]; step.
    + destruct (WhisperSTT.sd_rec eng _ _ _ d) as [data|e]; cbn.
      * eexists. split; [|reflexivity]. cbn.
        rewrite !recordings_app. cbn. by rewrite !app_nil_r.
      * eexists. split; [|split; [reflexivity|]]; cbn.
        -- rewrite !recordings_app. cbn. by rewrite !app_nil_r.
        -- rewrite printed_app. cbn. by rewrite last_snoc.
    + eexists. split; [reflexivity|]. cbn. split.
      * rewrite !recordings_app. cbn. by rewrite !app_nil_r.
      * rewrite printed_app. cbn. by rewrite last_snoc.
  - eexists. split; reflexivity.
Qed.

(** [transcribe_audio] never raises and touches only the console and the
    speech model; what it returns does not depend on the world. *)
Lemma transcribe_audio_run (eng : WhisperSTT.engines)
    (audio_data : option AudioBuffer) (audio_path : option string) :
  exists evs,
    llm_calls evs = [] /\ convert_calls evs = [] /\
    forall w, WhisperSTT.transcribe_audio eng audio_data audio_path w
              = (Returned (TranscriptionSpec.transcript eng audio_data audio_path),
                 set_log (log w ++ evs) w).
Proof.
  unfold WhisperSTT.transcribe_audio, WhisperSTT.call_transcribe,
    TranscriptionSpec.transcript, TranscriptionSpec.heard.
  destruct audio_path as [p|]; [destruct (truthy p && WhisperSTT.path_exists eng p)|];
    destruct audio_data as [d|];
    try destruct (WhisperSTT.model_transcribe eng (FromPath p)) as [t1|e1] eqn:H1;
    try destruct (WhisperSTT.model_transcribe eng (FromData d)) as [t2|e2] eqn:H2;
    eexists; (split; [|split]);
    try (intros w; step; rewrite ?H1, ?H2; cbn; unfold set_log;
         rewrite <- ?app_assoc; cbn [app]; reflexivity);
    reflexivity.
Qed.

(** C6, as the code has it.  Called with neither audio data nor a path,
    [transcribe_audio] does not raise: the ValueError is caught inside, a
    diagnostic is printed, the speech model is not called and the empty
    text is returned.  No input at all makes [transcribe_audio] raise. *)
Theorem transcribe_audio_without_input_returns_empty
    (eng : WhisperSTT.engines) (w : world) :
  WhisperSTT.transcribe_audio eng None None w
  = (Returned "",
     set_log (log w ++ [Console ("Error during transcription: "
                                 +:+ "Either audio_data or audio_path must be provided")])
       w)
  /\ forall audio_data audio_path,
       exists text w',
         WhisperSTT.transcribe_audio eng audio_data audio_path w
         = (Returned text, w').
Proof.
  split; [reflexivity|].
  intros audio_data audio_path.
  destruct (transcribe_audio_run eng audio_data audio_path)
    as (evs & _ & _ & Hrun).
  eexists _, _. apply Hrun.
Qed.

(* --------------------------------------------------------------------- *)
(* Turn orchestrator                                                     *)
(* --------------------------------------------------------------------- *)

(** C3.  A turn whose transcription is empty ends with None before the
    language model is called: no call to the model (and none to speech
    synthesis) is made and the history is untouched. *)
Theorem empty_transcript_no_llm_call
    (s : VoiceAssistant.self) (audio_data : option AudioBuffer)
    (audio_path : option string) (w : world) :
  (WhisperSTT.transcribe_audio (VoiceAssistant.stt_engines s)
     audio_data audio_path w).1 = Returned "" ->
  exists w',
    VoiceAssistant.process_voice_input s audio_data audio_path w
      = (Returned None, w') /\
    llm_calls (log w') = llm_calls (log w) /\
    convert_calls (log w') = convert_calls (log w) /\
    heap w' = heap w /\ conversation_history w' = conversation_history w.
Proof.
  intros Hempty.
  destruct (transcribe_audio_run (VoiceAssistant.stt_engines s)
              audio_data audio_path) as (evs & Hllm & Htts & Hrun).
  rewrite Hrun in Hempty. cbn [fst] in Hempty. injection Hempty as Hempty.
  unfold VoiceAssistant.process_voice_input, try_except, bind at 1.
  unfold print at 1, emit at 1. unfold bind at 1. rewrite Hrun, Hempty. step.
  eexists. split; [reflexivity|]. cbn.
  rewrite !llm_calls_app, !convert_calls_app, Hllm, Htts. cbn.
  by rewrite !app_nil_r.
Qed.

(* --------------------------------------------------------------------- *)
(* Effects of computations                                               *)
(* --------------------------------------------------------------------- *)

Section EffectLemmas.
Import Effects.
Context {A B : Type}.

Lemma never_raises_ret (a : A) : never_raises (ret a).
Proof. intros w. by exists a, w. Qed.

Lemma never_raises_bind (m : M A) (k : A -> M B) :
  never_raises m -> (forall a, never_raises (k a)) -> never_raises (bind m k).
Proof.
  intros Hm Hk w. destruct (Hm w) as (a & w1 & Hrun).
  unfold bind. rewrite Hrun. apply Hk.
Qed.

(** A handler that does not raise absorbs whatever the body raises. *)
Lemma never_raises_try_except (body : M A) (handler : exn -> M A) :
  (forall e, never_raises (handler e)) -> never_raises (try_except body handler).
Proof.
  intros Hh w. unfold try_except.
  destruct (body w) as [[a|e] w1]; [by exists a, w1|]. apply Hh.
Qed.

Lemma llm_untouched_ret (a : A) : llm_untouched (ret a).
Proof. by intros w. Qed.

Lemma llm_untouched_raise (e : exn) : llm_untouched (@raise A e).
Proof. by intros w. Qed.

Lemma llm_untouched_lift (o : outcome A) : llm_untouched (lift o).
Proof. by intros w. Qed.

Lemma llm_untouched_bind (m : M A) (k : A -> M B) :
  llm_untouched m -> (forall a, llm_untouched (k a)) -> llm_untouched (bind m k).
Proof.
  intros Hm Hk w. unfold bind. specialize (Hm w).
  destruct (m w) as [[a|e] w1]; cbn in *; [|done].
  destruct (Hk a w1) as (-> & -> & ->). done.
Qed.

Lemma llm_untouched_try_except (body : M A) (handler : exn -> M A) :
  llm_untouched body -> (forall e, llm_untouched (handler e)) ->
  llm_untouched (try_except body handler).
Proof.
  intros Hb Hh w. unfold try_except. specialize (Hb w).
  destruct (body w) as [[a|e] w1]; cbn in *; [done|].
  destruct (Hh e w1) as (-> & -> & ->). done.
Qed.

End EffectLemmas.

Lemma never_raises_print line : Effects.never_raises (print line).
Proof. intros w. by eexists _, _. Qed.

Lemma llm_untouched_print line : Effects.llm_untouched (print line).
Proof.
  intros w. cbn. rewrite llm_calls_app. cbn. by rewrite app_nil_r.
Qed.

Lemma llm_untouched_emit ev :
  match ev with GenerateContent _ _ => False | _ => True end ->
  Effects.llm_untouched (emit ev).
Proof.
  intros Hev w. cbn. rewrite llm_calls_app.
  destruct ev; cbn; try done; by rewrite app_nil_r.
Qed.

Ltac untouched :=
  repeat first
    [ match goal with H : _ |- _ => apply H end
    | apply llm_untouched_ret
    | apply llm_untouched_raise
    | apply llm_untouched_lift
    | apply llm_untouched_print
    | apply llm_untouched_emit; exact I
    | assumption
    | apply llm_untouched_bind; [|intros ?]
    | apply llm_untouched_try_except; [|intros ?]
    | match goal with
      | |- Effects.llm_untouched (if ?b then _ else _) => destruct b
      | |- Effects.llm_untouched (match ?x with _ => _ end) => destruct x
      end ].

Ltac absorbed :=
  repeat first
    [ match goal with H : _ |- _ => apply H end
    | apply never_raises_ret
    | apply never_raises_print
    | assumption
    | apply never_raises_try_except; intros ?
    | apply never_raises_bind; [|intros ?]
    | match goal with
      | |- Effects.never_raises (if ?b then _ else _) => destruct b
      | |- Effects.never_raises (match ?x with _ => _ end) => destruct x
      end ].

(* --------------------------------------------------------------------- *)
(* Speech synthesis                                                      *)
(* --------------------------------------------------------------------- *)

Section Synthesis.
Import ElevenLabsTTS Effects SynthesisSpec.
Variable eng : engines.
Variable s : self.

Lemma llm_untouched_file_write path c : llm_untouched (file_write path c).
Proof. by intros w. Qed.

Lemma llm_untouched_write_chunks path cs : llm_untouched (write_chunks path cs).
Proof.
  induction cs as [|c rest IH|e]; cbn [write_chunks]; untouched.
  apply llm_untouched_file_write.
Qed.

Lemma llm_untouched_open_wb path : llm_untouched (open_wb eng path).
Proof. unfold open_wb, raise_if. untouched. by intros w. Qed.

Lemma llm_untouched_text_to_speech text voice_id_arg model_arg save_path
    stream_audio :
  llm_untouched (text_to_speech eng s text voice_id_arg model_arg save_path
                   stream_audio).
Proof.
  unfold text_to_speech, call_stream, call_convert.
  pose proof llm_untouched_open_wb. pose proof llm_untouched_write_chunks.
  untouched.
Qed.

Lemma llm_untouched_play_audio audio_data : llm_untouched (play_audio eng audio_data).
Proof. unfold play_audio, call_play, raise_if. untouched. Qed.

Lemma llm_untouched_speak text voice_id_arg model_arg stream_audio :
  llm_untouched (speak eng s text voice_id_arg model_arg stream_audio).
Proof.
  unfold speak, call_stream, call_stream_play, raise_if.
  pose proof llm_untouched_text_to_speech. pose proof llm_untouched_play_audio.
  untouched.
Qed.

(** [text_to_speech] absorbs every failure, in both modes. *)
Lemma text_to_speech_never_raises text voice_id_arg model_arg save_path
    stream_audio :
  never_raises (text_to_speech eng s text voice_id_arg model_arg save_path
                  stream_audio).
Proof. unfold text_to_speech. absorbed. Qed.

(** [play_audio] absorbs every failure. *)
Lemma play_audio_never_raises audio_data : never_raises (play_audio eng audio_data).
Proof. unfold play_audio. absorbed. Qed.

(** In buffered mode [speak] absorbs every failure. *)
Lemma speak_buffered_never_raises text voice_id_arg model_arg :
  never_raises (speak eng s text voice_id_arg model_arg false).
Proof.
  unfold speak.
  pose proof text_to_speech_never_raises. pose proof play_audio_never_raises.
  absorbed.
Qed.

(** Writing a complete iterator appends its whole payload to the file. *)
Lemma write_chunks_complete path cs : forall b old w,
  join cs = Returned b ->
  files w !! path = Some old ->
  write_chunks path cs w
    = (Returned tt, set_files (<[path := old ++ b]> (files w)) w).
Proof.
  induction cs as [|c rest IH|e]; intros b old w Hjoin Hold; cbn in *.
  - injection Hjoin as <-. rewrite app_nil_r, insert_id by done.
    by destruct w.
  - destruct (join rest) as [b'|] eqn:Hrest; [|done].
    injection Hjoin as <-.
    unfold bind, file_write. rewrite Hold. cbn.
    erewrite IH; [|reflexivity|cbn; apply lookup_insert_eq].
    unfold set_files. cbn. by rewrite insert_insert_eq, app_assoc.
  - done.
Qed.

End Synthesis.

Lemma bind_returned {A B} (m : M A) (k : A -> M B) w a w1 :
  m w = (Returned a, w1) -> bind m k w = k a w1.
Proof. intros H. unfold bind. by rewrite H. Qed.

Lemma lstrip_chars_keeps (l : list ascii) (c : ascii) :
  is_space c = false -> lstrip_chars (l ++ [c]) <> [].
Proof.
  intros Hc. induction l as [|x l IH]; cbn.
  - by rewrite Hc.
  - by destruct (is_space x).
Qed.

(** A text that starts with a character that is not white space is not
    blank. *)
Lemma strip_truthy (c : ascii) (t : string) :
  is_space c = false -> truthy (strip (String c t)) = true.
Proof.
  intros Hc. unfold strip. cbn [list_ascii_of_string lstrip_chars].
  rewrite Hc. cbn [rev].
  pose proof (lstrip_chars_keeps (rev (list_ascii_of_string t)) c Hc) as Hne.
  destruct (lstrip_chars _) as [|x l] eqn:Hl; [done|].
  destruct (rev (x :: l)) as [|y l'] eqn:Hrev; [|done].
  apply (f_equal length) in Hrev. rewrite length_rev in Hrev. done.
Qed.

Lemma failure_reply_truthy (e : exn) :
  truthy (GemmaSpec.failure_reply e) = true
  /\ truthy (strip (GemmaSpec.failure_reply e)) = true.
Proof. split; [done|]. by apply strip_truthy. Qed.

(** In buffered mode [speak] sends a text that is not blank to the
    synthesis engine, whatever happens afterwards, and returns. *)
Lemma speak_buffered_converts (eng : ElevenLabsTTS.engines)
    (s : ElevenLabsTTS.self) (text : string) (w : world) :
  truthy (strip text) = true ->
  exists w',
    ElevenLabsTTS.speak eng s text None None false w = (Returned tt, w') /\
    convert_calls (log w')
      = convert_calls (log w)
        ++ [(text, ElevenLabsTTS.voice_id s, ElevenLabsTTS.model s)].
Proof.
  intros Htext.
  unfold ElevenLabsTTS.speak, ElevenLabsTTS.text_to_speech.
  rewrite Htext. cbn [negb or_default].
  unfold ElevenLabsTTS.call_convert. step.
  destruct (ElevenLabsTTS.convert eng text _ _) as [a|e]; cbn.
  - unfold ElevenLabsTTS.call_play, ElevenLabsTTS.raise_if. step.
    destruct (ElevenLabsTTS.join a) as [b|e]; cbn.
    + destruct (ElevenLabsTTS.play eng b) as [e|]; cbn;
        (eexists; split; [reflexivity|]; cbn;
         rewrite !convert_calls_app; cbn; by rewrite !app_nil_r).
    + eexists. split; [reflexivity|]. cbn.
      rewrite !convert_calls_app. cbn. by rewrite !app_nil_r.
  - eexists. split; [reflexivity|]. cbn.
    rewrite !convert_calls_app. cbn. by rewrite !app_nil_r.
Qed.

(** C4: the streamed branch of [speak] has no handler.  When the
    [stream] call of the engine raises, the exception leaves [speak]. *)
Theorem speak_streamed_propagates (eng : ElevenLabsTTS.engines)
    (s : ElevenLabsTTS.self) (text : string)
    (voice_id_arg model_arg : option string) (w : world) (e : exn) :
  ElevenLabsTTS.stream eng text
    (or_default voice_id_arg (ElevenLabsTTS.voice_id s))
    (or_default model_arg (ElevenLabsTTS.model s)) = Raised e ->
  exists w',
    ElevenLabsTTS.speak eng s text voice_id_arg model_arg true w = (Raised e, w').
Proof.
  intros Hraise. unfold ElevenLabsTTS.speak, ElevenLabsTTS.call_stream. step.
  rewrite Hraise. cbn. by eexists.
Qed.

(** The buffered branch step by step: for a text that is not blank and an
    engine call that succeeds, [convert] is called once (and [stream]
    never) and the value handed back is the iterator the engine returned;
    with a path to save to, the whole payload is written to that file and
    the iterator handed back is the consumed one. *)
Lemma text_to_speech_buffered_run (eng : ElevenLabsTTS.engines)
    (s : ElevenLabsTTS.self) (text : string)
    (voice_id_arg model_arg save_path : option string) (w : world)
    (audio : chunks) (payload : bytes) :
  truthy (strip text) = true ->
  ElevenLabsTTS.convert eng text
    (or_default voice_id_arg (ElevenLabsTTS.voice_id s))
    (or_default model_arg (ElevenLabsTTS.model s)) = Returned audio ->
  ElevenLabsTTS.join audio = Returned payload ->
  (forall p, SynthesisSpec.save_target save_path = Some p ->
             ElevenLabsTTS.open_error eng p = None) ->
  exists w',
    ElevenLabsTTS.text_to_speech eng s text voice_id_arg model_arg save_path
      false w
      = (Returned (Some (AudioIter
                           match SynthesisSpec.save_target save_path with
                           | Some _ => Done
                           | None => audio
                           end)), w') /\
    convert_calls (log w')
      = convert_calls (log w)
        ++ [(text, or_default voice_id_arg (ElevenLabsTTS.voice_id s),
             or_default model_arg (ElevenLabsTTS.model s))] /\
    stream_calls (log w') = stream_calls (log w) /\
    files w' = match SynthesisSpec.save_target save_path with
               | Some p => <[p := payload]> (files w)
               | None => files w
               end.
Proof.
  intros Htext Hconv Hjoin Hopen.
  unfold ElevenLabsTTS.text_to_speech. rewrite Htext. cbn [negb].
  unfold ElevenLabsTTS.call_convert, try_except, bind at 1.
  unfold print at 1, emit at 1. unfold bind at 1, bind at 1.
  unfold emit at 1, lift at 1. rewrite Hconv.
  unfold SynthesisSpec.save_target in *.
  destruct save_path as [p|]; [destruct (truthy p) eqn:Hp|].
  - unfold ElevenLabsTTS.open_wb, ElevenLabsTTS.raise_if.
    rewrite (Hopen p eq_refl). step.
    rewrite (write_chunks_complete p audio payload [] _ Hjoin)
      by (cbn; apply lookup_insert_eq).
    cbn. eexists. split; [reflexivity|]. cbn.
    rewrite !convert_calls_app, !stream_calls_app. cbn.
    rewrite !app_nil_r. by rewrite insert_insert_eq.
  - step. eexists. split; [reflexivity|]. cbn.
    rewrite !convert_calls_app, !stream_calls_app. cbn.
    by rewrite !app_nil_r.
  - step. eexists. split; [reflexivity|]. cbn.
    rewrite !convert_calls_app, !stream_calls_app. cbn.
    by rewrite !app_nil_r.
Qed.


(** C10.  When the call to the model raises during a turn, the reply of
    [generate_response] is the non-empty failure text, the check
    [if not response] does not stop the turn, the failure text is sent to
    speech synthesis and is what the turn returns. *)
Theorem failed_generation_is_spoken
    (s : VoiceAssistant.self) (audio_data : option AudioBuffer)
    (audio_path : option string) (w : world) (text : string) (e : exn) :
  GemmaSpec.valid w ->
  (WhisperSTT.transcribe_audio (VoiceAssistant.stt_engines s)
     audio_data audio_path w).1 = Returned text ->
  truthy text = true ->
  VoiceAssistant.llm_engine s (VoiceAssistant.llm_model s)
    (GemmaSpec.contents_for (history w) text) = Raised e ->
  exists w',
    VoiceAssistant.process_voice_input s audio_data audio_path w
      = (Returned (Some (GemmaSpec.failure_reply e)), w') /\
    truthy (GemmaSpec.failure_reply e) = true /\
    convert_calls (log w')
      = convert_calls (log w)
        ++ [(GemmaSpec.failure_reply e,
             ElevenLabsTTS.voice_id (VoiceAssistant.tts s),
             ElevenLabsTTS.model (VoiceAssistant.tts s))] /\
    history w' = history w.
Proof.
  intros Hv Htext Htruthy Heng.
  destruct (transcribe_audio_run (VoiceAssistant.stt_engines s)
              audio_data audio_path) as (evs & Hllm & Htts & Hrun).
  rewrite Hrun in Htext. cbn [fst] in Htext. injection Htext as Htext.
  destruct (failure_reply_truthy e) as [Hreply Hstrip].
  unfold VoiceAssistant.process_voice_input, try_except.
  unfold bind at 1, print at 1, emit at 1. unfold bind at 1.
  rewrite Hrun, Htext, Htruthy. cbn [negb].
  unfold bind at 1, print at 1, emit at 1.
  unfold bind at 1, print at 1, emit at 1.
  match goal with
  | |- context [bind (GemmaClient.generate_response _ _ _ _) _ ?wB] =>
      set (w2 := wB)
  end.
  assert (Hv2 : GemmaSpec.valid w2) by exact Hv.
  assert (Hh2 : history w2 = history w) by reflexivity.
  destruct (generate_response_own (VoiceAssistant.llm_engine s)
              (VoiceAssistant.llm_model s) text None w2 Hv2 I)
    as (w3 & Hgen & Hv3 & Hh3 & _ & Hconv3 & _).
  rewrite Hh2 in Hgen, Hh3.
  unfold GemmaSpec.reply_for, GemmaSpec.generated_text in Hgen, Hh3.
  rewrite Heng in Hgen, Hh3.
  rewrite (bind_returned _ _ _ _ _ Hgen). rewrite Hreply. cbn [negb].
  unfold bind at 1, print at 1, emit at 1.
  unfold bind at 1, print at 1, emit at 1.
  match goal with
  | |- context [bind (ElevenLabsTTS.speak _ _ _ _ _ _) _ ?wC] =>
      set (w4 := wC)
  end.
  destruct (speak_buffered_converts (VoiceAssistant.tts_engines s)
              (VoiceAssistant.tts s) (GemmaSpec.failure_reply e) w4 Hstrip)
    as (w5 & Hspeak & Hconv).
  destruct (llm_untouched_speak (VoiceAssistant.tts_engines s)
              (VoiceAssistant.tts s) (GemmaSpec.failure_reply e)
              None None false w4) as (Hheap & Hloc & _).
  rewrite Hspeak in Hheap, Hloc. cbn in Hheap, Hloc.
  rewrite (bind_returned _ _ _ _ _ Hspeak). unfold ret.
  exists w5. split; [reflexivity|]. split; [exact Hreply|]. split.
  - rewrite Hconv. unfold w4. cbn.
    rewrite !convert_calls_app. cbn. rewrite !app_nil_r, Hconv3.
    unfold w2. cbn. rewrite !convert_calls_app, Htts. cbn.
    by rewrite !app_nil_r.
  - unfold history, deref_in. rewrite Hheap, Hloc. exact Hh3.
Qed.

(* --------------------------------------------------------------------- *)
(* Sessions                                                              *)
(* --------------------------------------------------------------------- *)

Section Sessions.
Import GemmaClient GemmaSpec SessionSpec.

Lemma after_prompt_inv eng model_name prompt w w' es :
  session_inv w es ->
  valid w' ->
  history w' = match generated_text eng model_name
                       (contents_for (history w) prompt) with
               | Some t => trimmed 10 (history w ++ [user_message prompt;
                                                    model_message t])
               | None => history w
               end ->
  session_inv w' (after_prompt eng model_name prompt es).
Proof.
  intros [_ Hh] Hv' Hh'. split; [exact Hv'|].
  unfold after_prompt. rewrite Hh in Hh'.
  destruct (generated_text _ _ _) as [t|]; [|exact Hh'].
  by rewrite Hh', trimmed_last_pairs.
Qed.

(** A turn of the assistant returns, and moves the history on by at most
    one exchange. *)
Lemma process_voice_input_inv s audio_data audio_path w es :
  session_inv w es ->
  exists r w',
    VoiceAssistant.process_voice_input s audio_data audio_path w
      = (Returned r, w') /\
    session_inv w' (after_op (Turn s audio_data audio_path) es).
Proof.
  intros Hinv. pose proof Hinv as [Hv Hh].
  destruct (transcribe_audio_run (VoiceAssistant.stt_engines s)
              audio_data audio_path) as (evs & _ & _ & Hrun).
  unfold VoiceAssistant.process_voice_input, try_except.
  unfold bind at 1, print at 1, emit at 1. unfold bind at 1. rewrite Hrun.
  cbn [after_op].
  destruct (truthy (TranscriptionSpec.transcript _ _ _)) eqn:Htext; cbn [negb].
  - unfold bind at 1, print at 1, emit at 1.
    unfold bind at 1, print at 1, emit at 1.
    match goal with
    | |- context [bind (generate_response _ _ _ _) _ ?wB] => set (w2 := wB)
    end.
    assert (Hv2 : valid w2) by exact Hv.
    destruct (generate_response_own (VoiceAssistant.llm_engine s)
                (VoiceAssistant.llm_model s)
                (TranscriptionSpec.transcript (VoiceAssistant.stt_engines s)
                   audio_data audio_path) None w2 Hv2 I)
      as (w3 & Hgen & Hv3 & Hh3 & _).
    change (history w2) with (history w) in Hgen, Hh3.
    rewrite (bind_returned _ _ _ _ _ Hgen).
    destruct (truthy (reply_for _ _ _)); cbn [negb].
    + unfold bind at 1, print at 1, emit at 1.
      unfold bind at 1, print at 1, emit at 1.
      match goal with
      | |- context [bind (ElevenLabsTTS.speak ?e ?v ?t _ _ _) _ ?wC] =>
          destruct (speak_buffered_never_raises e v t None None wC)
            as ([] & w5 & Hspeak);
          destruct (llm_untouched_speak e v t None None false wC)
            as (Hheap & Hloc & _)
      end.
      rewrite Hspeak in Hheap, Hloc. cbn in Hheap, Hloc.
      rewrite (bind_returned _ _ _ _ _ Hspeak). unfold ret.
      eexists _, w5. split; [reflexivity|].
      apply (after_prompt_inv _ _ _ w); [exact Hinv| |].
      * unfold valid. rewrite Hheap, Hloc. exact Hv3.
      * unfold history, deref_in. rewrite Hheap, Hloc. exact Hh3.
    + step. eexists _, _. split; [reflexivity|].
      apply (after_prompt_inv _ _ _ w); [exact Hinv|exact Hv3|exact Hh3].
  - step. eexists _, _. split; [reflexivity|]. split; [exact Hv|exact Hh].
Qed.

Lemma run_op_inv o w es :
  session_inv w es ->
  exists w', run_op o w = (Returned tt, w') /\ session_inv w' (after_op o es).
Proof.
  intros Hinv. pose proof Hinv as [Hv Hh].
  destruct o as [s audio_data audio_path|model_name prompt [[|m ctx]|] eng|];
    cbn [run_op after_op].
  - (* a turn of the assistant *)
    destruct (process_voice_input_inv s audio_data audio_path w es Hinv)
      as (r & w' & Hrun & Hinv').
    rewrite (bind_returned _ _ _ _ _ Hrun). by exists w'.
  - (* an empty context list counts as no context *)
    unfold bind at 1, alloc at 1.
    set (w0 := set_heap (heap w ++ [[]]) w).
    assert (Hv0 : valid w0).
    { unfold valid in *. cbn. rewrite length_app. cbn. lia. }
    assert (Hh0 : history w0 = history w).
    { unfold history, deref_in. cbn. by rewrite heap_old. }
    assert (Hc0 : no_context w0 (Some (length (heap w)))).
    { split; [cbn; rewrite length_app; cbn; lia|].
      unfold deref_in. cbn. apply heap_new. }
    destruct (generate_response_own eng model_name prompt _ w0 Hv0 Hc0)
      as (w1 & Hrun & Hv1 & Hh1 & _).
    rewrite (bind_returned _ _ _ _ _ Hrun). exists w1. split; [done|].
    rewrite Hh0 in Hh1. by apply (after_prompt_inv _ _ _ w).
  - (* a non-empty context list of the caller's own *)
    unfold bind at 1, alloc at 1.
    set (w0 := set_heap (heap w ++ [m :: ctx]) w).
    assert (Hv0 : valid w0).
    { unfold valid in *. cbn. rewrite length_app. cbn. lia. }
    assert (Hh0 : history w0 = history w).
    { unfold history, deref_in. cbn. by rewrite heap_old. }
    assert (Hc0 : deref_in w0 (length (heap w)) <> []).
    { unfold deref_in. cbn. by rewrite heap_new. }
    assert (Hne : length (heap w) <> conversation_history w0).
    { unfold valid in Hv. cbn. lia. }
    destruct (generate_response_external eng model_name prompt _ w0
                Hv0 Hc0 Hne) as (w1 & Hrun & Hv1 & Hh1 & _).
    rewrite (bind_returned _ _ _ _ _ Hrun). exists w1. split; [done|].
    split; [done|]. by rewrite Hh1, Hh0.
  - (* no context *)
    destruct (generate_response_own eng model_name prompt None w Hv I)
      as (w1 & Hrun & Hv1 & Hh1 & _).
    rewrite (bind_returned _ _ _ _ _ Hrun). exists w1. split; [done|].
    by apply (after_prompt_inv _ _ _ w).
  - (* clear_conversation_history *)
    unfold clear_conversation_history. step. eexists. split; [reflexivity|].
    unfold session_inv, valid, history, deref_in. cbn.
    rewrite length_app, heap_new. cbn. split; [lia|done].
Qed.

Lemma run_session_inv ops : forall w es,
  session_inv w es ->
  exists w',
    run_session ops w = (Returned tt, w') /\
    session_inv w' (session_exchanges ops es).
Proof.
  induction ops as [|o ops IH]; intros w es Hinv; cbn [run_session session_exchanges].
  - by exists w.
  - destruct (run_op_inv o w es Hinv) as (w1 & Hrun & Hinv1).
    rewrite (bind_returned _ _ _ _ _ Hrun). by apply IH.
Qed.

End Sessions.

(** C1.  Whatever a session does with a new client (turns of the
    assistant, direct calls of [generate_response], clearing), with
    whatever the engines do, the history holds at most 2 x 10 entries,
    consists of (user, model) pairs only, and is exactly the newest ten of
    the exchanges completed so far, oldest first. *)
Theorem history_bounded_complete_pairs (ops : list SessionSpec.op) (w0 : world) :
  exists w,
    (GemmaClient.init >> SessionSpec.run_session ops) w0 = (Returned tt, w) /\
    (length (history w) <= 2 * 10)%nat /\
    GemmaSpec.complete_pairs (history w) = true /\
    history w = GemmaSpec.entries
                  (GemmaSpec.last_pairs 10
                     (SessionSpec.session_exchanges ops [])).
Proof.
  unfold GemmaClient.init. step.
  match goal with
  | |- context [SessionSpec.run_session _ ?w1] =>
      destruct (run_session_inv ops w1 []) as (w & Hrun & Hv & Hh)
  end.
  { unfold SessionSpec.session_inv, GemmaSpec.valid, history, deref_in. cbn.
    rewrite length_app, heap_new. cbn. split; [lia|done]. }
  exists w. split; [exact Hrun|]. rewrite Hh.
  rewrite length_entries, length_last_pairs, complete_pairs_entries.
  repeat split; try done. lia.
Qed.

(* --------------------------------------------------------------------- *)
(* The theorems at concrete engines and worlds                           *)
(* --------------------------------------------------------------------- *)

Lemma generate_response_failure_keeps_history_witness :
  exists w',
    GemmaClient.generate_response Examples.failing_llm "gemma-3-27b-it"
      "What did I just say?" None Examples.talked_world
      = (Returned "An error occurred: network down", w') /\
    conversation_history w' = 0%nat /\
    history w' = history Examples.talked_world.
Proof.
  apply (generate_response_failure_keeps_history Examples.failing_llm
           "gemma-3-27b-it" "What did I just say?" None Examples.talked_world
           Examples.network_error).
  - unfold GemmaSpec.valid. simpl. lia.
  - discriminate.
  - reflexivity.
Defined.

Lemma empty_transcript_no_llm_call_witness :
  exists w',
    VoiceAssistant.process_voice_input
      (Examples.assistant Examples.silent_stt Examples.answering_llm)
      (Some []) None Examples.new_world = (Returned None, w') /\
    llm_calls (log w') = [] /\ convert_calls (log w') = [] /\
    heap w' = [[]] /\ conversation_history w' = 0%nat.
Proof.
  apply (empty_transcript_no_llm_call
           (Examples.assistant Examples.silent_stt Examples.answering_llm)
           (Some []) None Examples.new_world).
  reflexivity.
Defined.

Lemma speak_streamed_propagates_witness :
  exists w',
    ElevenLabsTTS.speak Examples.offline_tts Examples.default_voice "Hello"
      None None true Examples.new_world = (Raised Examples.network_error, w').
Proof.
  apply (speak_streamed_propagates Examples.offline_tts Examples.default_voice
           "Hello" None None Examples.new_world Examples.network_error).
  reflexivity.
Defined.


Lemma find_working_device_first_candidate_witness :
  exists w',
    WhisperSTT._find_working_device Examples.working_stt
      (WhisperSTT.attributes None) Examples.new_world
      = (Returned (Some 1%nat), w') /\
    recordings (log w') = [(1600, 1%nat)].
Proof.
  destruct (find_working_device_first_candidate Examples.working_stt None
              Examples.two_devices Examples.new_world eq_refl)
    as (w' & Hrun & Hrec & _).
  exists w'. split; [exact Hrun | exact Hrec].
Defined.

Lemma context_appended_in_place_history_copied_witness :
  (exists r w',
     GemmaClient.generate_response Examples.answering_llm "gemma-3-27b-it"
       "And now?" (Some 1%nat) Examples.talked_world = (Returned r, w') /\
     deref_in w' 1%nat = [GemmaClient.user_message "earlier";
                          GemmaClient.user_message "And now?"]) /\
  (exists w1,
     GemmaClient.prepare_content "And now?" None Examples.talked_world
       = (Returned (ContentMessages
                      [GemmaClient.user_message "Hello";
                       GemmaClient.model_message "Hi there";
                       GemmaClient.user_message "And now?"]), w1) /\
     conversation_history w1 = 0%nat /\
     history w1 = history Examples.talked_world /\
     forall l, (l < 2)%nat -> deref_in w1 l = deref_in Examples.talked_world l).
Proof.
  apply (context_appended_in_place_history_copied Examples.answering_llm
           "gemma-3-27b-it" "And now?" 1%nat None Examples.talked_world).
  - discriminate.
  - unfold GemmaSpec.valid. simpl. lia.
  - exact I.
Defined.

Lemma failed_generation_is_spoken_witness :
  exists w',
    VoiceAssistant.process_voice_input
      (Examples.assistant Examples.working_stt Examples.failing_llm)
      (Some []) None Examples.new_world
      = (Returned (Some "An error occurred: network down"), w') /\
    truthy "An error occurred: network down" = true /\
    convert_calls (log w')
      = [("An error occurred: network down",
          "uyVNoMrnUku1dZyVEXwD", "eleven_flash_v2_5")] /\
    history w' = [].
Proof.
  apply (failed_generation_is_spoken
           (Examples.assistant Examples.working_stt Examples.failing_llm)
           (Some []) None Examples.new_world "hello" Examples.network_error).
  - unfold GemmaSpec.valid. simpl. lia.
  - reflexivity.
  - reflexivity.
  - reflexivity.
Defined.

(* --------------------------------------------------------------------- *)
(* Inputs at which a sentence of the specification fails                 *)
(* --------------------------------------------------------------------- *)

(** C2 as the specification words it: the call to the model raises, yet
    the history is not the one from before the call, when the list passed
    as context is the client's own history. *)
Lemma generate_response_failure_on_own_history_appends :
  ~ (forall (eng : GemmaClient.engine) (model_name prompt : string)
            (context : option loc) (w : world) (e : exn),
       GemmaSpec.valid w ->
       eng model_name (GemmaSpec.sent_contents w prompt context) = Raised e ->
       exists reply w',
         GemmaClient.generate_response eng model_name prompt context w
           = (Returned reply, w') /\
         history w' = history w).
Proof.
  intros Hclaim.
  destruct (Hclaim Examples.failing_llm "gemma-3-27b-it" "And now?"
              (Some 0%nat) Examples.talked_world Examples.network_error)
    as (reply & w' & Hrun & Hhist).
  - unfold GemmaSpec.valid. simpl. lia.
  - reflexivity.
  - vm_compute in Hrun. injection Hrun as _ <-.
    vm_compute in Hhist. discriminate Hhist.
Qed.

(** C5 as the specification words it: the recording call raises, yet
    [record_audio] returns None instead of failing. *)
Lemma record_audio_capture_error_returns_none :
  ~ (forall (eng : WhisperSTT.engines) (s : WhisperSTT.self) (duration : float)
            (w : world) (d : nat) (frames : Z) (e : exn),
       WhisperSTT.device_id s = Some d ->
       WhisperSTT.frame_count s duration = Returned frames ->
       WhisperSTT.sd_rec eng frames
         (WhisperSTT.sample_rate s) (WhisperSTT.channels s) d = Raised e ->
       exists e' w', WhisperSTT.record_audio eng s duration w = (Raised e', w')).
Proof.
  intros Hclaim.
  destruct (Hclaim Examples.broken_stt (WhisperSTT.attributes (Some 1%nat))
              Scenarios.duration_5 Examples.new_world 1%nat 80000
              Examples.device_error eq_refl eq_refl eq_refl)
    as (e' & w' & Hrun).
  vm_compute in Hrun. discriminate Hrun.
Qed.

(** C6 as the specification words it: with neither input the error does
    not reach the caller. *)
Lemma transcribe_audio_without_input_does_not_raise :
  ~ (forall (eng : WhisperSTT.engines) (w : world),
       exists e w', WhisperSTT.transcribe_audio eng None None w = (Raised e, w')).
Proof.
  intros Hclaim.
  destruct (Hclaim Examples.working_stt Examples.new_world) as (e & w' & Hrun).
  vm_compute in Hrun. discriminate Hrun.
Qed.


(** C9 as the specification words it: an explicit but empty context list
    is not appended to. *)
Lemma empty_context_list_not_appended :
  ~ (forall (eng : GemmaClient.engine) (model_name prompt : string)
            (c : loc) (w : world),
       (c < length (heap w))%nat ->
       exists r w',
         GemmaClient.generate_response eng model_name prompt (Some c) w = (r, w') /\
         deref_in w' c = deref_in w c ++ [GemmaClient.user_message prompt]).
Proof.
  intros Hclaim.
  destruct (Hclaim Examples.answering_llm "gemma-3-27b-it" "Hello" 1%nat
              Examples.empty_context_world) as (r & w' & Hrun & Happ).
  { simpl. lia. }
  vm_compute in Hrun. injection Hrun as _ <-.
  vm_compute in Happ. discriminate Happ.
Qed.

(* ===================================================================== *)
(* Further properties of the code                                        *)
(* ===================================================================== *)

(* --------------------------------------------------------------------- *)
(* The response engine: generation, context and history                  *)
(* --------------------------------------------------------------------- *)

Lemma string_append_assoc (a b c : string) : (a +:+ b) +:+ c = a +:+ (b +:+ c).
Proof.
  induction a as [|x a IH]; [done|].
  change (String x ((a +:+ b) +:+ c) = String x (a +:+ (b +:+ c))).
  by rewrite IH.
Qed.

Lemma string_append_empty_r (a : string) : a +:+ "" = a.
Proof.
  induction a as [|x a IH]; [done|].
  change (String x (a +:+ "") = String x a). by rewrite IH.
Qed.

Lemma fold_parts_joined (ps : list (option string)) : forall acc,
  fold_left (fun acc p => match p with
                          | Some t => if truthy t then acc +:+ t else acc
                          | None => acc
                          end) ps acc
  = acc +:+ ResponseSpec.joined (ResponseSpec.part_texts ps).
Proof.
  induction ps as [|[t|] ps IH]; intros acc; cbn.
  - by rewrite string_append_empty_r.
  - rewrite IH. destruct t as [|x t]; cbn; [done|].
    by rewrite string_append_assoc.
  - apply IH.
Qed.

(** The newest entries survive the trimming: what is kept ends with the
    pair just appended. *)
Lemma trimmed_ends_with_pair (h : list message) (u a : message) :
  exists earlier, GemmaSpec.trimmed 10 (h ++ [u; a]) = earlier ++ [u; a].
Proof.
  unfold GemmaSpec.trimmed, slice_from.
  rewrite length_app. cbn [length].
  change (- (10) * 2 <? 0)%Z with true. cbn match.
  destruct (Z.gtb_spec (Z.of_nat (length h + 2)) (10 * 2)) as [Hgt|Hle].
  - exists (drop (length h + 2 - 20) h).
    replace (Z.to_nat _) with (length h + 2 - 20)%nat by lia.
    by rewrite drop_app_le by lia.
  - by exists h.
Qed.

(** X1.  A call without context whose engine call yields a non-empty text
    [t] makes one call to the model, returns [t] stripped, and appends the
    pair (prompt, [t] as received, not stripped) to the history, trimmed
    to twenty entries. *)
Theorem generate_response_success_appends_pair
    (eng : GemmaClient.engine) (model_name prompt : string)
    (context : option loc) (w : world) (r : response) (t : string) :
  GemmaSpec.valid w ->
  GemmaSpec.no_context w context ->
  eng model_name (GemmaSpec.contents_for (history w) prompt) = Returned r ->
  GemmaClient.response_text r = Returned t ->
  truthy t = true ->
  exists w',
    GemmaClient.generate_response eng model_name prompt context w
      = (Returned (strip t), w') /\
    history w' = GemmaSpec.trimmed 10
                   (history w ++ [GemmaClient.user_message prompt;
                                  GemmaClient.model_message t]) /\
    llm_calls (log w')
      = llm_calls (log w) ++ [GemmaSpec.contents_for (history w) prompt].
Proof.
  intros Hv Hc Heng Htext Ht.
  destruct (generate_response_own eng model_name prompt context w Hv Hc)
    as (w' & Hrun & _ & Hh & Hcalls & _).
  unfold GemmaSpec.reply_for in Hrun. unfold GemmaSpec.generated_text in Hh.
  rewrite Heng, Htext, Ht in Hrun, Hh.
  exists w'. by repeat split.
Qed.

(** X2.  A call without context that yields no text (the engine call
    raises, reading the response raises, or the text is empty) returns
    the apology or an "An error occurred: ..." text, never raises, and
    leaves the history as it was. *)
Theorem generate_response_without_text_keeps_history
    (eng : GemmaClient.engine) (model_name prompt : string)
    (context : option loc) (w : world) :
  GemmaSpec.valid w ->
  GemmaSpec.no_context w context ->
  GemmaSpec.generated_text eng model_name
    (GemmaSpec.contents_for (history w) prompt) = None ->
  exists reply w',
    GemmaClient.generate_response eng model_name prompt context w
      = (Returned reply, w') /\
    history w' = history w /\
    (reply = "Sorry, I couldn't generate a response. Please try again."
     \/ exists e, reply = GemmaSpec.failure_reply e).
Proof.
  intros Hv Hc Hnone.
  destruct (generate_response_own eng model_name prompt context w Hv Hc)
    as (w' & Hrun & _ & Hh & _).
  rewrite Hnone in Hh.
  eexists _, w'. split; [exact Hrun|]. split; [exact Hh|].
  unfold GemmaSpec.generated_text in Hnone. unfold GemmaSpec.reply_for.
  destruct (eng model_name _) as [r|e]; [|right; by exists e].
  destruct (GemmaClient.response_text r) as [t|e]; [|right; by exists e].
  destruct (truthy t); [done|by left].
Qed.

(** X3.  The text read from a response is the texts of the parts of its
    first candidate, in order, one after the other: parts without text
    and all other candidates are ignored; without candidates the text is
    empty. *)
Theorem response_text_concatenates_first_candidate
    (ps : list (option string)) (others : list candidate) (r : response) :
  GemmaClient.response_text
    {| candidates := Some ({| content_parts := Some ps |} :: others) |}
  = Returned (ResponseSpec.joined (ResponseSpec.part_texts ps))
  /\ (candidates r = None \/ candidates r = Some [] ->
      GemmaClient.response_text r = Returned "").
Proof.
  split.
  - unfold GemmaClient.response_text. cbn [candidates content_parts].
    by rewrite fold_parts_joined.
  - unfold GemmaClient.response_text. by intros [-> | ->].
Qed.

(** X4.  After a call that succeeded with text [t1] for prompt [p1], the
    next call without context sends the model a message list that ends
    with the user entry [p1], the model entry [t1] and the new prompt. *)
Theorem second_call_receives_first_exchange
    (eng1 eng2 : GemmaClient.engine) (model_name p1 p2 : string)
    (w : world) (r1 : response) (t1 : string) :
  GemmaSpec.valid w ->
  eng1 model_name (GemmaSpec.contents_for (history w) p1) = Returned r1 ->
  GemmaClient.response_text r1 = Returned t1 ->
  truthy t1 = true ->
  exists reply1 w1 reply2 w2 earlier,
    GemmaClient.generate_response eng1 model_name p1 None w
      = (Returned reply1, w1) /\
    GemmaClient.generate_response eng2 model_name p2 None w1
      = (Returned reply2, w2) /\
    llm_calls (log w2)
      = llm_calls (log w)
        ++ [GemmaSpec.contents_for (history w) p1;
            ContentMessages (earlier ++ [GemmaClient.user_message p1;
                                         GemmaClient.model_message t1;
                                         GemmaClient.user_message p2])].
Proof.
  intros Hv Heng Htext Ht.
  destruct (generate_response_own eng1 model_name p1 None w Hv I)
    as (w1 & Hrun1 & Hv1 & Hh1 & Hcalls1 & _).
  unfold GemmaSpec.generated_text in Hh1. rewrite Heng, Htext, Ht in Hh1.
  destruct (generate_response_own eng2 model_name p2 None w1 Hv1 I)
    as (w2 & Hrun2 & _ & _ & Hcalls2 & _).
  destruct (trimmed_ends_with_pair (history w) (GemmaClient.user_message p1)
              (GemmaClient.model_message t1)) as (earlier & Hends).
  rewrite Hends in Hh1.
  eexists _, w1, _, w2, earlier. split; [exact Hrun1|]. split; [exact Hrun2|].
  rewrite Hcalls2, Hcalls1, Hh1, <- app_assoc. cbn [app]. do 3 f_equal.
  unfold GemmaSpec.contents_for.
  destruct (earlier ++ _) eqn:Hnil; [by destruct earlier|].
  rewrite <- Hnil, <- app_assoc. done.
Qed.

(** X5.  With a non-empty context list that is not the client's own
    history list, the model is sent that list with the prompt appended,
    not the stored history, and the stored history is left as it was,
    also when the call succeeds. *)
Theorem external_context_never_updates_history
    (eng : GemmaClient.engine) (model_name prompt : string)
    (c : loc) (w : world) :
  GemmaSpec.valid w ->
  deref_in w c <> [] ->
  c <> conversation_history w ->
  exists reply w',
    GemmaClient.generate_response eng model_name prompt (Some c) w
      = (Returned reply, w') /\
    history w' = history w /\
    llm_calls (log w')
      = llm_calls (log w)
        ++ [ContentMessages (deref_in w c ++ [GemmaClient.user_message prompt])].
Proof.
  intros Hv Hc Hne.
  destruct (generate_response_external eng model_name prompt c w Hv Hc Hne)
    as (w' & Hrun & _ & Hh & _ & _ & Hcalls & _).
  by eexists _, w'.
Qed.

(** X6.  When the list passed as context is the client's own non-empty
    history list, the history afterwards is the old one with the user
    entry appended and nothing else, whatever the engine does: no model
    entry follows it. *)
Theorem own_history_as_context_gets_user_entry_only
    (eng : GemmaClient.engine) (model_name prompt : string) (w : world) :
  history w <> [] ->
  exists reply w',
    GemmaClient.generate_response eng model_name prompt
      (Some (conversation_history w)) w = (Returned reply, w') /\
    conversation_history w' = conversation_history w /\
    history w' = history w ++ [GemmaClient.user_message prompt].
Proof.
  intros Hc. pose proof (heap_nonempty_valid _ _ Hc) as Hlt.
  unfold GemmaClient.generate_response, try_except,
    GemmaClient.prepare_content, bind at 1, bind at 1.
  rewrite (context_truthy_external _ _ Hc).
  unfold bind at 1, deref at 1. cbn [orb]. step.
  unfold history, deref_in in *. cbn. rewrite !heap_same by done.
  set (msgs := heap w !!! conversation_history w
               ++ [GemmaClient.user_message prompt]).
  assert (Hmsgs : match msgs with [] => false | _ :: _ => true end = true).
  { unfold msgs. by destruct (heap w !!! conversation_history w). }
  destruct (eng model_name (ContentMessages msgs)) as [r|e]; cbn.
  2:{ eexists _, _. split; [reflexivity|]. cbn. by rewrite heap_same. }
  destruct (GemmaClient.response_text r) as [t|e]; cbn.
  2:{ eexists _, _. split; [reflexivity|]. cbn. by rewrite heap_same. }
  destruct (truthy t); cbn.
  2:{ eexists _, _. split; [reflexivity|]. cbn. by rewrite heap_same. }
  rewrite !heap_same by done. fold msgs. rewrite Hmsgs. cbn.
  eexists _, _. split; [reflexivity|]. cbn. by rewrite heap_same.
Qed.

(** X7.  For a cap of at least one pair, [_update_conversation_history]
    appends the pair and keeps the newest 2 x max_history entries: the
    oldest ones are dropped first and the new length is the smaller of the
    grown length and the cap. *)
Theorem update_conversation_history_keeps_newest
    (user_input assistant_response : string) (max_history : Z) (w : world) :
  GemmaSpec.valid w ->
  (1 <= max_history)%Z ->
  exists w',
    GemmaClient._update_conversation_history user_input assistant_response
      max_history w = (Returned tt, w') /\
    history w'
      = drop (length (history w) + 2 - Z.to_nat (2 * max_history))
          (history w ++ [GemmaClient.user_message user_input;
                         GemmaClient.model_message assistant_response]) /\
    length (history w')
      = ((length (history w) + 2) `min` Z.to_nat (2 * max_history))%nat.
Proof.
  intros Hv Hcap.
  destruct (update_conversation_history_spec user_input assistant_response
              max_history w Hv) as (w' & Hrun & _ & Hh & _).
  exists w'. split; [exact Hrun|].
  assert (Hkept : history w'
                  = drop (length (history w) + 2 - Z.to_nat (2 * max_history))
                      (history w ++ [GemmaClient.user_message user_input;
                                     GemmaClient.model_message assistant_response])).
  { rewrite Hh. unfold GemmaSpec.trimmed, slice_from.
    rewrite length_app. cbn [length].
    destruct (Z.gtb_spec (Z.of_nat (length (history w) + 2)) (max_history * 2))
      as [Hgt|Hle].
    - replace (- max_history * 2 <? 0)%Z with true by lia.
      f_equal. lia.
    - replace (length (history w) + 2 - Z.to_nat (2 * max_history))%nat
        with 0%nat by lia.
      by rewrite drop_0. }
  split; [exact Hkept|].
  rewrite Hkept, length_drop, length_app. cbn [length]. lia.
Qed.

(** X8.  A cap that is zero or negative does not bound the history: with
    max_history = 0 nothing is dropped at all (the slice [l[-0:]] is the
    whole list), and with a negative one the oldest 2 x |max_history|
    entries of the grown list are dropped at each call. *)
Theorem update_conversation_history_nonpositive_cap
    (user_input assistant_response : string) (max_history : Z) (w : world) :
  GemmaSpec.valid w ->
  (max_history <= 0)%Z ->
  exists w',
    GemmaClient._update_conversation_history user_input assistant_response
      max_history w = (Returned tt, w') /\
    history w'
      = drop (Z.to_nat (- 2 * max_history))
          (history w ++ [GemmaClient.user_message user_input;
                         GemmaClient.model_message assistant_response]) /\
    (max_history = 0 ->
     history w' = history w ++ [GemmaClient.user_message user_input;
                                GemmaClient.model_message assistant_response]).
Proof.
  intros Hv Hcap.
  destruct (update_conversation_history_spec user_input assistant_response
              max_history w Hv) as (w' & Hrun & _ & Hh & _).
  exists w'. split; [exact Hrun|].
  assert (Hkept : history w'
                  = drop (Z.to_nat (- 2 * max_history))
                      (history w ++ [GemmaClient.user_message user_input;
                                     GemmaClient.model_message assistant_response])).
  { rewrite Hh. unfold GemmaSpec.trimmed, slice_from.
    rewrite length_app. cbn [length].
    destruct (Z.gtb_spec (Z.of_nat (length (history w) + 2)) (max_history * 2))
      as [Hgt|Hle]; [|lia].
    replace (- max_history * 2 <? 0)%Z with false by lia.
    destruct (Z.min_spec (- max_history * 2) (Z.of_nat (length (history w) + 2)))
      as [[Hlt ->]|[Hge ->]].
    - f_equal. lia.
    - rewrite !drop_ge; [done| |]; rewrite length_app; cbn [length]; lia. }
  split; [exact Hkept|].
  intros ->. by rewrite Hkept.
Qed.

(** X9.  [clear_conversation_history] gives the client a new empty list:
    the list that was the history is not emptied (someone still holding
    it sees the old entries), and the next call without context sends the
    bare prompt. *)
Theorem clear_conversation_history_rebinds
    (eng : GemmaClient.engine) (model_name prompt : string) (w : world) :
  GemmaSpec.valid w ->
  exists w1 reply w2,
    GemmaClient.clear_conversation_history w = (Returned tt, w1) /\
    history w1 = [] /\
    deref_in w1 (conversation_history w) = history w /\
    GemmaClient.generate_response eng model_name prompt None w1
      = (Returned reply, w2) /\
    llm_calls (log w2) = llm_calls (log w) ++ [ContentText prompt].
Proof.
  intros Hv. unfold GemmaSpec.valid in Hv.
  set (w1 := set_conversation_history (length (heap w))
               (set_heap (heap w ++ [[]]) w)).
  assert (Hv1 : GemmaSpec.valid w1).
  { unfold GemmaSpec.valid. cbn. rewrite length_app. cbn. lia. }
  assert (Hh1 : history w1 = []).
  { unfold history, deref_in. cbn. apply heap_new. }
  destruct (generate_response_own eng model_name prompt None w1 Hv1 I)
    as (w2 & Hrun & _ & _ & Hcalls & _).
  rewrite Hh1 in Hrun, Hcalls.
  eexists w1, _, w2. split; [reflexivity|]. split; [exact Hh1|].
  split; [|split; [exact Hrun|exact Hcalls]].
  unfold history, deref_in. cbn. by rewrite heap_old.
Qed.

(* --------------------------------------------------------------------- *)
(* Speech synthesis: modes, saving, playing                              *)
(* --------------------------------------------------------------------- *)

Lemma played_app l1 l2 : played (l1 ++ l2) = played l1 ++ played l2.
Proof. unfold played. apply omap_app. Qed.

Lemma stream_played_app l1 l2 :
  stream_played (l1 ++ l2) = stream_played l1 ++ stream_played l2.
Proof. unfold stream_played. apply omap_app. Qed.

Lemma transcriptions_app l1 l2 :
  transcriptions (l1 ++ l2) = transcriptions l1 ++ transcriptions l2.
Proof. unfold transcriptions. apply omap_app. Qed.

Ltac calls :=
  rewrite ?convert_calls_app, ?stream_calls_app, ?llm_calls_app, ?played_app,
    ?stream_played_app, ?transcriptions_app, ?recordings_app, ?printed_app;
  cbn; rewrite ?app_nil_r.

(** Writing an iterator that raises leaves the chunks that came before in
    the file. *)
Lemma write_chunks_broken path cs : forall e old w,
  ElevenLabsTTS.join cs = Raised e ->
  files w !! path = Some old ->
  ElevenLabsTTS.write_chunks path cs w
  = (Raised e,
     set_files (<[path := old ++ DeliverySpec.delivered cs]> (files w)) w).
Proof.
  induction cs as [|c rest IH|e']; intros e old w Hjoin Hold; cbn in *.
  - done.
  - destruct (ElevenLabsTTS.join rest) as [|e''] eqn:Hrest; [done|].
    injection Hjoin as ->.
    unfold bind, ElevenLabsTTS.file_write. rewrite Hold. cbn.
    erewrite IH; [|reflexivity|cbn; apply lookup_insert_eq].
    unfold set_files. cbn. by rewrite insert_insert_eq, app_assoc.
  - injection Hjoin as ->. rewrite app_nil_r, insert_id by done.
    by destruct w.
Qed.

(** X10.  A text that is blank (empty once stripped) is never sent to
    the engine: [text_to_speech] prints "No text provided for TTS" and
    returns None in either mode, with or without a path to save to, and
    [speak] in buffered mode then plays nothing. *)
Theorem blank_text_is_not_synthesized
    (eng : ElevenLabsTTS.engines) (s : ElevenLabsTTS.self) (text : string)
    (voice_id_arg model_arg save_path : option string) (stream_audio : bool)
    (w : world) :
  truthy (strip text) = false ->
  ElevenLabsTTS.text_to_speech eng s text voice_id_arg model_arg save_path
    stream_audio w
  = (Returned None, set_log (log w ++ [Console "No text provided for TTS"]) w)
  /\ ElevenLabsTTS.speak eng s text voice_id_arg model_arg false w
     = (Returned tt, set_log (log w ++ [Console "No text provided for TTS"]) w).
Proof.
  intros Hblank.
  unfold ElevenLabsTTS.speak, ElevenLabsTTS.text_to_speech.
  rewrite Hblank. by split.
Qed.

(** X11.  In streamed mode without a path to save to, [text_to_speech]
    calls [stream] once ([convert] never) with the text and the voice and
    model in force, and returns the chunks joined into one byte string;
    no file is touched. *)
Theorem text_to_speech_streamed_returns_payload
    (eng : ElevenLabsTTS.engines) (s : ElevenLabsTTS.self) (text : string)
    (voice_id_arg model_arg save_path : option string) (w : world)
    (audio_stream : chunks) (payload : bytes) :
  truthy (strip text) = true ->
  SynthesisSpec.save_target save_path = None ->
  ElevenLabsTTS.stream eng text
    (or_default voice_id_arg (ElevenLabsTTS.voice_id s))
    (or_default model_arg (ElevenLabsTTS.model s)) = Returned audio_stream ->
  ElevenLabsTTS.join audio_stream = Returned payload ->
  exists w',
    ElevenLabsTTS.text_to_speech eng s text voice_id_arg model_arg save_path
      true w = (Returned (Some (AudioBytes payload)), w') /\
    stream_calls (log w')
      = stream_calls (log w)
        ++ [(text, or_default voice_id_arg (ElevenLabsTTS.voice_id s),
             or_default model_arg (ElevenLabsTTS.model s))] /\
    convert_calls (log w') = convert_calls (log w) /\
    files w' = files w.
Proof.
  intros Htext Hsave Hstream Hjoin.
  unfold ElevenLabsTTS.text_to_speech. rewrite Htext. cbn [negb].
  unfold ElevenLabsTTS.call_stream, SynthesisSpec.save_target in *. step.
  rewrite Hstream. cbn.
  destruct save_path as [p|]; [destruct (truthy p); [done|]|];
    step; rewrite Hjoin; cbn;
    (eexists; split; [reflexivity|]; cbn; calls; done).
Qed.

(** X12.  In streamed mode with a path to save to, the chunks go to the
    file and only there: the file ends up holding the whole payload and
    the call returns None. *)
Theorem text_to_speech_streamed_saves_to_file
    (eng : ElevenLabsTTS.engines) (s : ElevenLabsTTS.self) (text : string)
    (voice_id_arg model_arg save_path : option string) (p : string)
    (w : world) (audio_stream : chunks) (payload : bytes) :
  truthy (strip text) = true ->
  SynthesisSpec.save_target save_path = Some p ->
  ElevenLabsTTS.open_error eng p = None ->
  ElevenLabsTTS.stream eng text
    (or_default voice_id_arg (ElevenLabsTTS.voice_id s))
    (or_default model_arg (ElevenLabsTTS.model s)) = Returned audio_stream ->
  ElevenLabsTTS.join audio_stream = Returned payload ->
  exists w',
    ElevenLabsTTS.text_to_speech eng s text voice_id_arg model_arg save_path
      true w = (Returned None, w') /\
    files w' = <[p := payload]> (files w) /\
    stream_calls (log w')
      = stream_calls (log w)
        ++ [(text, or_default voice_id_arg (ElevenLabsTTS.voice_id s),
             or_default model_arg (ElevenLabsTTS.model s))] /\
    convert_calls (log w') = convert_calls (log w).
Proof.
  intros Htext Hsave Hopen Hstream Hjoin.
  unfold ElevenLabsTTS.text_to_speech. rewrite Htext. cbn [negb].
  unfold ElevenLabsTTS.call_stream, SynthesisSpec.save_target in *.
  destruct save_path as [p'|]; [|done].
  destruct (truthy p') eqn:Hp; [|done]. injection Hsave as ->.
  unfold ElevenLabsTTS.open_wb, ElevenLabsTTS.raise_if. rewrite Hopen. step.
  rewrite Hstream. cbn.
  rewrite (write_chunks_complete p audio_stream payload [] _ Hjoin)
    by (cbn; apply lookup_insert_eq).
  cbn. eexists. split; [reflexivity|]. cbn. calls.
  by rewrite insert_insert_eq.
Qed.

(** X13.  When the iterator of chunks raises while it is being saved (in
    either mode), the failure is absorbed: the call returns None after
    printing the diagnostic, and the file is left holding the chunks that
    arrived before the failure. *)
Theorem text_to_speech_interrupted_save_leaves_partial_file
    (eng : ElevenLabsTTS.engines) (s : ElevenLabsTTS.self) (text : string)
    (voice_id_arg model_arg save_path : option string) (stream_audio : bool)
    (p : string) (w : world) (audio_chunks : chunks) (e : exn) :
  truthy (strip text) = true ->
  SynthesisSpec.save_target save_path = Some p ->
  ElevenLabsTTS.open_error eng p = None ->
  DeliverySpec.engine_call eng stream_audio text
    (or_default voice_id_arg (ElevenLabsTTS.voice_id s))
    (or_default model_arg (ElevenLabsTTS.model s)) = Returned audio_chunks ->
  ElevenLabsTTS.join audio_chunks = Raised e ->
  exists w',
    ElevenLabsTTS.text_to_speech eng s text voice_id_arg model_arg save_path
      stream_audio w = (Returned None, w') /\
    files w' = <[p := DeliverySpec.delivered audio_chunks]> (files w) /\
    last (printed (log w'))
      = Some ("Error in text-to-speech conversion: " +:+ exn_msg e).
Proof.
  intros Htext Hsave Hopen Hcall Hjoin.
  unfold ElevenLabsTTS.text_to_speech. rewrite Htext. cbn [negb].
  unfold ElevenLabsTTS.call_stream, ElevenLabsTTS.call_convert,
    SynthesisSpec.save_target, DeliverySpec.engine_call in *.
  destruct save_path as [p'|]; [|done].
  destruct (truthy p') eqn:Hp; [|done]. injection Hsave as ->.
  unfold ElevenLabsTTS.open_wb, ElevenLabsTTS.raise_if. rewrite Hopen.
  destruct stream_audio; step; rewrite Hcall; cbn;
    rewrite (write_chunks_broken p audio_chunks e [] _ Hjoin)
      by (cbn; apply lookup_insert_eq);
    cbn; (eexists; split; [reflexivity|]); cbn;
    rewrite insert_insert_eq, printed_app; cbn; by rewrite last_snoc.
Qed.

(** X14.  When the engine call itself raises (in either mode), the call
    returns None after printing "Error in text-to-speech conversion: ..."
    and no file is created or changed, also when a path to save to was
    given. *)
Theorem text_to_speech_engine_error_absorbed
    (eng : ElevenLabsTTS.engines) (s : ElevenLabsTTS.self) (text : string)
    (voice_id_arg model_arg save_path : option string) (stream_audio : bool)
    (w : world) (e : exn) :
  truthy (strip text) = true ->
  DeliverySpec.engine_call eng stream_audio text
    (or_default voice_id_arg (ElevenLabsTTS.voice_id s))
    (or_default model_arg (ElevenLabsTTS.model s)) = Raised e ->
  exists w',
    ElevenLabsTTS.text_to_speech eng s text voice_id_arg model_arg save_path
      stream_audio w = (Returned None, w') /\
    files w' = files w /\
    last (printed (log w'))
      = Some ("Error in text-to-speech conversion: " +:+ exn_msg e).
Proof.
  intros Htext Hcall.
  unfold ElevenLabsTTS.text_to_speech. rewrite Htext. cbn [negb].
  unfold ElevenLabsTTS.call_stream, ElevenLabsTTS.call_convert,
    DeliverySpec.engine_call in *.
  destruct stream_audio; step; rewrite Hcall; cbn;
    (eexists; split; [reflexivity|]); cbn;
    rewrite printed_app; cbn; by rewrite last_snoc.
Qed.

(** X15.  [play_audio] never raises and touches no file.  Given None or
    empty bytes it prints "No audio data to play" and the player is not
    called; otherwise the player is handed the assembled payload once,
    also when the player then fails; if assembling the payload fails,
    nothing is played. *)
Theorem play_audio_plays_payload_once
    (eng : ElevenLabsTTS.engines) (audio_data : option audio) (w : world) :
  exists w',
    ElevenLabsTTS.play_audio eng audio_data w = (Returned tt, w') /\
    files w' = files w /\
    played (log w')
      = played (log w)
        ++ match audio_data with
           | Some a =>
               if ElevenLabsTTS.audio_truthy audio_data then
                 match ElevenLabsTTS.payload a with
                 | Returned b => [b]
                 | Raised _ => []
                 end
               else []
           | None => []
           end /\
    (ElevenLabsTTS.audio_truthy audio_data = false ->
     log w' = log w ++ [Console "No audio data to play"]).
Proof.
  unfold ElevenLabsTTS.play_audio, ElevenLabsTTS.call_play,
    ElevenLabsTTS.raise_if.
  destruct audio_data as [a|].
  - destruct (ElevenLabsTTS.audio_truthy (Some a)) eqn:Htruthy.
    + step. destruct (ElevenLabsTTS.payload a) as [b|e]; cbn.
      * destruct (ElevenLabsTTS.play eng b) as [e|]; cbn;
          (eexists; split; [reflexivity|]; cbn; calls; by repeat split).
      * eexists. split; [reflexivity|]. cbn. calls. by repeat split.
    + step. eexists. split; [reflexivity|]. cbn. calls. by repeat split.
  - step. eexists. split; [reflexivity|]. cbn. calls. by repeat split.
Qed.

(** X16.  In buffered mode [speak] synthesizes, then plays: for a text
    that is not blank [convert] is called once, and what is played is
    exactly the payload of the iterator it returned; when [convert]
    raises or the iterator breaks nothing is played.  In every case
    [speak] returns and touches no file. *)
Theorem speak_buffered_plays_converted_audio
    (eng : ElevenLabsTTS.engines) (s : ElevenLabsTTS.self) (text : string)
    (voice_id_arg model_arg : option string) (w : world) :
  truthy (strip text) = true ->
  exists w',
    ElevenLabsTTS.speak eng s text voice_id_arg model_arg false w
      = (Returned tt, w') /\
    convert_calls (log w')
      = convert_calls (log w)
        ++ [(text, or_default voice_id_arg (ElevenLabsTTS.voice_id s),
             or_default model_arg (ElevenLabsTTS.model s))] /\
    played (log w')
      = played (log w)
        ++ match ElevenLabsTTS.convert eng text
                   (or_default voice_id_arg (ElevenLabsTTS.voice_id s))
                   (or_default model_arg (ElevenLabsTTS.model s)) with
           | Returned audio_chunks =>
               match ElevenLabsTTS.join audio_chunks with
               | Returned payload => [payload]
               | Raised _ => []
               end
           | Raised _ => []
           end /\
    files w' = files w.
Proof.
  intros Htext.
  unfold ElevenLabsTTS.speak, ElevenLabsTTS.text_to_speech.
  rewrite Htext. cbn [negb].
  unfold ElevenLabsTTS.call_convert. step.
  destruct (ElevenLabsTTS.convert eng text _ _) as [a|e]; cbn.
  - unfold ElevenLabsTTS.call_play, ElevenLabsTTS.raise_if. step.
    destruct (ElevenLabsTTS.join a) as [b|e]; cbn.
    + destruct (ElevenLabsTTS.play eng b) as [e|]; cbn;
        (eexists; split; [reflexivity|]; cbn; calls; by repeat split).
    + eexists. split; [reflexivity|]. cbn. calls. by repeat split.
  - eexists. split; [reflexivity|]. cbn. calls. by repeat split.
Qed.

(** X17.  In streamed mode [speak] has no guard on the text: any text,
    also a blank one, is sent to [stream] once ([convert] is not called),
    and the payload of the returned iterator is handed to the streaming
    player. *)
Theorem speak_streamed_sends_any_text
    (eng : ElevenLabsTTS.engines) (s : ElevenLabsTTS.self) (text : string)
    (voice_id_arg model_arg : option string) (w : world)
    (audio_stream : chunks) (payload : bytes) :
  ElevenLabsTTS.stream eng text
    (or_default voice_id_arg (ElevenLabsTTS.voice_id s))
    (or_default model_arg (ElevenLabsTTS.model s)) = Returned audio_stream ->
  ElevenLabsTTS.join audio_stream = Returned payload ->
  ElevenLabsTTS.stream_play eng payload = None ->
  exists w',
    ElevenLabsTTS.speak eng s text voice_id_arg model_arg true w
      = (Returned tt, w') /\
    stream_calls (log w')
      = stream_calls (log w)
        ++ [(text, or_default voice_id_arg (ElevenLabsTTS.voice_id s),
             or_default model_arg (ElevenLabsTTS.model s))] /\
    stream_played (log w') = stream_played (log w) ++ [payload] /\
    convert_calls (log w') = convert_calls (log w).
Proof.
  intros Hstream Hjoin Hplay.
  unfold ElevenLabsTTS.speak, ElevenLabsTTS.call_stream,
    ElevenLabsTTS.call_stream_play, ElevenLabsTTS.raise_if.
  step. rewrite Hstream. cbn. rewrite Hjoin. cbn. rewrite Hplay. cbn.
  eexists. split; [reflexivity|]. cbn. calls. by repeat split.
Qed.

(* --------------------------------------------------------------------- *)
(* Capture and transcription: sources, devices, saved recordings         *)
(* --------------------------------------------------------------------- *)

(** X18.  [transcribe_audio] makes one call to the speech model: on the
    file when the path is non-empty and exists (the buffer is then
    ignored), otherwise on the buffer, without any message about the
    missing file.  It returns the text stripped; when the speech model
    raises, it prints the diagnostic and returns the empty text. *)
Theorem transcribe_audio_transcribes_chosen_source
    (eng : WhisperSTT.engines) (audio_data : option AudioBuffer)
    (audio_path : option string) (src : audio_source) (w : world) :
  CaptureSpec.chosen_source eng audio_data audio_path = Some src ->
  WhisperSTT.transcribe_audio eng audio_data audio_path w
  = match WhisperSTT.model_transcribe eng src with
    | Returned text =>
        (Returned (strip text), set_log (log w ++ [WhisperTranscribe src]) w)
    | Raised e =>
        (Returned "",
         set_log (log w ++ [WhisperTranscribe src;
                            Console ("Error during transcription: " +:+ exn_msg e)])
           w)
    end.
Proof.
  unfold CaptureSpec.chosen_source, WhisperSTT.transcribe_audio,
    WhisperSTT.call_transcribe.
  intros Hsrc.
  destruct audio_path as [p|];
    [destruct (truthy p && WhisperSTT.path_exists eng p)|];
    destruct audio_data as [d|]; cbn in Hsrc; try discriminate Hsrc;
    injection Hsrc as <-; step;
    destruct (WhisperSTT.model_transcribe eng _) as [text|e]; cbn;
    unfold set_log; cbn; rewrite <- ?app_assoc; reflexivity.
Qed.

Lemma filter_filter {A} (f g : A -> bool) (l : list A) :
  List.filter f (List.filter g l) = List.filter (fun x => g x && f x) l.
Proof.
  induction l as [|x l IH]; cbn; [done|].
  destruct (g x); cbn; [destruct (f x)|]; by rewrite ?IH.
Qed.

(** The first index of a range that passes a test. *)
Lemma head_filter_seq (f : nat -> bool) (n : nat) : forall a,
  match head (List.filter f (seq a n)) with
  | Some i =>
      (a <= i < a + n)%nat /\ f i = true /\
      forall j, (a <= j < i)%nat -> f j = false
  | None => forall j, (a <= j < a + n)%nat -> f j = false
  end.
Proof.
  induction n as [|n IH]; intros a; cbn.
  - intros j Hj. lia.
  - destruct (f a) eqn:Hfa; cbn.
    + split; [lia|]. split; [done|]. intros j Hj. lia.
    + specialize (IH (S a)).
      destruct (head (List.filter f (seq (S a) n))) as [i|].
      * destruct IH as (Hi & Hfi & Hbefore). split; [lia|]. split; [done|].
        intros j Hj. destruct (decide (j = a)) as [->|]; [done|].
        apply Hbefore. lia.
      * intros j Hj. destruct (decide (j = a)) as [->|]; [done|].
        apply IH. lia.
Qed.

(* --------------------------------------------------------------------- *)
(* What a computation leaves alone                                       *)
(* --------------------------------------------------------------------- *)

Section FrameLemmas.
Import Frame.
Context {X : Type} (f : world -> X).

Lemma keeps_ret {A} (a : A) : keeps f (ret a).
Proof. by intros w. Qed.

Lemma keeps_raise {A} (e : exn) : keeps f (@raise A e).
Proof. by intros w. Qed.

Lemma keeps_lift {A} (o : outcome A) : keeps f (lift o).
Proof. by intros w. Qed.

Lemma keeps_bind {A B} (m : M A) (k : A -> M B) :
  keeps f m -> (forall a, keeps f (k a)) -> keeps f (bind m k).
Proof.
  intros Hm Hk w. unfold bind. specialize (Hm w).
  destruct (m w) as [[a|e] w1]; cbn in *; [|done].
  by rewrite Hk.
Qed.

Lemma keeps_try_except {A} (body : M A) (handler : exn -> M A) :
  keeps f body -> (forall e, keeps f (handler e)) ->
  keeps f (try_except body handler).
Proof.
  intros Hb Hh w. unfold try_except. specialize (Hb w).
  destruct (body w) as [[a|e] w1]; cbn in *; [done|].
  by rewrite Hh.
Qed.

Lemma keeps_emit (ev : event) :
  (forall w, f (set_log (log w ++ [ev]) w) = f w) -> keeps f (emit ev).
Proof. intros Hev w. apply Hev. Qed.

(** A change of the heap alone, for an aspect that does not read it. *)
Lemma keeps_heap_change {A} (g : world -> A * list (list message)) :
  (forall h w, f (set_heap h w) = f w) ->
  keeps f (fun w => (Returned (g w).1, set_heap (g w).2 w)).
Proof. intros Hf w. apply Hf. Qed.

End FrameLemmas.

(** Closes a goal [Frame.keeps f m] along the structure of [m]; facts
    about parts of [m] are taken from the context, and a primitive is
    settled by computing its effect. *)
Ltac framed :=
  repeat first
    [ match goal with H : _ |- _ => apply H end
    | apply keeps_ret
    | apply keeps_raise
    | apply keeps_lift
    | apply keeps_emit; intros ?;
      unfold Frame.lists, Frame.heard, Frame.asked, Frame.spoken; cbn;
      calls; reflexivity
    | apply keeps_bind; [|intros ?]
    | apply keeps_try_except; [|intros ?]
    | match goal with
      | |- Frame.keeps _ (if ?b then _ else _) => destruct b
      | |- Frame.keeps _ (match ?x with _ => _ end) => destruct x
      end
    | solve [intros ?; unfold Frame.lists, Frame.heard, Frame.asked,
               Frame.spoken; reflexivity] ].

(** For a computation that first reads the world it starts in. *)
Ltac captured :=
  intros ?w; cbv beta;
  match goal with
  | |- ?f (?m ?w0).2 = ?f ?w0 =>
      let Hk := fresh "Hk" in
      enough (Frame.keeps f m) as Hk by exact (Hk w0)
  end.

Section CaptureFrame.
Import Frame WhisperSTT.
Variable eng : engines.
Variable s : self.

Lemma keeps_lists_probe_devices devices : forall i,
  keeps lists (probe_devices eng s i devices).
Proof.
  induction devices as [|d rest IH]; intros i; cbn [probe_devices];
    unfold call_rec, print; framed.
Qed.

Lemma keeps_files_probe_devices devices : forall i,
  keeps files (probe_devices eng s i devices).
Proof.
  induction devices as [|d rest IH]; intros i; cbn [probe_devices];
    unfold call_rec, print; framed.
Qed.

Lemma keeps_lists_find_working_device : keeps lists (_find_working_device eng s).
Proof.
  pose proof keeps_lists_probe_devices.
  unfold _find_working_device, call_query_devices, print. framed.
Qed.

Lemma keeps_files_find_working_device : keeps files (_find_working_device eng s).
Proof.
  pose proof keeps_files_probe_devices.
  unfold _find_working_device, call_query_devices, print. framed.
Qed.

Lemma keeps_lists_record_audio duration : keeps lists (record_audio eng s duration).
Proof. unfold record_audio, call_rec, print. framed. Qed.

Lemma keeps_files_record_audio duration : keeps files (record_audio eng s duration).
Proof. unfold record_audio, call_rec, print. framed. Qed.

Lemma keeps_heard_record_audio duration : keeps heard (record_audio eng s duration).
Proof. unfold record_audio, call_rec, print. framed. Qed.

Lemma keeps_asked_record_audio duration : keeps asked (record_audio eng s duration).
Proof. unfold record_audio, call_rec, print. framed. Qed.

Lemma keeps_spoken_record_audio duration : keeps spoken (record_audio eng s duration).
Proof. unfold record_audio, call_rec, print. framed. Qed.

End CaptureFrame.

(** What [_find_working_device] returns when the enumeration succeeds. *)
Lemma find_working_device_run (eng : WhisperSTT.engines)
    (devices : list device_info) (w : world) :
  WhisperSTT.sd_query_devices eng = Returned devices ->
  (WhisperSTT._find_working_device eng (WhisperSTT.attributes None) w).1
  = Returned (DeviceSpec.first_working eng (WhisperSTT.attributes None) devices).
Proof.
  intros Hq.
  unfold WhisperSTT._find_working_device, WhisperSTT.call_query_devices.
  step. rewrite Hq. cbn.
  match goal with
  | |- context [WhisperSTT.probe_devices _ _ 0 devices ?w0] =>
      destruct (probe_devices_spec eng None devices [] w0) as (w1 & Hrun & _)
  end.
  cbn [length app] in Hrun. rewrite Hrun.
  fold (DeviceSpec.input_candidates devices).
  fold (DeviceSpec.first_working eng (WhisperSTT.attributes None) devices).
  by destruct (DeviceSpec.first_working _ _ _).
Qed.

(** X19.  The device [_find_working_device] returns is an index of the
    enumeration, reports an input channel and passed its trial recording,
    and every candidate before it failed its trial; None is returned only
    when every candidate failed. *)
Theorem find_working_device_returns_valid_device
    (eng : WhisperSTT.engines) (devices : list device_info) (w : world) :
  WhisperSTT.sd_query_devices eng = Returned devices ->
  let s := WhisperSTT.attributes None in
  match (WhisperSTT._find_working_device eng s w).1 with
  | Returned (Some i) =>
      (i < length devices)%nat /\
      DeviceSpec.has_input devices i = true /\
      DeviceSpec.trial_succeeds eng s i = true /\
      forall j, (j < i)%nat -> DeviceSpec.has_input devices j = true ->
                DeviceSpec.trial_succeeds eng s j = false
  | Returned None =>
      forall j, (j < length devices)%nat ->
                DeviceSpec.has_input devices j = true ->
                DeviceSpec.trial_succeeds eng s j = false
  | Raised _ => False
  end.
Proof.
  intros Hq s. subst s. rewrite (find_working_device_run eng devices w Hq).
  unfold DeviceSpec.first_working, DeviceSpec.input_candidates.
  rewrite filter_filter.
  pose proof (head_filter_seq
                (fun x => DeviceSpec.has_input devices x
                          && DeviceSpec.trial_succeeds eng
                               (WhisperSTT.attributes None) x)
                (length devices) 0) as Hhead.
  destruct (head _) as [i|].
  - destruct Hhead as (Hi & Hok & Hbefore).
    apply andb_true_iff in Hok as [Hin Hok].
    split; [lia|]. split; [done|]. split; [done|].
    intros j Hj Hinj. specialize (Hbefore j). rewrite Hinj in Hbefore.
    apply Hbefore. lia.
  - intros j Hj Hinj. specialize (Hhead j). rewrite Hinj in Hhead.
    apply Hhead. lia.
Qed.

(** The frame count of a recorder built by [__init__]: the sample rate
    is 16000, which is a float exactly. *)
Lemma frame_count_attributes (dev : option nat) (duration : float) :
  WhisperSTT.frame_count (WhisperSTT.attributes dev) duration
  = int_of_float (PrimFloat.mul duration 16000%float).
Proof. reflexivity. Qed.

(** Float arithmetic, not exact arithmetic: the frame counts of 2.01 and
    of 0.7 seconds, and the trial of 0.1 second. *)
Lemma frame_count_in_float_arithmetic (dev : option nat) :
  WhisperSTT.frame_count (WhisperSTT.attributes dev) Scenarios.duration_2_01
    = Returned 32159 /\
  WhisperSTT.frame_count (WhisperSTT.attributes dev) 0x1.6666666666666p-1%float
    = Returned 11200 /\
  WhisperSTT.frame_count (WhisperSTT.attributes dev) 0x1.999999999999ap-4%float
    = Returned DeviceSpec.trial_frames.
Proof. repeat split; reflexivity. Qed.

(** X20.  A WhisperSTT built without a device id settles on the device
    automatic detection finds (none when the enumeration raises or no
    candidate passes); [record_audio] then requests one recording of
    int(duration x 16000) frames, computed in float arithmetic, from that
    device; it requests none and returns None when that count cannot be
    computed (an infinite or NaN duration), and raises a RuntimeError
    without requesting any when there is no device.  A device id given to
    the constructor is taken as it is, without any probing. *)
Theorem whisper_init_then_record
    (eng : WhisperSTT.engines) (duration : float) (w : world) :
  (forall d, WhisperSTT.__init__ eng None (Some d) w
             = (Returned (WhisperSTT.attributes (Some d)), w)) /\
  exists w1,
    WhisperSTT.__init__ eng None None w
      = (Returned (WhisperSTT.attributes (CaptureSpec.detected eng)), w1) /\
    match CaptureSpec.detected eng with
    | None =>
        exists e,
          WhisperSTT.record_audio eng
            (WhisperSTT.attributes (CaptureSpec.detected eng)) duration w1
          = (Raised e, w1) /\
          exn_class e = "RuntimeError"
    | Some i =>
        exists r w2,
          WhisperSTT.record_audio eng
            (WhisperSTT.attributes (CaptureSpec.detected eng)) duration w1
          = (Returned r, w2) /\
          match int_of_float (PrimFloat.mul duration 16000%float) with
          | Returned frames =>
              recordings (log w2) = recordings (log w1) ++ [(frames, i)]
          | Raised _ =>
              r = None /\ recordings (log w2) = recordings (log w1)
          end
    end.
Proof.
  split; [done|].
  assert (Hdet : (WhisperSTT._find_working_device eng
                    (WhisperSTT.attributes None) w).1
                 = Returned (CaptureSpec.detected eng)).
  { unfold CaptureSpec.detected.
    destruct (WhisperSTT.sd_query_devices eng) as [devices|e] eqn:Hq.
    - by apply find_working_device_run.
    - unfold WhisperSTT._find_working_device, WhisperSTT.call_query_devices.
      step. by rewrite Hq. }
  unfold WhisperSTT.__init__. cbn match.
  unfold bind at 1.
  destruct (WhisperSTT._find_working_device eng (WhisperSTT.attributes None) w)
    as [found w1]. cbn in Hdet. subst found.
  exists w1. split; [reflexivity|].
  destruct (CaptureSpec.detected eng) as [i|].
  - unfold WhisperSTT.record_audio, WhisperSTT.call_rec. cbn match.
    rewrite frame_count_attributes.
    destruct (int_of_float _) as [frames|e0]; step.
    + destruct (WhisperSTT.sd_rec eng _ _ _ i) as [data|e]; cbn;
        (eexists _, _; split; [reflexivity|]; cbn; calls; reflexivity).
    + eexists _, _. split; [reflexivity|]. split; [reflexivity|].
      cbn. calls. reflexivity.
  - eexists. split; reflexivity.
Qed.

(** X21.  When the directory can be made and the file opened and written,
    [save_audio] of a WhisperSTT returns the path of a file that then
    holds the recording as a WAV file with one channel, two bytes per
    sample and 16000 frames per second, whose frames are two bytes for
    each sample of the buffer; nothing else in the file system changes. *)
Theorem save_audio_writes_wav_at_returned_path
    (st : WhisperSTT.storage) (dev : option nat) (audio_data : AudioBuffer)
    (filename : option string) (w : world) :
  WhisperSTT.makedirs_error st "recordings" = None ->
  WhisperSTT.wave_open_error st (CaptureSpec.recording_path st filename) = None ->
  WhisperSTT.wave_write_error st (CaptureSpec.recording_path st filename) = None ->
  exists path w',
    WhisperSTT.save_audio st (WhisperSTT.attributes dev) audio_data filename w
      = (Returned path, w') /\
    path = CaptureSpec.recording_path st filename /\
    files w' !! path
      = Some (WhisperSTT.wave_bytes st 1 2 16000
                (WhisperSTT.pcm_frames st audio_data)) /\
    length (WhisperSTT.pcm_frames st audio_data) = (2 * length audio_data)%nat /\
    (forall other, other <> path -> files w' !! other = files w !! other) /\
    log w' = log w.
Proof.
  intros Hdir Hopen Hwrite.
  unfold WhisperSTT.save_audio, WhisperSTT.write_file,
    CaptureSpec.recording_path, CaptureSpec.recording_name in *.
  rewrite Hdir. step. rewrite Hopen, Hwrite. cbn.
  eexists _, _. split; [reflexivity|]. cbn. split; [done|].
  split; [apply lookup_insert_eq|]. split.
  - unfold WhisperSTT.pcm_frames.
    induction audio_data as [|x l IH]; cbn; [done|].
    destruct (WhisperSTT.int16_bytes st x). cbn. rewrite IH. lia.
  - split; [|done]. intros other Hne. by rewrite lookup_insert_ne.
Qed.

(* --------------------------------------------------------------------- *)
(* Stripping                                                             *)
(* --------------------------------------------------------------------- *)

Lemma lstrip_chars_head (l : list ascii) :
  match lstrip_chars l with
  | [] => True
  | c :: _ => is_space c = false
  end.
Proof.
  induction l as [|c l IH]; cbn; [done|].
  destruct (is_space c) eqn:Hc; [exact IH|exact Hc].
Qed.

Lemma lstrip_chars_fixed (l : list ascii) :
  match l with [] => True | c :: _ => is_space c = false end ->
  lstrip_chars l = l.
Proof. destruct l as [|c l]; cbn; [done|]. by intros ->. Qed.

Lemma lstrip_chars_suffix (l : list ascii) :
  exists pre, l = pre ++ lstrip_chars l.
Proof.
  induction l as [|c l [pre IH]]; cbn; [by exists []|].
  destruct (is_space c); [|by exists []].
  exists (c :: pre). cbn. by rewrite <- IH.
Qed.

(** Stripping a stripped text changes nothing. *)
Lemma strip_strip (t : string) : strip (strip t) = strip t.
Proof.
  unfold strip. rewrite list_ascii_of_string_of_list_ascii. f_equal.
  set (A := lstrip_chars (list_ascii_of_string t)).
  set (R := lstrip_chars (rev A)).
  assert (HR : lstrip_chars R = R).
  { apply lstrip_chars_fixed. apply lstrip_chars_head. }
  assert (HB : lstrip_chars (rev R) = rev R).
  { apply lstrip_chars_fixed.
    destruct (lstrip_chars_suffix (rev A)) as [pre Hpre]. fold R in Hpre.
    apply (f_equal (@rev ascii)) in Hpre.
    rewrite rev_involutive, rev_app_distr in Hpre.
    pose proof (lstrip_chars_head (list_ascii_of_string t)) as HA. fold A in HA.
    destruct (rev R) as [|b B'] eqn:HrevR; [done|].
    rewrite Hpre in HA. exact HA. }
  by rewrite HB, rev_involutive, HR.
Qed.

(* --------------------------------------------------------------------- *)
(* What a turn leaves alone                                              *)
(* --------------------------------------------------------------------- *)

Section TurnFrame.
Import Frame.

Lemma frame_bind_run {X A B} (f : world -> X) (m : M A) (k : A -> M B) w :
  (forall a, keeps f (k a)) -> f (bind m k w).2 = f (m w).2.
Proof.
  intros Hk. unfold bind. destruct (m w) as [[a|e] w1]; cbn; [|done].
  apply Hk.
Qed.

Lemma frame_try_run {X A} (f : world -> X) (body : M A) (handler : exn -> M A) w :
  (forall e, keeps f (handler e)) -> f (try_except body handler w).2 = f (body w).2.
Proof.
  intros Hh. unfold try_except. destruct (body w) as [[a|e] w1]; cbn; [done|].
  apply Hh.
Qed.

Lemma keeps_files_context_truthy c : keeps files (GemmaClient.context_truthy c).
Proof. unfold GemmaClient.context_truthy. framed. Qed.
Lemma keeps_heard_context_truthy c : keeps heard (GemmaClient.context_truthy c).
Proof. unfold GemmaClient.context_truthy. framed. Qed.
Lemma keeps_spoken_context_truthy c : keeps spoken (GemmaClient.context_truthy c).
Proof. unfold GemmaClient.context_truthy. framed. Qed.

Lemma keeps_files_prepare_content p c : keeps files (GemmaClient.prepare_content p c).
Proof.
  unfold GemmaClient.prepare_content, GemmaClient.context_truthy.
  captured. framed.
Qed.
Lemma keeps_heard_prepare_content p c : keeps heard (GemmaClient.prepare_content p c).
Proof.
  unfold GemmaClient.prepare_content, GemmaClient.context_truthy.
  captured. framed.
Qed.
Lemma keeps_spoken_prepare_content p c : keeps spoken (GemmaClient.prepare_content p c).
Proof.
  unfold GemmaClient.prepare_content, GemmaClient.context_truthy.
  captured. framed.
Qed.

Lemma keeps_files_update u a m :
  keeps files (GemmaClient._update_conversation_history u a m).
Proof. unfold GemmaClient._update_conversation_history. captured. framed. Qed.
Lemma keeps_heard_update u a m :
  keeps heard (GemmaClient._update_conversation_history u a m).
Proof. unfold GemmaClient._update_conversation_history. captured. framed. Qed.
Lemma keeps_spoken_update u a m :
  keeps spoken (GemmaClient._update_conversation_history u a m).
Proof. unfold GemmaClient._update_conversation_history. captured. framed. Qed.

Lemma keeps_files_generate_response eng model_name prompt context :
  keeps files (GemmaClient.generate_response eng model_name prompt context).
Proof.
  pose proof keeps_files_context_truthy. pose proof keeps_files_prepare_content.
  pose proof keeps_files_update.
  unfold GemmaClient.generate_response, GemmaClient.call_generate_content, print.
  framed.
Qed.

Lemma keeps_heard_generate_response eng model_name prompt context :
  keeps heard (GemmaClient.generate_response eng model_name prompt context).
Proof.
  pose proof keeps_heard_context_truthy. pose proof keeps_heard_prepare_content.
  pose proof keeps_heard_update.
  unfold GemmaClient.generate_response, GemmaClient.call_generate_content, print.
  framed.
Qed.

Lemma keeps_spoken_generate_response eng model_name prompt context :
  keeps spoken (GemmaClient.generate_response eng model_name prompt context).
Proof.
  pose proof keeps_spoken_context_truthy. pose proof keeps_spoken_prepare_content.
  pose proof keeps_spoken_update.
  unfold GemmaClient.generate_response, GemmaClient.call_generate_content, print.
  framed.
Qed.

Lemma keeps_files_speak_buffered eng s text v m :
  keeps files (ElevenLabsTTS.speak eng s text v m false).
Proof.
  unfold ElevenLabsTTS.speak, ElevenLabsTTS.text_to_speech,
    ElevenLabsTTS.play_audio, ElevenLabsTTS.call_convert,
    ElevenLabsTTS.call_play, ElevenLabsTTS.raise_if, print.
  cbn match. framed.
Qed.

Lemma keeps_heard_speak eng s text v m stream_audio :
  keeps heard (ElevenLabsTTS.speak eng s text v m stream_audio).
Proof.
  unfold ElevenLabsTTS.speak, ElevenLabsTTS.text_to_speech,
    ElevenLabsTTS.play_audio, ElevenLabsTTS.call_convert,
    ElevenLabsTTS.call_stream, ElevenLabsTTS.call_stream_play,
    ElevenLabsTTS.call_play, ElevenLabsTTS.raise_if, print.
  cbn match. framed.
Qed.

Lemma keeps_files_transcribe_audio eng a p :
  keeps files (WhisperSTT.transcribe_audio eng a p).
Proof.
  unfold WhisperSTT.transcribe_audio, WhisperSTT.call_transcribe, print. framed.
Qed.

Lemma keeps_files_process_voice_input s a p :
  keeps files (VoiceAssistant.process_voice_input s a p).
Proof.
  pose proof keeps_files_transcribe_audio.
  pose proof keeps_files_generate_response.
  pose proof keeps_files_speak_buffered.
  unfold VoiceAssistant.process_voice_input, print. framed.
Qed.

End TurnFrame.

(* --------------------------------------------------------------------- *)
(* Turns of the assistant                                                *)
(* --------------------------------------------------------------------- *)

Lemma strip_truthy_text (t : string) : truthy (strip t) = true -> truthy t = true.
Proof. by destruct t. Qed.

(** X22.  A turn with a non-empty transcript and a reply that is not
    blank returns the reply stripped, whatever the synthesis engine and
    the player do: the reply is sent to [convert] once, the history gains
    the pair (transcript, text as received), and no file is touched. *)
Theorem process_voice_input_delivers_reply
    (s : VoiceAssistant.self) (audio_data : option AudioBuffer)
    (audio_path : option string) (w : world) (text : string)
    (r : response) (t : string) :
  GemmaSpec.valid w ->
  (WhisperSTT.transcribe_audio (VoiceAssistant.stt_engines s)
     audio_data audio_path w).1 = Returned text ->
  truthy text = true ->
  VoiceAssistant.llm_engine s (VoiceAssistant.llm_model s)
    (GemmaSpec.contents_for (history w) text) = Returned r ->
  GemmaClient.response_text r = Returned t ->
  truthy (strip t) = true ->
  exists w',
    VoiceAssistant.process_voice_input s audio_data audio_path w
      = (Returned (Some (strip t)), w') /\
    history w' = GemmaSpec.trimmed 10
                   (history w ++ [GemmaClient.user_message text;
                                  GemmaClient.model_message t]) /\
    convert_calls (log w')
      = convert_calls (log w)
        ++ [(strip t, ElevenLabsTTS.voice_id (VoiceAssistant.tts s),
             ElevenLabsTTS.model (VoiceAssistant.tts s))] /\
    files w' = files w.
Proof.
  intros Hv Htext Htruthy Heng Hresp Hreply.
  pose proof (keeps_files_process_voice_input s audio_data audio_path w) as Hfiles.
  enough (exists w',
            VoiceAssistant.process_voice_input s audio_data audio_path w
              = (Returned (Some (strip t)), w') /\
            history w' = GemmaSpec.trimmed 10
                           (history w ++ [GemmaClient.user_message text;
                                          GemmaClient.model_message t]) /\
            convert_calls (log w')
              = convert_calls (log w)
                ++ [(strip t, ElevenLabsTTS.voice_id (VoiceAssistant.tts s),
                     ElevenLabsTTS.model (VoiceAssistant.tts s))])
    as (w' & Hturn & Hh & Hconv).
  { rewrite Hturn in Hfiles. by exists w'. }
  clear Hfiles.
  destruct (transcribe_audio_run (VoiceAssistant.stt_engines s)
              audio_data audio_path) as (evs & Hllm & Htts & Hrun).
  rewrite Hrun in Htext. cbn [fst] in Htext. injection Htext as Htext.
  pose proof (strip_truthy_text t Hreply) as Ht.
  assert (Hagain : truthy (strip (strip t)) = true) by (by rewrite strip_strip).
  unfold VoiceAssistant.process_voice_input, try_except.
  unfold bind at 1, print at 1, emit at 1. unfold bind at 1.
  rewrite Hrun, Htext, Htruthy. cbn [negb].
  unfold bind at 1, print at 1, emit at 1.
  unfold bind at 1, print at 1, emit at 1.
  match goal with
  | |- context [bind (GemmaClient.generate_response _ _ _ _) _ ?wB] =>
      set (w2 := wB)
  end.
  assert (Hv2 : GemmaSpec.valid w2) by exact Hv.
  destruct (generate_response_own (VoiceAssistant.llm_engine s)
              (VoiceAssistant.llm_model s) text None w2 Hv2 I)
    as (w3 & Hgen & Hv3 & Hh3 & _ & Hconv3 & _).
  change (history w2) with (history w) in Hgen, Hh3.
  unfold GemmaSpec.reply_for, GemmaSpec.generated_text in Hgen, Hh3.
  rewrite Heng, Hresp, Ht in Hgen, Hh3.
  rewrite (bind_returned _ _ _ _ _ Hgen). rewrite Hreply. cbn [negb].
  unfold bind at 1, print at 1, emit at 1.
  unfold bind at 1, print at 1, emit at 1.
  match goal with
  | |- context [bind (ElevenLabsTTS.speak _ _ _ _ _ _) _ ?wC] =>
      set (w4 := wC)
  end.
  destruct (speak_buffered_converts (VoiceAssistant.tts_engines s)
              (VoiceAssistant.tts s) (strip t) w4 Hagain)
    as (w5 & Hspeak & Hconv).
  destruct (llm_untouched_speak (VoiceAssistant.tts_engines s)
              (VoiceAssistant.tts s) (strip t) None None false w4)
    as (Hheap & Hloc & _).
  rewrite Hspeak in Hheap, Hloc. cbn in Hheap, Hloc.
  rewrite (bind_returned _ _ _ _ _ Hspeak). unfold ret.
  exists w5. split; [reflexivity|]. split.
  - unfold history, deref_in. rewrite Hheap, Hloc. exact Hh3.
  - rewrite Hconv. unfold w4. cbn. calls. rewrite Hconv3.
    unfold w2. cbn. calls. by rewrite Htts, app_nil_r.
Qed.

(** X23.  When the model's text is not empty but blank, the reply is the
    empty text: the turn prints "No response generated." and returns None
    without any synthesis call, yet the history has gained the pair
    (transcript, blank text). *)
Theorem process_voice_input_blank_reply_still_recorded
    (s : VoiceAssistant.self) (audio_data : option AudioBuffer)
    (audio_path : option string) (w : world) (text : string)
    (r : response) (t : string) :
  GemmaSpec.valid w ->
  (WhisperSTT.transcribe_audio (VoiceAssistant.stt_engines s)
     audio_data audio_path w).1 = Returned text ->
  truthy text = true ->
  VoiceAssistant.llm_engine s (VoiceAssistant.llm_model s)
    (GemmaSpec.contents_for (history w) text) = Returned r ->
  GemmaClient.response_text r = Returned t ->
  truthy t = true ->
  truthy (strip t) = false ->
  exists w',
    VoiceAssistant.process_voice_input s audio_data audio_path w
      = (Returned None, w') /\
    history w' = GemmaSpec.trimmed 10
                   (history w ++ [GemmaClient.user_message text;
                                  GemmaClient.model_message t]) /\
    convert_calls (log w') = convert_calls (log w) /\
    last (printed (log w')) = Some "No response generated.".
Proof.
  intros Hv Htext Htruthy Heng Hresp Ht Hblank.
  destruct (transcribe_audio_run (VoiceAssistant.stt_engines s)
              audio_data audio_path) as (evs & Hllm & Htts & Hrun).
  rewrite Hrun in Htext. cbn [fst] in Htext. injection Htext as Htext.
  unfold VoiceAssistant.process_voice_input, try_except.
  unfold bind at 1, print at 1, emit at 1. unfold bind at 1.
  rewrite Hrun, Htext, Htruthy. cbn [negb].
  unfold bind at 1, print at 1, emit at 1.
  unfold bind at 1, print at 1, emit at 1.
  match goal with
  | |- context [bind (GemmaClient.generate_response _ _ _ _) _ ?wB] =>
      set (w2 := wB)
  end.
  assert (Hv2 : GemmaSpec.valid w2) by exact Hv.
  destruct (generate_response_own (VoiceAssistant.llm_engine s)
              (VoiceAssistant.llm_model s) text None w2 Hv2 I)
    as (w3 & Hgen & Hv3 & Hh3 & _ & Hconv3 & _).
  change (history w2) with (history w) in Hgen, Hh3.
  unfold GemmaSpec.reply_for, GemmaSpec.generated_text in Hgen, Hh3.
  rewrite Heng, Hresp, Ht in Hgen, Hh3.
  rewrite (bind_returned _ _ _ _ _ Hgen). rewrite Hblank. cbn [negb]. step.
  eexists. split; [reflexivity|]. cbn. split; [exact Hh3|]. split.
  - calls. rewrite Hconv3. unfold w2. cbn. calls. by rewrite Htts, app_nil_r.
  - rewrite printed_app. cbn. by rewrite last_snoc.
Qed.

(** X24.  A turn never raises, whatever the three engines do, and never
    touches the file system. *)
Theorem process_voice_input_never_raises
    (s : VoiceAssistant.self) (audio_data : option AudioBuffer)
    (audio_path : option string) (w : world) :
  exists reply w',
    VoiceAssistant.process_voice_input s audio_data audio_path w
      = (Returned reply, w') /\
    files w' = files w.
Proof.
  pose proof (keeps_files_process_voice_input s audio_data audio_path w) as Hfiles.
  assert (Hnever : Effects.never_raises
                     (VoiceAssistant.process_voice_input s audio_data audio_path)).
  { unfold VoiceAssistant.process_voice_input. absorbed. }
  destruct (Hnever w) as (reply & w' & Hrun).
  rewrite Hrun in Hfiles. by exists reply, w'.
Qed.

(* --------------------------------------------------------------------- *)
(* The interactive loop                                                  *)
(* --------------------------------------------------------------------- *)

Section InteractiveLoop.
Import Frame.

Lemma keeps_lists_save_audio st s a name : keeps lists (WhisperSTT.save_audio st s a name).
Proof. unfold WhisperSTT.save_audio, print. framed. Qed.

Lemma keeps_heard_continuation (s : VoiceAssistant.self) (text : string) :
  keeps heard
    (if negb (truthy text) then
       print "No speech detected or error in transcription." >> ret None
     else
       print ("You said: " +:+ text) >>
       print "Generating response..." >>
       let! response := GemmaClient.generate_response
                          (VoiceAssistant.llm_engine s)
                          (VoiceAssistant.llm_model s) text None in
       if negb (truthy response) then
         print "No response generated." >> ret None
       else
         print ("Assistant: " +:+ response) >>
         print "Speaking..." >>
         ElevenLabsTTS.speak (VoiceAssistant.tts_engines s)
           (VoiceAssistant.tts s) response None None false >>
         ret (Some response)).
Proof.
  pose proof keeps_heard_generate_response. pose proof keeps_heard_speak.
  unfold print. framed.
Qed.

(** A turn on a buffer asks the speech model about that buffer, once. *)
Lemma process_voice_input_heard (s : VoiceAssistant.self) (a : AudioBuffer) w :
  transcriptions (log (VoiceAssistant.process_voice_input s (Some a) None w).2)
  = transcriptions (log w) ++ [FromData a].
Proof.
  change (heard (VoiceAssistant.process_voice_input s (Some a) None w).2
          = heard w ++ [FromData a]).
  unfold VoiceAssistant.process_voice_input.
  rewrite frame_try_run by (intros e; unfold print; framed).
  unfold bind at 1, print at 1, emit at 1.
  rewrite frame_bind_run by (intros text; apply keeps_heard_continuation).
  unfold heard, WhisperSTT.transcribe_audio, WhisperSTT.call_transcribe. step.
  destruct (WhisperSTT.model_transcribe _ _) as [text|e]; cbn; by calls.
Qed.

Lemma session_inv_frame w w' es :
  lists w' = lists w -> SessionSpec.session_inv w es -> SessionSpec.session_inv w' es.
Proof.
  unfold lists, SessionSpec.session_inv, GemmaSpec.valid, history, deref_in.
  intros Heq. injection Heq as -> ->. done.
Qed.

(** A pass through the loop returns and keeps what a session has
    established. *)
Lemma interactive_turn_inv st s recording_duration save_recordings w es :
  SessionSpec.session_inv w es ->
  exists w' es',
    VoiceAssistant.interactive_turn st s recording_duration save_recordings w
      = (Returned tt, w') /\
    SessionSpec.session_inv w' es'.
Proof.
  intros Hinv.
  unfold VoiceAssistant.interactive_turn, try_except.
  unfold bind at 1, print at 1, emit at 1. unfold bind at 1.
  match goal with
  | |- context [WhisperSTT.record_audio ?e ?v ?d ?w1] =>
      pose proof (keeps_lists_record_audio e v d w1
                  : lists (WhisperSTT.record_audio e v d w1).2 = lists w) as Hrec;
      destruct (WhisperSTT.record_audio e v d w1) as [[[a|]|e1] w2]
  end; cbn [snd] in Hrec.
  - (* recorded *)
    unfold bind at 1.
    match goal with
    | |- context [(if save_recordings then ?m else _) w2] =>
        assert (Hsave : keeps lists (if save_recordings then m else ret tt))
          by (pose proof keeps_lists_save_audio; framed);
        specialize (Hsave w2);
        destruct ((if save_recordings then m else ret tt) w2) as [[[]|e2] w3]
    end; cbn [snd] in Hsave.
    + assert (Hinv3 : SessionSpec.session_inv w3 es).
      { apply (session_inv_frame w); [|done]. by rewrite Hsave, Hrec. }
      destruct (process_voice_input_inv s (Some a) None w3 es Hinv3)
        as (r & w4 & Hrun & Hinv4).
      rewrite (bind_returned _ _ _ _ _ Hrun). step. by eexists _, _.
    + step. eexists _, es. split; [reflexivity|].
      apply (session_inv_frame w); [|done]. cbn. by rewrite <- Hrec, <- Hsave.
  - (* the recording call failed: None *)
    step. eexists _, es. split; [reflexivity|].
    apply (session_inv_frame w); [|done]. by rewrite Hrec.
  - (* no device *)
    step. eexists _, es. split; [reflexivity|].
    apply (session_inv_frame w); [|done]. cbn. by rewrite <- Hrec.
Qed.

Lemma interactive_turns_inv turns : forall w es,
  SessionSpec.session_inv w es ->
  exists w' es',
    VoiceAssistant.interactive_turns turns w = (Returned tt, w') /\
    SessionSpec.session_inv w' es'.
Proof.
  induction turns as [|[[[st s] d] sv] turns IH]; intros w es Hinv;
    cbn [VoiceAssistant.interactive_turns].
  - by exists w, es.
  - destruct (interactive_turn_inv st s d sv w es Hinv) as (w1 & es1 & Hrun & Hinv1).
    rewrite (bind_returned _ _ _ _ _ Hrun). by apply (IH w1 es1).
Qed.

End InteractiveLoop.

Lemma process_voice_input_returns s a p :
  Effects.never_raises (VoiceAssistant.process_voice_input s a p).
Proof. unfold VoiceAssistant.process_voice_input. absorbed. Qed.

(** One pass without a device: two lines on the console, nothing else. *)
Lemma interactive_turn_no_device st s duration save_recordings w :
  WhisperSTT.device_id (VoiceAssistant.stt s) = None ->
  exists line,
    VoiceAssistant.interactive_turn st s duration save_recordings w
    = (Returned tt,
       set_log (log w ++ [Console "Recording..."; Console line]) w).
Proof.
  intros Hdev.
  unfold VoiceAssistant.interactive_turn, WhisperSTT.record_audio.
  rewrite Hdev. step. rewrite <- app_assoc. by eexists.
Qed.

(** X25.  Without an audio device the interactive loop does not stop and
    does nothing useful: every pass returns after printing two lines (the
    prompt and the error of [record_audio], caught by the loop), and no
    recording is requested, nothing is transcribed, the language model is
    not called and no file is written, however many passes are made. *)
Theorem interactive_loop_without_device
    (turns : list (WhisperSTT.storage * VoiceAssistant.self * float * bool)) :
  Forall (fun '(_, s, _, _) =>
            WhisperSTT.device_id (VoiceAssistant.stt s) = None) turns ->
  forall w, exists w',
    VoiceAssistant.interactive_turns turns w = (Returned tt, w') /\
    recordings (log w') = recordings (log w) /\
    transcriptions (log w') = transcriptions (log w) /\
    llm_calls (log w') = llm_calls (log w) /\
    files w' = files w /\
    length (printed (log w'))
      = (length (printed (log w)) + 2 * length turns)%nat.
Proof.
  induction 1 as [|[[[st s] d] sv] turns Hdev _ IH]; intros w;
    cbn [VoiceAssistant.interactive_turns].
  - exists w. repeat split; try done.
  - destruct (interactive_turn_no_device st s d sv w Hdev) as (line & Hrun).
    rewrite (bind_returned _ _ _ _ _ Hrun).
    destruct (IH (set_log (log w ++ [Console "Recording..."; Console line]) w))
      as (w' & Hrest & Hrec & Hheard & Hasked & Hfiles & Hprinted).
    exists w'. split; [exact Hrest|].
    rewrite Hrec, Hheard, Hasked, Hfiles, Hprinted. cbn.
    rewrite recordings_app, transcriptions_app, llm_calls_app, printed_app,
      length_app. cbn.
    rewrite !app_nil_r. repeat split; try done. lia.
Qed.

(** X26.  When the recording call raises, the pass ends there: the loop
    goes on (the pass returns), [record_audio] has printed its diagnostic
    last, and nothing is saved, transcribed or sent to the language
    model.  The recording requested was of int(duration x sample rate)
    frames, in float arithmetic. *)
Theorem interactive_turn_capture_failure
    (st : WhisperSTT.storage) (s : VoiceAssistant.self) (duration : float)
    (save_recordings : bool) (d : nat) (frames : Z) (e : exn) (w : world) :
  WhisperSTT.device_id (VoiceAssistant.stt s) = Some d ->
  WhisperSTT.frame_count (VoiceAssistant.stt s) duration = Returned frames ->
  WhisperSTT.sd_rec (VoiceAssistant.stt_engines s) frames
    (WhisperSTT.sample_rate (VoiceAssistant.stt s))
    (WhisperSTT.channels (VoiceAssistant.stt s)) d = Raised e ->
  exists w',
    VoiceAssistant.interactive_turn st s duration save_recordings w
      = (Returned tt, w') /\
    recordings (log w') = recordings (log w) ++ [(frames, d)] /\
    transcriptions (log w') = transcriptions (log w) /\
    llm_calls (log w') = llm_calls (log w) /\
    files w' = files w /\
    last (printed (log w')) = Some ("Error during recording: " +:+ exn_msg e).
Proof.
  intros Hdev Hframes Hrec.
  unfold VoiceAssistant.interactive_turn, WhisperSTT.record_audio,
    WhisperSTT.call_rec.
  rewrite Hdev, Hframes. step. rewrite Hrec. cbn.
  eexists. split; [reflexivity|]. cbn.
  rewrite !recordings_app, !transcriptions_app, !llm_calls_app, !printed_app.
  cbn. rewrite !app_nil_r, last_snoc. done.
Qed.

(** X27.  A pass whose recording succeeds hands the flattened samples to
    the speech model, once.  With saving enabled (and the directory
    available) it has first gone through [save_audio] for
    recordings/recording_<time>.wav: when the file cannot be opened the
    file system is left as it was; when a write fails after the opening
    the file is left with what reached it before the failure; otherwise
    it holds the samples as a WAV file (the channels and frame rate of
    the recorder, 2-byte samples).  None of these failures keeps the
    recording from being transcribed, and the rest of the pass writes no
    file. *)
Theorem interactive_turn_saves_then_transcribes
    (st : WhisperSTT.storage) (s : VoiceAssistant.self) (duration : float)
    (save_recordings : bool) (d : nat) (frames : Z)
    (data : list (list sample)) (w : world) :
  let path := WhisperSTT.path_join st "recordings"
                ("recording_" +:+ WhisperSTT.now st +:+ ".wav") in
  WhisperSTT.device_id (VoiceAssistant.stt s) = Some d ->
  WhisperSTT.frame_count (VoiceAssistant.stt s) duration = Returned frames ->
  WhisperSTT.sd_rec (VoiceAssistant.stt_engines s) frames
    (WhisperSTT.sample_rate (VoiceAssistant.stt s))
    (WhisperSTT.channels (VoiceAssistant.stt s)) d = Returned data ->
  (save_recordings = true -> WhisperSTT.makedirs_error st "recordings" = None) ->
  exists w',
    VoiceAssistant.interactive_turn st s duration save_recordings w
      = (Returned tt, w') /\
    transcriptions (log w') = transcriptions (log w) ++ [FromData (concat data)] /\
    files w'
      = if save_recordings then
          match WhisperSTT.wave_open_error st path with
          | Some _ => files w
          | None =>
              match WhisperSTT.wave_write_error st path with
              | Some (_, partial) => <[path := partial]> (files w)
              | None =>
                  <[path := WhisperSTT.wave_bytes st
                              (WhisperSTT.channels (VoiceAssistant.stt s)) 2
                              (WhisperSTT.sample_rate (VoiceAssistant.stt s))
                              (WhisperSTT.pcm_frames st (concat data))]> (files w)
              end
          end
        else files w.
Proof.
  intros path Hdev Hframes Hrec Hdir. subst path.
  unfold VoiceAssistant.interactive_turn, WhisperSTT.record_audio,
    WhisperSTT.call_rec.
  rewrite Hdev, Hframes.
  unfold bind, ret, raise, lift, try_except, emit, print, set_log;
    cbn -[VoiceAssistant.process_voice_input WhisperSTT.save_audio].
  rewrite Hrec. cbn -[VoiceAssistant.process_voice_input WhisperSTT.save_audio].
  assert (Hturn : forall W : world,
            transcriptions (log W) = transcriptions (log w) ->
            exists w',
              (let (o, w'0) :=
                 let (o, w'0) :=
                   VoiceAssistant.process_voice_input s (Some (concat data)) None W in
                 match o with
                 | Returned _ => (Returned tt, w'0)
                 | Raised e => (Raised e, w'0)
                 end in
               match o with
               | Returned a => (Returned a, w'0)
               | Raised e =>
                   (Returned tt,
                    {| heap := heap w'0;
                       conversation_history := conversation_history w'0;
                       files := files w'0;
                       log := log w'0
                              ++ [Console ("Error in interactive mode: "
                                           +:+ exn_msg e)] |})
               end) = (Returned tt, w') /\
              transcriptions (log w')
                = transcriptions (log w) ++ [FromData (concat data)] /\
              files w' = files W).
  { intros W HW.
    destruct (process_voice_input_returns s (Some (concat data)) None W)
      as (r & w' & Hrun).
    pose proof (process_voice_input_heard s (concat data) W) as Hheard.
    pose proof (keeps_files_process_voice_input s (Some (concat data)) None W)
      as Hfiles.
    rewrite Hrun in *. cbn in Hfiles.
    exists w'. split; [reflexivity|]. split; [|done].
    rewrite <- HW.
    replace w' with (VoiceAssistant.process_voice_input s (Some (concat data))
                       None W).2 by (by rewrite Hrun).
    exact Hheard. }
  destruct save_recordings.
  - rewrite (Hdir eq_refl).
    unfold WhisperSTT.save_audio, WhisperSTT.write_file.
    rewrite (Hdir eq_refl).
    destruct (WhisperSTT.wave_open_error st _) as [e|];
      [|destruct (WhisperSTT.wave_write_error st _) as [[e partial]|]];
      unfold bind, ret, raise, lift, try_except, emit, print, set_log, set_files;
      cbn -[VoiceAssistant.process_voice_input];
      match goal with
      | |- context [VoiceAssistant.process_voice_input s _ None ?W] =>
          destruct (Hturn W) as (w' & Hrun & Hheard & Hfiles);
          [cbn; by calls|exists w'; split; [exact Hrun|by rewrite Hheard, Hfiles]]
      end.
  - match goal with
    | |- context [VoiceAssistant.process_voice_input s _ None ?W] =>
        destruct (Hturn W) as (w' & Hrun & Hheard & Hfiles);
        [cbn; by calls|exists w'; split; [exact Hrun|by rewrite Hheard, Hfiles]]
    end.
Qed.

(** X28.  With saving enabled, a recording that succeeded is lost when the
    directory for recordings cannot be made: [os.makedirs] raises before
    the turn is processed, the loop catches it and prints it, and the
    recorded samples are neither transcribed nor sent on; no file is
    written. *)
Theorem interactive_turn_makedirs_failure_drops_recording
    (st : WhisperSTT.storage) (s : VoiceAssistant.self) (duration : float)
    (d : nat) (frames : Z) (data : list (list sample)) (e : exn) (w : world) :
  WhisperSTT.device_id (VoiceAssistant.stt s) = Some d ->
  WhisperSTT.frame_count (VoiceAssistant.stt s) duration = Returned frames ->
  WhisperSTT.sd_rec (VoiceAssistant.stt_engines s) frames
    (WhisperSTT.sample_rate (VoiceAssistant.stt s))
    (WhisperSTT.channels (VoiceAssistant.stt s)) d = Returned data ->
  WhisperSTT.makedirs_error st "recordings" = Some e ->
  exists w',
    VoiceAssistant.interactive_turn st s duration true w = (Returned tt, w') /\
    recordings (log w') = recordings (log w) ++ [(frames, d)] /\
    transcriptions (log w') = transcriptions (log w) /\
    llm_calls (log w') = llm_calls (log w) /\
    files w' = files w /\
    last (printed (log w')) = Some ("Error in interactive mode: " +:+ exn_msg e).
Proof.
  intros Hdev Hframes Hrec Hdir.
  unfold VoiceAssistant.interactive_turn, WhisperSTT.record_audio,
    WhisperSTT.call_rec.
  rewrite Hdev, Hframes, Hdir. step. rewrite Hrec. cbn.
  eexists. split; [reflexivity|]. cbn.
  rewrite !recordings_app, !transcriptions_app, !llm_calls_app, !printed_app.
  cbn. rewrite !app_nil_r, last_snoc. done.
Qed.

(** X29.  The interactive loop never ends on an exception of a pass, and
    the history of a new client stays bounded through it: after any
    number of passes, with whatever the microphone, the file system and
    the three engines do in each, the loop has returned from every pass
    and the history holds at most 2 x 10 entries, in (user, model)
    pairs. *)
Theorem interactive_loop_keeps_history_bounded
    (turns : list (WhisperSTT.storage * VoiceAssistant.self * float * bool))
    (w0 : world) :
  exists w,
    (GemmaClient.init >> VoiceAssistant.interactive_turns turns) w0
      = (Returned tt, w) /\
    (length (history w) <= 2 * 10)%nat /\
    GemmaSpec.complete_pairs (history w) = true.
Proof.
  unfold GemmaClient.init. step.
  match goal with
  | |- context [VoiceAssistant.interactive_turns _ ?w1] =>
      destruct (interactive_turns_inv turns w1 [])
        as (w & es & Hrun & Hv & Hh)
  end.
  { unfold SessionSpec.session_inv, GemmaSpec.valid, history, deref_in. cbn.
    rewrite length_app, heap_new. cbn. split; [lia|done]. }
  exists w. split; [exact Hrun|]. rewrite Hh.
  rewrite length_entries, length_last_pairs, complete_pairs_entries.
  split; [lia|done].
Qed.

(** X30.  In buffered mode what [text_to_speech] returns is the iterator
    the engine handed back, not bytes and, after saving, not None: with a
    path to save to it is that iterator already consumed by the write, a
    value that is truthy and carries no bytes, so that [play_audio] on it
    hands the player an empty payload. *)
Theorem text_to_speech_buffered_save_returns_consumed_iterator
    (eng : ElevenLabsTTS.engines) (s : ElevenLabsTTS.self) (text : string)
    (voice_id_arg model_arg save_path : option string) (p : string)
    (w : world) (audio : chunks) (payload : bytes) :
  truthy (strip text) = true ->
  ElevenLabsTTS.convert eng text
    (or_default voice_id_arg (ElevenLabsTTS.voice_id s))
    (or_default model_arg (ElevenLabsTTS.model s)) = Returned audio ->
  ElevenLabsTTS.join audio = Returned payload ->
  SynthesisSpec.save_target save_path = Some p ->
  ElevenLabsTTS.open_error eng p = None ->
  exists r w1 w2,
    ElevenLabsTTS.text_to_speech eng s text voice_id_arg model_arg None
      false w = (Returned (Some (AudioIter audio)), w1) /\
    ElevenLabsTTS.text_to_speech eng s text voice_id_arg model_arg save_path
      false w = (Returned r, w2) /\
    r = Some (AudioIter Done) /\
    ElevenLabsTTS.audio_truthy r = true /\
    files w2 !! p = Some payload /\
    played (log (ElevenLabsTTS.play_audio eng r w2).2)
      = played (log w2) ++ [[]].
Proof.
  intros Htext Hconv Hjoin Hsave Hopen.
  destruct (text_to_speech_buffered_run eng s text voice_id_arg model_arg
              None w audio payload Htext Hconv Hjoin)
    as (w1 & Hrun1 & _); [discriminate|].
  destruct (text_to_speech_buffered_run eng s text voice_id_arg model_arg
              save_path w audio payload Htext Hconv Hjoin)
    as (w2 & Hrun2 & _ & _ & Hfiles).
  { intros q Hq. rewrite Hsave in Hq. by injection Hq as <-. }
  rewrite Hsave in Hrun2, Hfiles.
  eexists _, w1, w2. split; [exact Hrun1|]. split; [exact Hrun2|].
  split; [reflexivity|]. split; [reflexivity|].
  split; [rewrite Hfiles; apply lookup_insert_eq|].
  unfold ElevenLabsTTS.play_audio, ElevenLabsTTS.call_play,
    ElevenLabsTTS.raise_if. cbn [ElevenLabsTTS.audio_truthy]. step.
  destruct (ElevenLabsTTS.play eng []); cbn; by calls.
Qed.

(* --------------------------------------------------------------------- *)
(* The further properties at concrete engines and worlds                 *)
(* --------------------------------------------------------------------- *)

Lemma generate_response_success_appends_pair_witness :
  exists w',
    GemmaClient.generate_response Examples.answering_llm "gemma-3-27b-it"
      "And now?" None Examples.talked_world = (Returned "Hi there", w') /\
    history w' = [GemmaClient.user_message "Hello";
                  GemmaClient.model_message "Hi there";
                  GemmaClient.user_message "And now?";
                  GemmaClient.model_message "Hi there"] /\
    llm_calls (log w')
      = [ContentMessages [GemmaClient.user_message "Hello";
                          GemmaClient.model_message "Hi there";
                          GemmaClient.user_message "And now?"]].
Proof.
  apply (generate_response_success_appends_pair Examples.answering_llm
           "gemma-3-27b-it" "And now?" None Examples.talked_world
           Scenarios.hi_there "Hi there").
  - unfold GemmaSpec.valid. simpl. lia.
  - exact I.
  - reflexivity.
  - reflexivity.
  - reflexivity.
Defined.

Lemma generate_response_without_text_keeps_history_witness :
  exists reply w',
    GemmaClient.generate_response Scenarios.mute_llm "gemma-3-27b-it"
      "And now?" None Examples.talked_world = (Returned reply, w') /\
    history w' = history Examples.talked_world /\
    (reply = "Sorry, I couldn't generate a response. Please try again."
     \/ exists e, reply = GemmaSpec.failure_reply e).
Proof.
  apply (generate_response_without_text_keeps_history Scenarios.mute_llm
           "gemma-3-27b-it" "And now?" None Examples.talked_world).
  - unfold GemmaSpec.valid. simpl. lia.
  - exact I.
  - reflexivity.
Defined.

Lemma second_call_receives_first_exchange_witness :
  exists reply1 w1 reply2 w2 earlier,
    GemmaClient.generate_response Examples.answering_llm "gemma-3-27b-it"
      "Hello" None Examples.new_world = (Returned reply1, w1) /\
    GemmaClient.generate_response Examples.failing_llm "gemma-3-27b-it"
      "And now?" None w1 = (Returned reply2, w2) /\
    llm_calls (log w2)
      = [ContentText "Hello";
         ContentMessages (earlier ++ [GemmaClient.user_message "Hello";
                                      GemmaClient.model_message "Hi there";
                                      GemmaClient.user_message "And now?"])].
Proof.
  apply (second_call_receives_first_exchange Examples.answering_llm
           Examples.failing_llm "gemma-3-27b-it" "Hello" "And now?"
           Examples.new_world Scenarios.hi_there "Hi there").
  - unfold GemmaSpec.valid. simpl. lia.
  - reflexivity.
  - reflexivity.
  - reflexivity.
Defined.

Lemma external_context_never_updates_history_witness :
  exists reply w',
    GemmaClient.generate_response Examples.answering_llm "gemma-3-27b-it"
      "And now?" (Some 1%nat) Examples.talked_world = (Returned reply, w') /\
    history w' = history Examples.talked_world /\
    llm_calls (log w')
      = [ContentMessages [GemmaClient.user_message "earlier";
                          GemmaClient.user_message "And now?"]].
Proof.
  apply (external_context_never_updates_history Examples.answering_llm
           "gemma-3-27b-it" "And now?" 1%nat Examples.talked_world).
  - unfold GemmaSpec.valid. simpl. lia.
  - discriminate.
  - discriminate.
Defined.

Lemma own_history_as_context_gets_user_entry_only_witness :
  exists reply w',
    GemmaClient.generate_response Examples.answering_llm "gemma-3-27b-it"
      "And now?" (Some 0%nat) Examples.talked_world = (Returned reply, w') /\
    conversation_history w' = 0%nat /\
    history w' = [GemmaClient.user_message "Hello";
                  GemmaClient.model_message "Hi there";
                  GemmaClient.user_message "And now?"].
Proof.
  apply (own_history_as_context_gets_user_entry_only Examples.answering_llm
           "gemma-3-27b-it" "And now?" Examples.talked_world).
  discriminate.
Defined.

Lemma update_conversation_history_keeps_newest_witness :
  exists w',
    GemmaClient._update_conversation_history "And now?" "Fine" 1
      Examples.talked_world = (Returned tt, w') /\
    history w' = [GemmaClient.user_message "And now?";
                  GemmaClient.model_message "Fine"] /\
    length (history w') = 2%nat.
Proof.
  apply (update_conversation_history_keeps_newest "And now?" "Fine" 1
           Examples.talked_world).
  - unfold GemmaSpec.valid. simpl. lia.
  - lia.
Defined.

Lemma update_conversation_history_nonpositive_cap_witness :
  exists w',
    GemmaClient._update_conversation_history "And now?" "Fine" (-1)
      Examples.talked_world = (Returned tt, w') /\
    history w' = [GemmaClient.user_message "And now?";
                  GemmaClient.model_message "Fine"] /\
    ((-1)%Z = 0%Z ->
     history w' = history Examples.talked_world
                  ++ [GemmaClient.user_message "And now?";
                      GemmaClient.model_message "Fine"]).
Proof.
  apply (update_conversation_history_nonpositive_cap "And now?" "Fine" (-1)
           Examples.talked_world).
  - unfold GemmaSpec.valid. simpl. lia.
  - lia.
Defined.

Lemma clear_conversation_history_rebinds_witness :
  exists w1 reply w2,
    GemmaClient.clear_conversation_history Examples.talked_world
      = (Returned tt, w1) /\
    history w1 = [] /\
    deref_in w1 0%nat = [GemmaClient.user_message "Hello";
                         GemmaClient.model_message "Hi there"] /\
    GemmaClient.generate_response Examples.answering_llm "gemma-3-27b-it"
      "And now?" None w1 = (Returned reply, w2) /\
    llm_calls (log w2) = [ContentText "And now?"].
Proof.
  apply (clear_conversation_history_rebinds Examples.answering_llm
           "gemma-3-27b-it" "And now?" Examples.talked_world).
  unfold GemmaSpec.valid. simpl. lia.
Defined.

Lemma blank_text_is_not_synthesized_witness :
  ElevenLabsTTS.text_to_speech Examples.working_tts Examples.default_voice
    "  " None None (Some "output/reply.mp3") true Examples.new_world
  = (Returned None,
     set_log [Console "No text provided for TTS"] Examples.new_world)
  /\ ElevenLabsTTS.speak Examples.working_tts Examples.default_voice "  "
       None None false Examples.new_world
     = (Returned tt,
        set_log [Console "No text provided for TTS"] Examples.new_world).
Proof.
  apply (blank_text_is_not_synthesized Examples.working_tts
           Examples.default_voice "  " None None (Some "output/reply.mp3")
           true Examples.new_world).
  reflexivity.
Defined.

Lemma text_to_speech_streamed_returns_payload_witness :
  exists w',
    ElevenLabsTTS.text_to_speech Examples.working_tts Examples.default_voice
      "Hello" (Some "JBFqnCBsd6RMkjVDRZzb") None (Some "") true
      Examples.new_world
    = (Returned (Some (AudioBytes [Byte.x49; Byte.x44; Byte.x33])), w') /\
    stream_calls (log w')
      = [("Hello", "JBFqnCBsd6RMkjVDRZzb", "eleven_flash_v2_5")] /\
    convert_calls (log w') = [] /\
    files w' = ∅.
Proof.
  apply (text_to_speech_streamed_returns_payload Examples.working_tts
           Examples.default_voice "Hello" (Some "JBFqnCBsd6RMkjVDRZzb") None
           (Some "") Examples.new_world Examples.two_chunks
           [Byte.x49; Byte.x44; Byte.x33]).
  - reflexivity.
  - reflexivity.
  - reflexivity.
  - reflexivity.
Defined.

Lemma text_to_speech_streamed_saves_to_file_witness :
  exists w',
    ElevenLabsTTS.text_to_speech Examples.working_tts Examples.default_voice
      "Hello" None None (Some "output/reply.mp3") true Examples.new_world
    = (Returned None, w') /\
    files w' = <["output/reply.mp3" := [Byte.x49; Byte.x44; Byte.x33]]> ∅ /\
    stream_calls (log w')
      = [("Hello", "uyVNoMrnUku1dZyVEXwD", "eleven_flash_v2_5")] /\
    convert_calls (log w') = [].
Proof.
  apply (text_to_speech_streamed_saves_to_file Examples.working_tts
           Examples.default_voice "Hello" None None (Some "output/reply.mp3")
           "output/reply.mp3" Examples.new_world Examples.two_chunks
           [Byte.x49; Byte.x44; Byte.x33]).
  - reflexivity.
  - reflexivity.
  - reflexivity.
  - reflexivity.
  - reflexivity.
Defined.

Lemma text_to_speech_interrupted_save_leaves_partial_file_witness :
  exists w',
    ElevenLabsTTS.text_to_speech Scenarios.breaking_tts Examples.default_voice
      "Hello" None None (Some "output/reply.mp3") false Examples.new_world
    = (Returned None, w') /\
    files w' = <["output/reply.mp3" := [Byte.x49; Byte.x44]]> ∅ /\
    last (printed (log w'))
      = Some "Error in text-to-speech conversion: network down".
Proof.
  apply (text_to_speech_interrupted_save_leaves_partial_file
           Scenarios.breaking_tts Examples.default_voice "Hello" None None
           (Some "output/reply.mp3") false "output/reply.mp3"
           Examples.new_world Scenarios.breaking_chunks Examples.network_error).
  - reflexivity.
  - reflexivity.
  - reflexivity.
  - reflexivity.
  - reflexivity.
Defined.

Lemma text_to_speech_engine_error_absorbed_witness :
  exists w',
    ElevenLabsTTS.text_to_speech Examples.offline_tts Examples.default_voice
      "Hello" None None (Some "output/reply.mp3") true Examples.new_world
    = (Returned None, w') /\
    files w' = ∅ /\
    last (printed (log w'))
      = Some "Error in text-to-speech conversion: network down".
Proof.
  apply (text_to_speech_engine_error_absorbed Examples.offline_tts
           Examples.default_voice "Hello" None None (Some "output/reply.mp3")
           true Examples.new_world Examples.network_error).
  - reflexivity.
  - reflexivity.
Defined.

Lemma speak_buffered_plays_converted_audio_witness :
  exists w',
    ElevenLabsTTS.speak Examples.working_tts Examples.default_voice "Hello"
      None None false Examples.new_world = (Returned tt, w') /\
    convert_calls (log w')
      = [("Hello", "uyVNoMrnUku1dZyVEXwD", "eleven_flash_v2_5")] /\
    played (log w') = [[Byte.x49; Byte.x44; Byte.x33]] /\
    files w' = ∅.
Proof.
  apply (speak_buffered_plays_converted_audio Examples.working_tts
           Examples.default_voice "Hello" None None Examples.new_world).
  reflexivity.
Defined.

Lemma speak_streamed_sends_any_text_witness :
  exists w',
    ElevenLabsTTS.speak Examples.working_tts Examples.default_voice "  "
      None None true Examples.new_world = (Returned tt, w') /\
    stream_calls (log w')
      = [("  ", "uyVNoMrnUku1dZyVEXwD", "eleven_flash_v2_5")] /\
    stream_played (log w') = [[Byte.x49; Byte.x44; Byte.x33]] /\
    convert_calls (log w') = [].
Proof.
  apply (speak_streamed_sends_any_text Examples.working_tts
           Examples.default_voice "  " None None Examples.new_world
           Examples.two_chunks [Byte.x49; Byte.x44; Byte.x33]).
  - reflexivity.
  - reflexivity.
  - reflexivity.
Defined.

Lemma transcribe_audio_transcribes_chosen_source_witness :
  WhisperSTT.transcribe_audio Scenarios.recording_stt (Some [])
    (Some "question.wav") Examples.new_world
  = (Returned "hello",
     set_log [WhisperTranscribe (FromPath "question.wav")] Examples.new_world).
Proof.
  apply (transcribe_audio_transcribes_chosen_source Scenarios.recording_stt
           (Some []) (Some "question.wav") (FromPath "question.wav")
           Examples.new_world).
  reflexivity.
Defined.

Lemma find_working_device_returns_valid_device_witness :
  match (WhisperSTT._find_working_device Examples.working_stt
           (WhisperSTT.attributes None) Examples.new_world).1 with
  | Returned (Some i) =>
      (i < length Examples.two_devices)%nat /\
      DeviceSpec.has_input Examples.two_devices i = true /\
      DeviceSpec.trial_succeeds Examples.working_stt
        (WhisperSTT.attributes None) i = true /\
      forall j, (j < i)%nat ->
                DeviceSpec.has_input Examples.two_devices j = true ->
                DeviceSpec.trial_succeeds Examples.working_stt
                  (WhisperSTT.attributes None) j = false
  | Returned None =>
      forall j, (j < length Examples.two_devices)%nat ->
                DeviceSpec.has_input Examples.two_devices j = true ->
                DeviceSpec.trial_succeeds Examples.working_stt
                  (WhisperSTT.attributes None) j = false
  | Raised _ => False
  end.
Proof.
  apply (find_working_device_returns_valid_device Examples.working_stt
           Examples.two_devices Examples.new_world).
  reflexivity.
Defined.

Lemma save_audio_writes_wav_at_returned_path_witness :
  exists path w',
    WhisperSTT.save_audio Scenarios.disk (WhisperSTT.attributes (Some 1%nat))
      [0 # 1; 1 # 2]%Q None Examples.new_world = (Returned path, w') /\
    path = "recordings/recording_20250101_120000.wav" /\
    files w' !! path
      = Some [Byte.x52; Byte.x49; Byte.x46; Byte.x46;
              Byte.x00; Byte.x00; Byte.x00; Byte.x00] /\
    length (WhisperSTT.pcm_frames Scenarios.disk [0 # 1; 1 # 2]%Q) = 4%nat /\
    (forall other, other <> path ->
                   files w' !! other = files Examples.new_world !! other) /\
    log w' = [].
Proof.
  apply (save_audio_writes_wav_at_returned_path Scenarios.disk (Some 1%nat)
           [0 # 1; 1 # 2]%Q None Examples.new_world).
  - reflexivity.
  - reflexivity.
  - reflexivity.
Defined.

Lemma process_voice_input_delivers_reply_witness :
  exists w',
    VoiceAssistant.process_voice_input
      (Examples.assistant Examples.working_stt Examples.answering_llm)
      (Some []) None Examples.new_world = (Returned (Some "Hi there"), w') /\
    history w' = [GemmaClient.user_message "hello";
                  GemmaClient.model_message "Hi there"] /\
    convert_calls (log w')
      = [("Hi there", "uyVNoMrnUku1dZyVEXwD", "eleven_flash_v2_5")] /\
    files w' = ∅.
Proof.
  apply (process_voice_input_delivers_reply
           (Examples.assistant Examples.working_stt Examples.answering_llm)
           (Some []) None Examples.new_world "hello" Scenarios.hi_there
           "Hi there").
  - unfold GemmaSpec.valid. simpl. lia.
  - reflexivity.
  - reflexivity.
  - reflexivity.
  - reflexivity.
  - reflexivity.
Defined.

Lemma process_voice_input_blank_reply_still_recorded_witness :
  exists w',
    VoiceAssistant.process_voice_input
      (Examples.assistant Examples.working_stt Scenarios.blank_llm)
      (Some []) None Examples.new_world = (Returned None, w') /\
    history w' = [GemmaClient.user_message "hello";
                  GemmaClient.model_message "  "] /\
    convert_calls (log w') = [] /\
    last (printed (log w')) = Some "No response generated.".
Proof.
  apply (process_voice_input_blank_reply_still_recorded
           (Examples.assistant Examples.working_stt Scenarios.blank_llm)
           (Some []) None Examples.new_world "hello" Scenarios.blank_response
           "  ").
  - unfold GemmaSpec.valid. simpl. lia.
  - reflexivity.
  - reflexivity.
  - reflexivity.
  - reflexivity.
  - reflexivity.
  - reflexivity.
Defined.

Lemma interactive_loop_without_device_witness :
  exists w',
    VoiceAssistant.interactive_turns
      [(Scenarios.disk, Scenarios.deaf_assistant, Scenarios.duration_5, true);
       (Scenarios.disk, Scenarios.deaf_assistant, Scenarios.duration_5, true)]
      Examples.new_world = (Returned tt, w') /\
    recordings (log w') = [] /\
    transcriptions (log w') = [] /\
    llm_calls (log w') = [] /\
    files w' = ∅ /\
    length (printed (log w')) = 4%nat.
Proof.
  apply (interactive_loop_without_device
           [(Scenarios.disk, Scenarios.deaf_assistant, Scenarios.duration_5, true);
            (Scenarios.disk, Scenarios.deaf_assistant, Scenarios.duration_5, true)]).
  repeat constructor.
Defined.

Lemma interactive_turn_capture_failure_witness :
  exists w',
    VoiceAssistant.interactive_turn Scenarios.disk
      (Examples.assistant Examples.broken_stt Examples.answering_llm)
      Scenarios.duration_2_01 true Examples.new_world = (Returned tt, w') /\
    recordings (log w') = [(32159%Z, 1%nat)] /\
    transcriptions (log w') = [] /\
    llm_calls (log w') = [] /\
    files w' = ∅ /\
    last (printed (log w')) = Some "Error during recording: device unavailable".
Proof.
  apply (interactive_turn_capture_failure Scenarios.disk
           (Examples.assistant Examples.broken_stt Examples.answering_llm)
           Scenarios.duration_2_01 true 1%nat 32159 Examples.device_error
           Examples.new_world).
  - reflexivity.
  - reflexivity.
  - reflexivity.
Defined.

Lemma interactive_turn_saves_then_transcribes_witness :
  exists w',
    VoiceAssistant.interactive_turn Scenarios.full_disk
      (Examples.assistant Scenarios.recording_stt Examples.answering_llm)
      Scenarios.duration_5 true Examples.new_world = (Returned tt, w') /\
    transcriptions (log w') = [FromData [0 # 1; 1 # 2; -1 # 2]%Q] /\
    files w'
      = <["recordings/recording_20250101_120000.wav"
          := [Byte.x52; Byte.x49; Byte.x46; Byte.x46]]> ∅.
Proof.
  apply (interactive_turn_saves_then_transcribes Scenarios.full_disk
           (Examples.assistant Scenarios.recording_stt Examples.answering_llm)
           Scenarios.duration_5 true 1%nat 80000 Scenarios.two_blocks
           Examples.new_world).
  - reflexivity.
  - reflexivity.
  - reflexivity.
  - reflexivity.
Defined.

Lemma interactive_turn_makedirs_failure_drops_recording_witness :
  exists w',
    VoiceAssistant.interactive_turn Scenarios.read_only_disk
      (Examples.assistant Scenarios.recording_stt Examples.answering_llm)
      Scenarios.duration_2_01 true Examples.new_world = (Returned tt, w') /\
    recordings (log w') = [(32159%Z, 1%nat)] /\
    transcriptions (log w') = [] /\
    llm_calls (log w') = [] /\
    files w' = ∅ /\
    last (printed (log w')) = Some "Error in interactive mode: permission denied".
Proof.
  apply (interactive_turn_makedirs_failure_drops_recording
           Scenarios.read_only_disk
           (Examples.assistant Scenarios.recording_stt Examples.answering_llm)
           Scenarios.duration_2_01 1%nat 32159 Scenarios.two_blocks
           Scenarios.permission_error Examples.new_world).
  - reflexivity.
  - reflexivity.
  - reflexivity.
  - reflexivity.
Defined.

Lemma text_to_speech_buffered_save_returns_consumed_iterator_witness :
  exists r w1 w2,
    ElevenLabsTTS.text_to_speech Examples.working_tts Examples.default_voice
      "Hello" None None None false Examples.new_world
      = (Returned (Some (AudioIter Examples.two_chunks)), w1) /\
    ElevenLabsTTS.text_to_speech Examples.working_tts Examples.default_voice
      "Hello" None None (Some "output/reply.mp3") false Examples.new_world
      = (Returned r, w2) /\
    r = Some (AudioIter Done) /\
    ElevenLabsTTS.audio_truthy r = true /\
    files w2 !! "output/reply.mp3" = Some [Byte.x49; Byte.x44; Byte.x33] /\
    played (log (ElevenLabsTTS.play_audio Examples.working_tts r w2).2)
      = played (log w2) ++ [[]].
Proof.
  apply (text_to_speech_buffered_save_returns_consumed_iterator
           Examples.working_tts Examples.default_voice "Hello" None None
           (Some "output/reply.mp3") "output/reply.mp3" Examples.new_world
           Examples.two_chunks [Byte.x49; Byte.x44; Byte.x33]).
  - reflexivity.
  - reflexivity.
  - reflexivity.
  - reflexivity.
  - reflexivity.
Defined.
